(** * ck-cashbook: a shallow embedding of the [book] application

    The development follows the Python sources of the application
    ([book/utils.py], [book/permissions.py], [book/models.py],
    [book/forms.py], [book/views.py]).  Every view is a function of the
    database, the session and the request; an uncaught Python exception
    is the left injection of [result].  Text is a [string] of ASCII
    characters, ordered by character code. *)

From Stdlib Require Import ZArith NArith List String Ascii Bool Lia.
From Stdlib Require Import Permutation Sorted QArith.
From Stdlib Require OrderedTypeEx.
Import ListNotations.

Local Open Scope string_scope.
Local Open Scope Z_scope.

(** ** Exceptions and the error monad *)

(** The exception classes that the modelled code can raise.  None of
    them is a subclass of another one of the list:
    [decimal.InvalidOperation] and [decimal.Overflow] derive from
    [ArithmeticError], [KeyError] from [LookupError], and the two ORM
    exceptions from [Exception]. *)
Inductive exn : Type :=
| ValueError
| TypeError
| OverflowError
| KeyError
| InvalidOperation
| Overflow
| DoesNotExist
| MultipleObjectsReturned
| ValidationError.

Definition exn_eqb (a b : exn) : bool :=
  match a, b with
  | ValueError, ValueError | TypeError, TypeError
  | OverflowError, OverflowError | KeyError, KeyError
  | InvalidOperation, InvalidOperation | Overflow, Overflow
  | DoesNotExist, DoesNotExist
  | MultipleObjectsReturned, MultipleObjectsReturned
  | ValidationError, ValidationError => true
  | _, _ => false
  end.

Definition result (A : Type) : Type := (exn + A)%type.

Definition ret {A : Type} (a : A) : result A := inr a.
Definition raise {A : Type} (e : exn) : result A := inl e.
Definition bind {A B : Type} (m : result A) (k : A -> result B) : result B :=
  match m with
  | inl e => inl e
  | inr a => k a
  end.

Notation "x <- m ;; k" := (bind m (fun x => k))
  (at level 61, m at next level, right associativity).

(** [try: body  except (e1, e2, ...): handler]. *)
Definition try_except {A : Type} (body : result A) (caught : list exn)
    (handler : result A) : result A :=
  match body with
  | inl e => if existsb (exn_eqb e) caught then handler else inl e
  | inr a => inr a
  end.

(** ** [datetime.date] *)

Module Pydate.

Record date : Type := mkdate { year : Z; month : Z; day : Z }.

Definition MINYEAR : Z := 1.
Definition MAXYEAR : Z := 9999.

Definition is_leap (y : Z) : bool :=
  (y mod 4 =? 0) && (negb (y mod 100 =? 0) || (y mod 400 =? 0)).

(** The two tables are indexed by the month; index 0 is not used. *)
Definition DAYS_IN_MONTH : list Z :=
  [0; 31; 28; 31; 30; 31; 30; 31; 31; 30; 31; 30; 31].

Definition DAYS_BEFORE_MONTH : list Z :=
  [0; 0; 31; 59; 90; 120; 151; 181; 212; 243; 273; 304; 334].

Definition days_in_month (y m : Z) : Z :=
  if (m =? 2) && is_leap y then 29 else nth (Z.to_nat m) DAYS_IN_MONTH 0.

(** The range checks of the [date] constructor. *)
Definition valid (d : date) : bool :=
  (MINYEAR <=? year d) && (year d <=? MAXYEAR) &&
  (1 <=? month d) && (month d <=? 12) &&
  (1 <=? day d) && (day d <=? days_in_month (year d) (month d)).

(** [date(y, m, d)]: [ValueError] outside the supported range. *)
Definition new (y m d : Z) : result date :=
  let r := mkdate y m d in
  if valid r then ret r else raise ValueError.

(** [self.replace(year=..., month=..., day=...)]; an omitted keyword
    keeps the field. *)
Definition replace (self : date) (y m d : option Z) : result date :=
  new (match y with Some v => v | None => year self end)
      (match m with Some v => v | None => month self end)
      (match d with Some v => v | None => day self end).

(** Number of days before January 1st of year [y]. *)
Definition days_before_year (y : Z) : Z :=
  let p := y - 1 in p * 365 + p / 4 - p / 100 + p / 400.

(** Number of days of year [y] before the first of month [m]. *)
Definition days_before_month (y m : Z) : Z :=
  nth (Z.to_nat m) DAYS_BEFORE_MONTH 0
  + (if (2 <? m) && is_leap y then 1 else 0).

(** [self.toordinal()]: 0001-01-01 is day 1. *)
Definition toordinal (d : date) : Z :=
  days_before_year (year d) + days_before_month (year d) (month d) + day d.

(** [self - timedelta(days=1)].  The day field is decremented and the
    triple renormalised: day 0 is the last day of the preceding month,
    month 0 is December of the preceding year; [OverflowError] when the
    year leaves the supported range. *)
Definition sub_one_day (self : date) : result date :=
  let d := day self - 1 in
  let '(y, m, d) :=
    if d =? 0 then
      let m := month self - 1 in
      if 0 <? m then (year self, m, days_in_month (year self) m)
      else (year self - 1, 12, 31)
    else (year self, month self, d) in
  if (MINYEAR <=? y) && (y <=? MAXYEAR) then ret (mkdate y m d)
  else raise OverflowError.

(** Dates compare as the triples (year, month, day). *)
Definition leb (a b : date) : bool :=
  (year a <? year b) ||
  ((year a =? year b) &&
   ((month a <? month b) ||
    ((month a =? month b) && (day a <=? day b)))).

Definition eqb (a b : date) : bool :=
  (year a =? year b) && (month a =? month b) && (day a =? day b).

End Pydate.

Import Pydate.

(** ** Text helpers *)

(** [str.strip()] on the ASCII range: tab, line feed, vertical tab,
    form feed, carriage return, the four separators [\x1c]-[\x1f] and
    the space. *)
Definition is_space (c : ascii) : bool :=
  let n := N_of_ascii c in
  (((9 <=? n) && (n <=? 13)) || ((28 <=? n) && (n <=? 32)))%N.

Fixpoint lstrip (s : list ascii) : list ascii :=
  match s with
  | c :: r => if is_space c then lstrip r else s
  | [] => []
  end.

Definition strip_chars (s : list ascii) : list ascii :=
  rev (lstrip (rev (lstrip s))).

Definition strip (s : string) : string :=
  string_of_list_ascii (strip_chars (list_ascii_of_string s)).

(** The text holds a NUL character, which the [CharField] of a form
    refuses ([ProhibitNullCharactersValidator]). *)
Definition has_nul (s : string) : bool :=
  existsb (Ascii.eqb Ascii.zero) (list_ascii_of_string s).

Definition is_digit (c : ascii) : bool :=
  let n := N_of_ascii c in ((48 <=? n) && (n <=? 57))%N.

Definition lower (c : ascii) : ascii :=
  let n := N_of_ascii c in
  if ((65 <=? n) && (n <=? 90))%N then ascii_of_N (n + 32) else c.

(** The longest prefix of digits, and what follows it. *)
Fixpoint span_digits (s : list ascii) : list ascii * list ascii :=
  match s with
  | c :: r =>
      if is_digit c then let '(ds, rest) := span_digits r in (c :: ds, rest)
      else ([], s)
  | [] => ([], [])
  end.

(** [int(ds)] for a run of digits ([0] for the empty run). *)
Definition digits_value (ds : list ascii) : N :=
  fold_left (fun acc c => (acc * 10 + (N_of_ascii c - 48))%N) ds 0%N.

(** ** [decimal.Decimal] under the default context *)

Module Pydecimal.

(** A finite number is [(-1)^sign * coeff * 10^exp].  The diagnostic
    payload of a NaN is not kept. *)
Inductive Decimal : Type :=
| Finite (sign : bool) (coeff : N) (exp : Z)
| Infinity (sign : bool)
| NaN (sign : bool) (signaling : bool).

(** The default context: [prec=28], [rounding=ROUND_HALF_EVEN],
    [Emin=-999999], [Emax=999999], traps on [InvalidOperation],
    [DivisionByZero] and [Overflow]. *)
Definition prec : Z := 28.
Definition Emax : Z := 999999.
Definition Emin : Z := -999999.
Definition Etiny : Z := Emin - prec + 1.
Definition Etop : Z := Emax - prec + 1.

(** The bounds of the constructor, which converts exactly. *)
Definition MAX_EMAX : Z := 999999999999999999.
Definition MIN_ETINY : Z := -1999999999999999997.

Fixpoint ndigits_aux (fuel : nat) (n : N) : Z :=
  match fuel with
  | O => 0
  | S f => if (n =? 0)%N then 0 else 1 + ndigits_aux f (n / 10)%N
  end.

(** [len(str(n))]: the number of decimal digits, 1 for zero. *)
Definition ndigits (n : N) : Z :=
  if (n =? 0)%N then 1 else ndigits_aux (S (N.to_nat (N.size n))) n.

Definition pow10 (k : Z) : N := (10 ^ Z.to_N k)%N.

(** The three alternatives of the numeric-string syntax, on a string
    already stripped, without underscores, in lower case and past its
    sign: digits with an optional fraction and exponent, an infinity,
    or a NaN. *)
Definition parse_exponent (s : list ascii) : option Z :=
  match s with
  | [] => Some 0
  | "e"%char :: r =>
      let '(neg, r) :=
        match r with
        | "+"%char :: r' => (false, r')
        | "-"%char :: r' => (true, r')
        | _ => (false, r)
        end in
      match span_digits r with
      | ((_ :: _) as ds, []) =>
          let e := Z.of_N (digits_value ds) in
          Some (if neg then - e else e)
      | _ => None
      end
  | _ => None
  end.

Definition parse_number (sign : bool) (s : list ascii) : option Decimal :=
  let '(intpart, r1) := span_digits s in
  let '(fracpart, r2) :=
    match r1 with
    | "."%char :: r => span_digits r
    | _ => ([], r1)
    end in
  match (intpart ++ fracpart)%list with
  | [] => None
  | ds =>
      match parse_exponent r2 with
      | Some e =>
          let coeff := digits_value ds in
          let exp := e - Z.of_nat (List.length fracpart) in
          if (MIN_ETINY <=? exp) && (exp + ndigits coeff - 1 <=? MAX_EMAX)
          then Some (Finite sign coeff exp)
          else None
      | None => None
      end
  end.

Definition parse_special (sign : bool) (s : list ascii) : option Decimal :=
  let t := string_of_list_ascii s in
  if String.eqb t "inf" || String.eqb t "infinity" then Some (Infinity sign)
  else
    let '(signaling, r) :=
      match s with
      | "s"%char :: r => (true, r)
      | _ => (false, s)
      end in
    match r with
    | "n"%char :: "a"%char :: "n"%char :: diag =>
        match span_digits diag with
        | (_, []) => Some (NaN sign signaling)
        | _ => None
        end
    | _ => None
    end.

(** [Decimal(value)] for a [str]: the text is stripped, underscores are
    removed, and what is left has to match the numeric-string syntax
    whole; otherwise [InvalidOperation] is raised. *)
Definition of_str (value : string) : result Decimal :=
  let s := strip_chars (list_ascii_of_string value) in
  let s := filter (fun c => negb (Ascii.eqb c "_")) s in
  let s := map lower s in
  let '(sign, s) :=
    match s with
    | "+"%char :: r => (false, r)
    | "-"%char :: r => (true, r)
    | _ => (false, s)
    end in
  match parse_number sign s with
  | Some d => ret d
  | None =>
      match parse_special sign s with
      | Some d => ret d
      | None => raise InvalidOperation
      end
  end.

(** Rounding of a finite result to the context. *)
Definition fix_ (sign : bool) (coeff : N) (exp : Z) : result Decimal :=
  if (coeff =? 0)%N then
    ret (Finite sign 0 (Z.min (Z.max exp Etiny) Emax))
  else
    let exp_min := ndigits coeff + exp - prec in
    if Etop <? exp_min then raise Overflow
    else
      let exp_min := Z.max exp_min Etiny in
      if exp <? exp_min then
        let '(coeff, exp) :=
          if ndigits coeff + exp - exp_min <? 0 then (1%N, exp_min - 1)
          else (coeff, exp) in
        let unit := pow10 (exp_min - exp) in
        let q := (coeff / unit)%N in
        let r := (coeff mod unit)%N in
        let half := (5 * pow10 (exp_min - exp - 1))%N in
        let up := (half <? r)%N || ((half =? r)%N && N.odd q) in
        let q := if up then (q + 1)%N else q in
        let '(q, exp_min) :=
          if prec <? ndigits q then ((q / 10)%N, exp_min + 1)
          else (q, exp_min) in
        if Etop <? exp_min then raise Overflow
        else ret (Finite sign q exp_min)
      else ret (Finite sign coeff exp).

(** [a + b]. *)
Definition add (a b : Decimal) : result Decimal :=
  match a, b with
  | NaN _ true, _ => raise InvalidOperation
  | _, NaN _ true => raise InvalidOperation
  | NaN s false, _ => ret (NaN s false)
  | _, NaN s false => ret (NaN s false)
  | Infinity s, Infinity s' =>
      if Bool.eqb s s' then ret (Infinity s) else raise InvalidOperation
  | Infinity s, Finite _ _ _ => ret (Infinity s)
  | Finite _ _ _, Infinity s => ret (Infinity s)
  | Finite s1 c1 e1, Finite s2 c2 e2 =>
      let exp := Z.min e1 e2 in
      if (c1 =? 0)%N && (c2 =? 0)%N then fix_ (s1 && s2) 0 exp
      else if (c1 =? 0)%N then
        let exp := Z.max exp (e2 - prec - 1) in
        fix_ s2 (c2 * pow10 (e2 - exp)) exp
      else if (c2 =? 0)%N then
        let exp := Z.max exp (e1 - prec - 1) in
        fix_ s1 (c1 * pow10 (e1 - exp)) exp
      else
        let n1 := (c1 * pow10 (e1 - exp))%N in
        let n2 := (c2 * pow10 (e2 - exp))%N in
        if Bool.eqb s1 s2 then fix_ s1 (n1 + n2) exp
        else if (n1 =? n2)%N then fix_ false 0 exp
        else if (n1 <? n2)%N then fix_ s2 (n2 - n1) exp
        else fix_ s1 (n1 - n2) exp
  end.

Definition negate (a : Decimal) : Decimal :=
  match a with
  | Finite s c e => Finite (negb s) c e
  | Infinity s => Infinity (negb s)
  | NaN s g => NaN s g
  end.

(** [a - b]. *)
Definition sub (a b : Decimal) : result Decimal := add a (negate b).

(** The [int] zero the totals start from, as an operand. *)
Definition zero : Decimal := Finite false 0 0.

End Pydecimal.

(** ** [book/utils.py] *)

(** [resolve_period(period)]; [today] is the value of [date.today()]. *)
Definition resolve_period (today : date) (period : string)
  : result (option date * option date) :=
  if String.eqb period "this_month" then
    start <- replace today None None (Some 1) ;;
    end_ <- (if month start =? 12 then
               d <- replace start (Some (year start + 1)) (Some 1) (Some 1) ;;
               sub_one_day d
             else
               d <- replace start None (Some (month start + 1)) (Some 1) ;;
               sub_one_day d) ;;
    ret (Some start, Some end_)
  else if String.eqb period "last_month" then
    first_this <- replace today None None (Some 1) ;;
    end_ <- sub_one_day first_this ;;
    start <- replace end_ None None (Some 1) ;;
    ret (Some start, Some end_)
  else if String.eqb period "this_year" then
    start <- new (year today) 1 1 ;;
    end_ <- new (year today) 12 31 ;;
    ret (Some start, Some end_)
  else ret (None, None).

(** ** [book/models.py] *)

(** Of each model the columns that the views read are kept.  A related
    object reached through a foreign key is kept inside the row that
    refers to it (as [t.category], [m.user] are in Python); a reference
    to a business is kept as its id ([business_id]). *)

Module User.
Record t : Type := mk {
  id : Z;
  username : string;
  first_name : string;
  last_name : string;
  email : string
}.
End User.

Module Business.
Record t : Type := mk { id : Z; name : string }.
End Business.

Module Membership.
Inductive Role : Type := OWNER | ADMIN | STAFF.

(** The stored text of a role. *)
Definition value (r : Role) : string :=
  match r with
  | OWNER => "OWNER"
  | ADMIN => "ADMIN"
  | STAFF => "STAFF"
  end.

Definition Role_eqb (a b : Role) : bool :=
  match a, b with
  | OWNER, OWNER | ADMIN, ADMIN | STAFF, STAFF => true
  | _, _ => false
  end.

Record t : Type := mk {
  id : Z;
  user : User.t;
  business_id : Z;
  role : Role
}.
End Membership.

Module TransactionCategory.
Inductive Kind : Type := INCOME | EXPENSE.

Definition value (k : Kind) : string :=
  match k with
  | INCOME => "INCOME"
  | EXPENSE => "EXPENSE"
  end.

Record t : Type := mk {
  id : Z;
  business_id : Z;
  name : string;
  kind : Kind
}.
End TransactionCategory.

Module Transaction.
Inductive Kind : Type := CASH_IN | CASH_OUT.

Definition value (k : Kind) : string :=
  match k with
  | CASH_IN => "CASH_IN"
  | CASH_OUT => "CASH_OUT"
  end.

Definition Kind_eqb (a b : Kind) : bool :=
  match a, b with
  | CASH_IN, CASH_IN | CASH_OUT, CASH_OUT => true
  | _, _ => false
  end.

Record t : Type := mk {
  id : Z;
  business_id : Z;
  details : string;
  category : TransactionCategory.t;
  kind : Kind;
  amount : string;
  photo : option string;
  date : Pydate.date;
  created_by : User.t
}.
End Transaction.

(** The tables, each in primary-key order. *)
Record DB : Type := mkDB {
  users : list User.t;
  businesses : list Business.t;
  memberships : list Membership.t;
  categories : list TransactionCategory.t;
  transactions : list Transaction.t
}.

(** The primary key given to a new row. *)
Definition next_id (ids : list Z) : Z := 1 + fold_right Z.max 0 ids.

(** [Model.objects.get(...)] on the rows that match the lookup. *)
Definition objects_get {A : Type} (matching : list A) : result A :=
  match matching with
  | [] => raise DoesNotExist
  | [x] => ret x
  | _ => raise MultipleObjectsReturned
  end.

(** [queryset.order_by(...)]: a stable insertion sort along [leb]. *)
Section OrderBy.
Context {A : Type} (leb : A -> A -> bool).

Fixpoint insert (x : A) (l : list A) : list A :=
  match l with
  | [] => [x]
  | y :: l' => if leb x y then x :: l else y :: insert x l'
  end.

Fixpoint order_by (l : list A) : list A :=
  match l with
  | [] => []
  | x :: l' => insert x (order_by l')
  end.
End OrderBy.

Definition memberships_of (db : DB) (u : User.t) (biz_id : Z)
  : list Membership.t :=
  filter (fun m => (User.id (Membership.user m) =? User.id u)
                   && (Membership.business_id m =? biz_id))
         (memberships db).

(** ** The request *)

(** The filter parameters of the query string.  A parameter that is
    absent or empty is [None].  A date parameter is given as the date
    its text denotes; text that denotes no date of the calendar (no
    date at all, or one like 2024-02-30) is a [date] that is not
    [valid]. *)
Record QueryParams : Type := mkQuery {
  period : option string;
  date_from : option Pydate.date;
  date_to : option Pydate.date;
  kind_filter : option string
}.

(** The submitted form.  A key of a foreign key or a date that is
    absent or not convertible is [None]; an absent text is empty. *)
Module PostData.
Record t : Type := mk {
  business : option Z;
  category : option Z;
  details : string;
  date : option Pydate.date;
  amount : string;
  photo : option string;
  name : string;
  kind : string;
  email : string;
  role : string
}.

(** [post_data['business'] = v]. *)
Definition set_business (p : t) (v : Z) : t :=
  mk (Some v) (category p) (details p) (date p) (amount p) (photo p)
     (name p) (kind p) (email p) (role p).
End PostData.

(** [user] is [None] for an anonymous request; [session_biz_id] is
    [session.get('biz_id')]. *)
Record Request : Type := mkRequest {
  user : option User.t;
  session_biz_id : option Z;
  method : string;
  GET : QueryParams;
  POST : PostData.t
}.

Inductive level : Type := info | success | error.

Definition Message : Type := (level * string)%type.

Inductive Response (C : Type) : Type :=
| HttpResponseForbidden (content : string)
| redirect (to : string)
| redirect_to_login
| render (template : string) (context : C)
| JsonResponse (data : C) (status : Z)
| HttpResponse (content : C) (content_type : string).

Arguments HttpResponseForbidden {C} content.
Arguments redirect {C} to.
Arguments redirect_to_login {C}.
Arguments render {C} template context.
Arguments JsonResponse {C} data status.
Arguments HttpResponse {C} content content_type.

(** What a view leaves behind: its response, the database and the
    flash messages it queued. *)
Record Outcome (C : Type) : Type := mkOutcome {
  response : Response C;
  db_after : DB;
  messages : list Message
}.

Arguments mkOutcome {C} response db_after messages.
Arguments response {C} o.
Arguments db_after {C} o.
Arguments messages {C} o.

Definition View (C : Type) : Type := DB -> Request -> result (Outcome C).

(** [request.session['biz_id']]. *)
Definition session_item (request : Request) : result Z :=
  match session_biz_id request with
  | Some b => ret b
  | None => raise KeyError
  end.

(** [request.user] where a model instance is needed. *)
Definition request_user (request : Request) : result User.t :=
  match user request with
  | Some u => ret u
  | None => raise TypeError
  end.

(** ** [book/permissions.py] *)

Definition require_membership {C : Type} (view : View C) : View C :=
  fun db request =>
    match user request with
    | None => ret (mkOutcome redirect_to_login db [])
    | Some u =>
        match session_biz_id request with
        | None | Some 0 =>
            ret (mkOutcome (HttpResponseForbidden "Select a business first.")
                           db [])
        | Some biz_id =>
            match memberships_of db u biz_id with
            | [] =>
                ret (mkOutcome
                       (HttpResponseForbidden "No membership for this business.")
                       db [])
            | _ :: _ => view db request
            end
        end
    end.

(** ** [book/forms.py] *)

(** [s[:n]]. *)
Definition slice_to (n : nat) (s : string) : string := String.substring 0 n s.

(** The fields that [CashInForm] and [CashOutForm] put on the instance
    they build (their common [Meta.fields]); [kind] and [created_by]
    are not among them. *)
Module TransactionForm.
Record instance : Type := mk {
  business_id : Z;
  category : TransactionCategory.t;
  details : string;
  date : Pydate.date;
  amount : string;
  photo : option string
}.

(** [form.is_valid()] followed by [form.save(commit=False)]: the
    business and the category have to be rows of their tables, the date
    is required and has to be a date of the calendar, the amount is
    required, texts are stripped, bounded by the [max_length] of their
    columns and free of NUL characters.  [None] when the form has
    errors.  The check that an uploaded photo is an image is the image
    library's and is not modelled: a form with an upload is accepted
    here where the code may refuse it. *)
Definition clean (db : DB) (p : PostData.t) : option instance :=
  match PostData.business p, PostData.category p, PostData.date p with
  | Some b, Some c, Some d =>
      match find (fun x => Business.id x =? b) (businesses db),
            find (fun x => TransactionCategory.id x =? c) (categories db) with
      | Some biz, Some cat =>
          let details := strip (PostData.details p) in
          let amount := strip (PostData.amount p) in
          if negb (String.eqb amount "")
             && (String.length amount <=? 40)%nat
             && (String.length details <=? 240)%nat
             && negb (has_nul amount)
             && negb (has_nul details)
             && valid d
          then Some (mk (Business.id biz) cat details d amount
                        (PostData.photo p))
          else None
      | _, _ => None
      end
  | _, _, _ => None
  end.
End TransactionForm.

Definition CashInForm := TransactionForm.clean.
Definition CashOutForm := TransactionForm.clean.

(** [obj.save()] once the view has set [kind] and [created_by]. *)
Definition Transaction_save (db : DB) (obj : TransactionForm.instance)
    (kind : Transaction.Kind) (created_by : User.t) : DB :=
  let row :=
    Transaction.mk (next_id (map Transaction.id (transactions db)))
      (TransactionForm.business_id obj) (TransactionForm.details obj)
      (TransactionForm.category obj) kind (TransactionForm.amount obj)
      (TransactionForm.photo obj) (TransactionForm.date obj) created_by in
  mkDB (users db) (businesses db) (memberships db) (categories db)
       (transactions db ++ [row]).

Module CategoryForm.
Record instance : Type := mk {
  business_id : Z;
  name : string;
  kind : TransactionCategory.Kind
}.

Definition kind_of_value (s : string) : option TransactionCategory.Kind :=
  if String.eqb s "INCOME" then Some TransactionCategory.INCOME
  else if String.eqb s "EXPENSE" then Some TransactionCategory.EXPENSE
  else None.

Definition same_kind (a b : TransactionCategory.Kind) : bool :=
  String.eqb (TransactionCategory.value a) (TransactionCategory.value b).

(** [form.is_valid()]: the business is a row of its table, the name is
    required, at most 100 long and free of NUL characters, the kind is
    one of the choices, and (business, name, kind) is not taken yet. *)
Definition clean (db : DB) (p : PostData.t) : option instance :=
  match PostData.business p, kind_of_value (PostData.kind p) with
  | Some b, Some k =>
      match find (fun x => Business.id x =? b) (businesses db) with
      | Some biz =>
          let name := strip (PostData.name p) in
          if negb (String.eqb name "")
             && (String.length name <=? 100)%nat
             && negb (has_nul name)
             && negb (existsb
                        (fun c =>
                           (TransactionCategory.business_id c =? Business.id biz)
                           && String.eqb (TransactionCategory.name c) name
                           && same_kind (TransactionCategory.kind c) k)
                        (categories db))
          then Some (mk (Business.id biz) name k)
          else None
      | None => None
      end
  | _, _ => None
  end.

(** [form.save()]: the new row and the database that holds it. *)
Definition save (db : DB) (obj : instance) : TransactionCategory.t * DB :=
  let row :=
    TransactionCategory.mk
      (next_id (map TransactionCategory.id (categories db)))
      (business_id obj) (name obj) (kind obj) in
  (row, mkDB (users db) (businesses db) (memberships db)
             (categories db ++ [row]) (transactions db)).
End CategoryForm.

Module AddMemberForm.

(** [__init__]: the role choices offered to the current user. *)
Definition role_choices (current_user_role : Membership.Role)
  : list Membership.Role :=
  match current_user_role with
  | Membership.OWNER => [Membership.ADMIN; Membership.STAFF]
  | Membership.ADMIN => [Membership.STAFF]
  | Membership.STAFF => []
  end.

Record cleaned_data : Type := mk { email : string; role : Membership.Role }.

Section Clean.
(** The syntactic validation of [forms.EmailField], which is not
    part of the application. *)
Variable EmailValidator : string -> bool.

(** [clean_email]: [None] for a validation error; the lookup raises
    when several users share the address. *)
Definition clean_email (db : DB) (value : string) : result (option string) :=
  let value := strip value in
  if String.eqb value "" || negb (EmailValidator value) then ret None
  else
    try_except
      (_ <- objects_get
              (filter (fun u => String.eqb (User.email u) value) (users db)) ;;
       ret (Some value))
      [DoesNotExist] (ret None).

(** The [role] field: required, and one of the choices. *)
Definition clean_role (choices : list Membership.Role) (value : string)
  : option Membership.Role :=
  find (fun r => String.eqb (Membership.value r) value) choices.

(** [form.is_valid()] and [form.cleaned_data]. *)
Definition clean (current_user_role : Membership.Role) (db : DB)
    (p : PostData.t) : result (option cleaned_data) :=
  e <- clean_email db (PostData.email p) ;;
  let r := clean_role (role_choices current_user_role) (PostData.role p) in
  match e, r with
  | Some e, Some r => ret (Some (mk e r))
  | _, _ => ret None
  end.
End Clean.
End AddMemberForm.

(** ** [book/views.py] *)

(** The form handed to a template. *)
Inductive FormState : Type :=
| unbound_form (initial_business : option Z)
| bound_form (data : PostData.t).

Definition role_in (r : Membership.Role) (l : list Membership.Role) : bool :=
  existsb (Membership.Role_eqb r) l.

(** [tx.filter(date__gte=date_from)] and [tx.filter(date__lte=date_to)],
    each applied when its bound is given. *)
Definition filter_dates (date_from date_to : option date)
    (tx : list Transaction.t) : list Transaction.t :=
  let tx := match date_from with
            | Some d => filter (fun t => leb d (Transaction.date t)) tx
            | None => tx
            end in
  match date_to with
  | Some d => filter (fun t => leb (Transaction.date t) d) tx
  | None => tx
  end.

Definition filter_kind (k : Transaction.Kind) (tx : list Transaction.t)
  : list Transaction.t :=
  filter (fun t => Transaction.Kind_eqb (Transaction.kind t) k) tx.

(** [DateField.to_python], which [filter(date__gte=text)] and
    [filter(date__lte=text)] apply to the text of a date parameter: text
    that denotes no date of the calendar raises [ValidationError]. *)
Definition to_python (d : date) : result date :=
  if valid d then ret d else raise ValidationError.

(** The filter bounds shared by the dashboard, the listing and the
    spreadsheet export: the period is resolved first, then the date
    parameters that are given are handed to the two filters. *)
Definition resolve_filter (today : date) (q : QueryParams)
  : result (option date * option date) :=
  p <- resolve_period today
         (match period q with Some s => s | None => "this_month" end) ;;
  let '(start, end_) := p in
  date_from <- match date_from q with
               | Some d => d' <- to_python d ;; ret (Some d')
               | None => ret start
               end ;;
  date_to <- match date_to q with
             | Some d => d' <- to_python d ;; ret (Some d')
             | None => ret end_
             end ;;
  ret (date_from, date_to).

(** One turn of a totals loop:
    [try: total += Decimal(str(transaction.amount))]
    [except (ValueError, TypeError): pass]. *)
Definition add_amount (total : Pydecimal.Decimal) (t : Transaction.t)
  : result Pydecimal.Decimal :=
  try_except
    (d <- Pydecimal.of_str (Transaction.amount t) ;; Pydecimal.add total d)
    [ValueError; TypeError]
    (ret total).

Fixpoint sum_amounts (total : Pydecimal.Decimal) (tx : list Transaction.t)
  : result Pydecimal.Decimal :=
  match tx with
  | [] => ret total
  | t :: rest => total' <- add_amount total t ;; sum_amounts total' rest
  end.

(** [order_by('-date', '-id')]. *)
Definition recent_first (a b : Transaction.t) : bool :=
  if eqb (Transaction.date a) (Transaction.date b)
  then Transaction.id b <=? Transaction.id a
  else leb (Transaction.date b) (Transaction.date a).

(** [order_by('-role', 'user__first_name', 'user__last_name')]: the
    role column is text, compared as text. *)
Definition roster_order (a b : Membership.t) : bool :=
  match String.compare (Membership.value (Membership.role b))
                       (Membership.value (Membership.role a)) with
  | Lt => true
  | Gt => false
  | Eq =>
      match String.compare (User.first_name (Membership.user a))
                           (User.first_name (Membership.user b)) with
      | Lt => true
      | Gt => false
      | Eq => String.leb (User.last_name (Membership.user a))
                         (User.last_name (Membership.user b))
      end
  end.

Definition team_members (db : DB) (biz_id : Z) : list Membership.t :=
  order_by roster_order
    (filter (fun m => Membership.business_id m =? biz_id) (memberships db)).

(** The template context of the dashboard.  The chart series
    ([labels], [data_in], [data_out]) are sums of [float]s and are left
    out; their loop catches the [ValueError] that [float] raises. *)
Record DashboardContext : Type := mkDashboard {
  current_business : Business.t;
  total_in : Pydecimal.Decimal;
  total_out : Pydecimal.Decimal;
  balance : Pydecimal.Decimal;
  ctx_date_from : option date;
  ctx_date_to : option date;
  recent_transactions : list Transaction.t;
  current_membership : Membership.t;
  can_add_members : bool;
  team_roster : list Membership.t
}.

Definition dashboard_view (today : date) : View DashboardContext :=
  fun db request =>
    biz_id <- session_item request ;;
    business <- objects_get
                  (filter (fun b => Business.id b =? biz_id) (businesses db)) ;;
    u <- request_user request ;;
    membership <- objects_get (memberships_of db u biz_id) ;;
    if negb (role_in (Membership.role membership)
                     [Membership.OWNER; Membership.ADMIN])
    then ret (mkOutcome (redirect "transactions_list") db
                [(info, "You do not have permission to access the dashboard. Redirecting to transactions.")])
    else
      bounds <- resolve_filter today (GET request) ;;
      let '(date_from, date_to) := bounds in
      let tx := filter_dates date_from date_to
                  (filter (fun t => Transaction.business_id t =? biz_id)
                          (transactions db)) in
      total_in <- sum_amounts Pydecimal.zero
                    (filter_kind Transaction.CASH_IN tx) ;;
      total_out <- sum_amounts Pydecimal.zero
                     (filter_kind Transaction.CASH_OUT tx) ;;
      let recent :=
        firstn 10 (order_by recent_first
                     (filter (fun t => Transaction.business_id t =? biz_id)
                             (transactions db))) in
      let can_add := role_in (Membership.role membership)
                             [Membership.OWNER; Membership.ADMIN] in
      balance <- Pydecimal.sub total_in total_out ;;
      ret (mkOutcome
             (render "dashboard.html"
                (mkDashboard business total_in total_out balance
                   date_from date_to recent membership can_add
                   (team_members db biz_id)))
             db []).

Definition dashboard (today : date) : View DashboardContext :=
  require_membership (dashboard_view today).

Definition cash_in_create_view : View FormState :=
  fun db request =>
    biz_id <- session_item request ;;
    u <- request_user request ;;
    membership <- objects_get (memberships_of db u biz_id) ;;
    if negb (role_in (Membership.role membership)
                     [Membership.OWNER; Membership.ADMIN])
    then ret (mkOutcome (redirect "transactions_list") db
                [(error, "You cannot access to this")])
    else if String.eqb (method request) "POST" then
      match CashInForm db (POST request) with
      | Some obj =>
          if negb (TransactionForm.business_id obj =? biz_id)
          then ret (mkOutcome (HttpResponseForbidden "Wrong business selected.")
                      db [])
          else ret (mkOutcome (redirect "transactions_list")
                      (Transaction_save db obj Transaction.CASH_IN u)
                      [(success, "Cash In recorded.")])
      | None =>
          ret (mkOutcome (render "transactions/cash_in_form.html"
                            (bound_form (POST request))) db [])
      end
    else ret (mkOutcome (render "transactions/cash_in_form.html"
                           (unbound_form (Some biz_id))) db []).

Definition cash_in_create : View FormState :=
  require_membership cash_in_create_view.

Definition cash_out_create_view : View FormState :=
  fun db request =>
    biz_id <- session_item request ;;
    u <- request_user request ;;
    let role := option_map Membership.role (hd_error (memberships_of db u biz_id)) in
    if negb (match role with
             | Some r => role_in r [Membership.STAFF; Membership.OWNER]
             | None => false
             end)
    then ret (mkOutcome
                (HttpResponseForbidden "Only staff/owner can record cash out.")
                db [])
    else if String.eqb (method request) "POST" then
      match CashOutForm db (POST request) with
      | Some obj =>
          if negb (TransactionForm.business_id obj =? biz_id)
          then ret (mkOutcome (HttpResponseForbidden "Wrong business selected.")
                      db [])
          else ret (mkOutcome (redirect "transactions_list")
                      (Transaction_save db obj Transaction.CASH_OUT u)
                      [(success, "Cash Out recorded.")])
      | None =>
          ret (mkOutcome (render "transactions/cash_out_form.html"
                            (bound_form (POST request))) db [])
      end
    else ret (mkOutcome (render "transactions/cash_out_form.html"
                           (unbound_form (Some biz_id))) db []).

Definition cash_out_create : View FormState :=
  require_membership cash_out_create_view.

(** The JSON bodies of the category endpoint. *)
Inductive CategoryJson : Type :=
| category_created (category_id : Z) (category_name : string)
| category_errors
| invalid_request_method.

Definition create_transaction_category_view : View CategoryJson :=
  fun db request =>
    if String.eqb (method request) "POST" then
      biz_id <- session_item request ;;
      let post_data := PostData.set_business (POST request) biz_id in
      match CategoryForm.clean db post_data with
      | Some obj =>
          let '(category, db') := CategoryForm.save db obj in
          ret (mkOutcome
                 (JsonResponse
                    (category_created (TransactionCategory.id category)
                                      (TransactionCategory.name category))
                    200)
                 db' [])
      | None => ret (mkOutcome (JsonResponse category_errors 400) db [])
      end
    else ret (mkOutcome (JsonResponse invalid_request_method 405) db []).

Definition create_transaction_category : View CategoryJson :=
  require_membership create_transaction_category_view.

(** A row of the data frame: the columns date, kind, amount, details,
    category and created_by.  [kind] and [amount] are text columns. *)
Record FrameRow : Type := mkRow {
  col_date : date;
  col_kind : string;
  col_amount : string;
  col_details : string;
  col_category : string;
  col_created_by : string
}.

Definition values (t : Transaction.t) : FrameRow :=
  mkRow (Transaction.date t) (Transaction.value (Transaction.kind t))
        (Transaction.amount t) (Transaction.details t)
        (TransactionCategory.name (Transaction.category t))
        (User.username (Transaction.created_by t)).

(** The distinct values of a column, in order of first appearance. *)
Fixpoint unique (l : list string) : list string :=
  match l with
  | [] => []
  | x :: r => x :: filter (fun y => negb (String.eqb x y)) (unique r)
  end.

(** [df.groupby(['kind']).agg(total_amount=('amount','sum')).reset_index()]:
    one row per kind, the kinds sorted; ['sum'] on a column of [str]
    adds its values with [+], which joins them.  A frame built from no
    record has no column, and grouping it raises [KeyError]. *)
Definition groupby_kind_sum (df : list FrameRow) : result (list (string * string)) :=
  match df with
  | [] => raise KeyError
  | _ :: _ =>
      ret (map (fun k =>
                  (k, String.concat ""
                        (map col_amount
                           (filter (fun r => String.eqb (col_kind r) k) df))))
               (order_by String.leb (unique (map col_kind df))))
  end.

Record Workbook : Type := mkWorkbook {
  sheet_Transactions : list FrameRow;
  sheet_Summary : list (string * string)
}.

Definition export_excel_view (today : date) : View Workbook :=
  fun db request =>
    biz_id <- session_item request ;;
    bounds <- resolve_filter today (GET request) ;;
    let '(date_from, date_to) := bounds in
    let qs := filter_dates date_from date_to
                (filter (fun t => Transaction.business_id t =? biz_id)
                        (transactions db)) in
    let df := map values qs in
    summary <- groupby_kind_sum df ;;
    ret (mkOutcome
           (HttpResponse (mkWorkbook df summary)
              "application/vnd.openxmlformats-officedocument.spreadsheetml.sheet")
           db []).

Definition export_excel (today : date) : View Workbook :=
  require_membership (export_excel_view today).

(** The canvas operations of the PDF export, in the order they are
    issued.  Abscissas are whole points; ordinates are rationals. *)
Inductive CanvasOp : Type :=
| setFont (psfontname : string) (size : Z)
| drawString (x : Z) (y : Q) (text : string)
| showPage
| save.

(** The height of an A4 page in points: 297 mm at 72 points an inch. *)
Definition A4_height : Q := (297 * 720 # 254)%Q.

Definition col_x : list Z := [40; 100; 180; 280; 380; 500].

Definition headers : list string :=
  ["Date"; "Kind"; "Category"; "Amount"; "Details"; "User"].

(** [order_by('date')]. *)
Definition by_date (a b : Transaction.t) : bool :=
  leb (Transaction.date a) (Transaction.date b).

Section ExportPdf.
(** [date.strftime('%Y-%m-%d')] and [str] of an [int], which belong
    to the language runtime. *)
Variable strftime : date -> string.
Variable str_int : Z -> string.

(** The six cells of a transaction. *)
Definition pdf_row (t : Transaction.t) : list string :=
  [strftime (Transaction.date t);
   Transaction.value (Transaction.kind t);
   TransactionCategory.name (Transaction.category t);
   Transaction.amount t;
   (if String.eqb (Transaction.details t) "" then ""
    else slice_to 20 (Transaction.details t));
   User.username (Transaction.created_by t)].

(** [for i, val in enumerate(row): p.drawString(col_x[i], y, str(val)[:22])]. *)
Definition draw_cells (y : Q) (row : list string) : list CanvasOp :=
  map (fun c => drawString (fst c) y (slice_to 22 (snd c)))
      (combine col_x row).

(** The loop over the query set, from ordinate [y] on. *)
Fixpoint draw_rows (y : Q) (qs : list Transaction.t) : list CanvasOp :=
  match qs with
  | [] => []
  | t :: rest =>
      let break := negb (Qle_bool 40 y) in
      let y' := if break then (A4_height - 40)%Q else y in
      ((if break then [showPage; setFont "Helvetica" 9] else [])
       ++ draw_cells y' (pdf_row t)
       ++ draw_rows (y' - 12)%Q rest)%list
  end.

(** The query set of the export. *)
Definition pdf_queryset (db : DB) (biz_id : Z) : list Transaction.t :=
  firstn 200
    (order_by by_date
       (filter (fun t => Transaction.business_id t =? biz_id)
               (transactions db))).

Definition export_pdf_view : View (list CanvasOp) :=
  fun db request =>
    biz_id <- session_item request ;;
    let qs := pdf_queryset db biz_id in
    let y := (A4_height - 40)%Q in
    let title :=
      [setFont "Helvetica-Bold" 14;
       drawString 40 y "Transactions Report (first 200)"] in
    let y := (y - 20)%Q in
    let subtitle :=
      [setFont "Helvetica" 10;
       drawString 40 y ("Business ID: " ++ str_int biz_id)] in
    let y := (y - 20)%Q in
    let head :=
      (setFont "Helvetica-Bold" 9
       :: map (fun c => drawString (fst c) y (snd c)) (combine col_x headers))%list in
    let y := (y - 12)%Q in
    let body := (setFont "Helvetica" 9 :: draw_rows y qs)%list in
    ret (mkOutcome
           (HttpResponse (title ++ subtitle ++ head ++ body ++ [showPage; save])%list
              "application/pdf")
           db []).

Definition export_pdf : View (list CanvasOp) :=
  require_membership export_pdf_view.
End ExportPdf.

(** [user.get_full_name() or user.username]. *)
Definition display_name (u : User.t) : string :=
  let full := strip (User.first_name u ++ " " ++ User.last_name u) in
  if String.eqb full "" then User.username u else full.

Section AddMember.
Variable EmailValidator : string -> bool.

Definition Membership_create (db : DB) (u : User.t) (business : Business.t)
    (role : Membership.Role) : DB :=
  let row :=
    Membership.mk (next_id (map Membership.id (memberships db)))
                  u (Business.id business) role in
  mkDB (users db) (businesses db) (memberships db ++ [row])
       (categories db) (transactions db).

Definition add_member_view : View FormState :=
  fun db request =>
    biz_id <- session_item request ;;
    business <- objects_get
                  (filter (fun b => Business.id b =? biz_id) (businesses db)) ;;
    u <- request_user request ;;
    membership <- objects_get (memberships_of db u biz_id) ;;
    if negb (role_in (Membership.role membership)
                     [Membership.OWNER; Membership.ADMIN])
    then ret (mkOutcome
                (HttpResponseForbidden
                   "You do not have permission to add members.")
                db [])
    else if String.eqb (method request) "POST" then
      cleaned <- AddMemberForm.clean EmailValidator
                   (Membership.role membership) db (POST request) ;;
      match cleaned with
      | Some data =>
          let page msgs :=
            mkOutcome (render "add_member.html" (bound_form (POST request)))
                      db msgs in
          try_except
            (new_user <- objects_get
                           (filter (fun x => String.eqb (User.email x)
                                               (AddMemberForm.email data))
                                   (users db)) ;;
             match memberships_of db new_user biz_id with
             | _ :: _ =>
                 ret (page [(error, "This user is already a member of this business.")])
             | [] =>
                 ret (mkOutcome (redirect "dashboard")
                        (Membership_create db new_user business
                           (AddMemberForm.role data))
                        [(success,
                          "Successfully added " ++ display_name new_user
                          ++ " as " ++ Membership.value (AddMemberForm.role data)
                          ++ ".")])
             end)
            [DoesNotExist]
            (ret (page [(error, "User with this email does not exist.")]))
      | None =>
          ret (mkOutcome (render "add_member.html" (bound_form (POST request)))
                         db [])
      end
    else ret (mkOutcome (render "add_member.html" (unbound_form None)) db []).

Definition add_member : View FormState :=
  require_membership add_member_view.
End AddMember.

(** The calendar month before the one of [d], as (year, month). *)
Definition preceding_month (d : date) : Z * Z :=
  if month d =? 1 then (year d - 1, 12) else (year d, month d - 1).

(** ** Vocabulary of the statements *)

(** The privilege tiers, highest first. *)
Definition privilege_rank (r : Membership.Role) : nat :=
  match r with
  | Membership.OWNER => 0
  | Membership.ADMIN => 1
  | Membership.STAFF => 2
  end.

(** The place of a role when its stored text is sorted downwards:
    ["STAFF"], then ["OWNER"], then ["ADMIN"]. *)
Definition text_rank (r : Membership.Role) : nat :=
  match r with
  | Membership.STAFF => 0
  | Membership.OWNER => 1
  | Membership.ADMIN => 2
  end.

(** (given name, family name) of [a] is at most that of [b]. *)
Definition name_le (a b : User.t) : Prop :=
  String.ltb (User.first_name a) (User.first_name b) = true \/
  (User.first_name a = User.first_name b /\
   String.leb (User.last_name a) (User.last_name b) = true).

(** [a] may stand before [b] in the roster. *)
Definition roster_le (a b : Membership.t) : Prop :=
  (text_rank (Membership.role a) < text_rank (Membership.role b))%nat \/
  (Membership.role a = Membership.role b /\
   name_le (Membership.user a) (Membership.user b)).

(** A submission is turned down: a forbidden response, or a redirect
    that carries an error message. *)
Definition rejected {C : Type} (o : Outcome C) : Prop :=
  (exists content, response o = HttpResponseForbidden content) \/
  (exists to text, response o = redirect to /\ In (error, text) (messages o)).

(** The texts drawn on the canvas, in order. *)
Definition drawn_texts (ops : list CanvasOp) : list string :=
  flat_map (fun o => match o with drawString _ _ s => [s] | _ => [] end) ops.

(** The same request with another query string, method and form. *)
Definition with_parameters (request : Request) (m : string) (q : QueryParams)
    (p : PostData.t) : Request :=
  mkRequest (user request) (session_biz_id request) m q p.

(** The same form with another submitted business. *)
Definition submit_business (p : PostData.t) (v : option Z) : PostData.t :=
  PostData.mk v (PostData.category p) (PostData.details p) (PostData.date p)
    (PostData.amount p) (PostData.photo p) (PostData.name p)
    (PostData.kind p) (PostData.email p) (PostData.role p).

(** ** Sample data *)

Module Sample.

Definition alice : User.t := User.mk 1 "alice" "Alice" "Ng" "alice@example.com".
Definition bob : User.t := User.mk 2 "bob" "Bob" "Lee" "bob@example.com".
Definition carol : User.t := User.mk 3 "carol" "Carol" "Diaz" "carol@example.com".
Definition dave : User.t := User.mk 4 "dave" "" "" "dave@example.com".

Definition shop : Business.t := Business.mk 1 "Shop".
Definition cafe : Business.t := Business.mk 2 "Cafe".

Definition sales : TransactionCategory.t :=
  TransactionCategory.mk 1 1 "Sales" TransactionCategory.INCOME.
Definition rent : TransactionCategory.t :=
  TransactionCategory.mk 2 1 "Rent" TransactionCategory.EXPENSE.

Definition today : date := mkdate 2024 5 17.

(** Alice owns both businesses; Bob is an admin and Carol is staff of
    the shop; Dave has an account and no membership. *)
Definition team : list Membership.t :=
  [Membership.mk 1 alice 1 Membership.OWNER;
   Membership.mk 2 bob 1 Membership.ADMIN;
   Membership.mk 3 carol 1 Membership.STAFF;
   Membership.mk 4 alice 2 Membership.OWNER].

Definition db (tx : list Transaction.t) : DB :=
  mkDB [alice; bob; carol; dave] [shop; cafe] team [sales; rent] tx.

Definition cash_in (id : Z) (amount : string) (d : date) : Transaction.t :=
  Transaction.mk id 1 "till" sales Transaction.CASH_IN amount None d alice.

Definition cash_out (id : Z) (amount : string) (d : date) : Transaction.t :=
  Transaction.mk id 1 "rent for the month of May, paid late" rent
                 Transaction.CASH_OUT amount None d carol.

Definition no_query : QueryParams := mkQuery None None None None.

Definition no_post : PostData.t :=
  PostData.mk None None "" None "" None "" "" "" "".

(** A request of [u], with business [biz] selected. *)
Definition get (u : User.t) (biz : Z) : Request :=
  mkRequest (Some u) (Some biz) "GET" no_query no_post.

Definition post (u : User.t) (biz : Z) (p : PostData.t) : Request :=
  mkRequest (Some u) (Some biz) "POST" no_query p.

(** A complete transaction form for business [b]. *)
Definition transaction_form (b : Z) : PostData.t :=
  PostData.mk (Some b) (Some 1) "till" (Some today) "25.00" None "" "" "" "".

Definition category_form (b : option Z) : PostData.t :=
  PostData.mk b None "" None "" None "Fees" "EXPENSE" "" "".

Definition member_form (email role : string) : PostData.t :=
  PostData.mk None None "" None "" None "" "" email role.

Definition has_at (s : string) : bool :=
  existsb (Ascii.eqb "@") (list_ascii_of_string s).

(** An instance of the two runtime functions of the PDF export:
    decimal digits, and dates as year-month-day. *)
Fixpoint digits_of (fuel : nat) (n : N) (acc : string) : string :=
  match fuel with
  | O => acc
  | S f =>
      let acc := String (ascii_of_N (48 + n mod 10)) acc in
      if (n / 10 =? 0)%N then acc else digits_of f (n / 10)%N acc
  end.

Definition str_int (z : Z) : string :=
  (if z <? 0 then "-" else "")
  ++ digits_of (S (N.to_nat (N.size (Z.abs_N z)))) (Z.abs_N z) "".

Fixpoint zeros (n : nat) : string :=
  match n with
  | O => ""
  | S n' => "0" ++ zeros n'
  end.

Definition zfill (width : nat) (s : string) : string :=
  zeros (width - String.length s) ++ s.

Definition strftime (d : date) : string :=
  zfill 4 (str_int (year d)) ++ "-" ++ zfill 2 (str_int (month d))
  ++ "-" ++ zfill 2 (str_int (day d)).

(** A cash-in of May 3rd entered before a cash-out of May 1st. *)
Definition two_records : list Transaction.t :=
  [cash_in 1 "100" (mkdate 2024 5 3); cash_out 2 "50" (mkdate 2024 5 1)].

(** A query string that asks for the cash-in records of last month. *)
Definition cash_in_last_month : QueryParams :=
  mkQuery (Some "last_month") None None (Some "CASH_IN").

End Sample.

(** ** The rest of [book/permissions.py] *)

(** [require_role(role)]: the first membership of the caller in the
    selected business has to carry exactly [role]. *)
Definition require_role {C : Type} (role : Membership.Role) (view : View C)
  : View C :=
  fun db request =>
    u <- request_user request ;;
    let m := match session_biz_id request with
             | Some biz_id => hd_error (memberships_of db u biz_id)
             | None => None
             end in
    match m with
    | Some m =>
        if Membership.Role_eqb (Membership.role m) role then view db request
        else ret (mkOutcome (HttpResponseForbidden "Insufficient role.") db [])
    | None => ret (mkOutcome (HttpResponseForbidden "Insufficient role.") db [])
    end.

(** ** [book/context_processors.py] *)

Module ContextProcessors.

(** The keys ['current_business'], ['memberships'] and
    ['current_membership'] of the returned dictionary. *)
Record context : Type := mk {
  business : option Business.t;
  own_memberships : list Membership.t;
  membership : option Membership.t
}.

(** [biz_id] where it is tested with [if biz_id]: a missing selection
    and 0 are both false. *)
Definition selected (request : Request) : option Z :=
  match session_biz_id request with
  | Some 0 | None => None
  | Some b => Some b
  end.

Section CurrentBusiness.
(** The order in which the database hands out the rows of a query that
    has no [order_by] ([first()] orders by primary key by itself). *)
Variable unordered : list Membership.t -> list Membership.t.

Definition current_business (db : DB) (request : Request) : context :=
  let biz :=
    match selected request with
    | Some b => hd_error (filter (fun x => Business.id x =? b) (businesses db))
    | None => None
    end in
  match user request with
  | Some u =>
      mk biz
         (unordered
            (filter (fun m => User.id (Membership.user m) =? User.id u)
                    (memberships db)))
         (match selected request with
          | Some b => hd_error (memberships_of db u b)
          | None => None
          end)
  | None => mk biz [] None
  end.
End CurrentBusiness.
End ContextProcessors.

(** ** The rest of [book/views.py] *)

(** What a view that touches the session leaves behind: besides its
    outcome, the user the session is authenticated as and the business
    the session has selected. *)
Record SessionOutcome (C : Type) : Type := mkSession {
  outcome : Outcome C;
  user_after : option User.t;
  biz_id_after : option Z
}.

Arguments mkSession {C} outcome user_after biz_id_after.
Arguments outcome {C} s.
Arguments user_after {C} s.
Arguments biz_id_after {C} s.

Definition SessionView (C : Type) : Type :=
  DB -> Request -> result (SessionOutcome C).

(** [@login_required]. *)
Definition login_required {C : Type} (view : SessionView C) : SessionView C :=
  fun db request =>
    match user request with
    | None =>
        ret (mkSession (mkOutcome redirect_to_login db [])
                       (user request) (session_biz_id request))
    | Some _ => view db request
    end.

(** [switch_business(request, biz_id)].  When the second lookup raises
    the session is not saved. *)
Definition switch_business_view (biz_id : Z) : SessionView unit :=
  fun db request =>
    u <- request_user request ;;
    match memberships_of db u biz_id with
    | [] =>
        ret (mkSession
               (mkOutcome
                  (HttpResponseForbidden "You are not a member of this business")
                  db [])
               (user request) (session_biz_id request))
    | _ :: _ =>
        membership <- objects_get (memberships_of db u biz_id) ;;
        ret (mkSession
               (mkOutcome
                  (if role_in (Membership.role membership)
                              [Membership.OWNER; Membership.ADMIN]
                   then redirect "dashboard"
                   else redirect "transactions_list")
                  db [])
               (user request) (Some biz_id))
    end.

Definition switch_business (biz_id : Z) : SessionView unit :=
  login_required (switch_business_view biz_id).

(** [custom_logout]: an authenticated session loses its selection and
    its user; an anonymous one is left as it is. *)
Definition custom_logout : SessionView unit :=
  fun db request =>
    match user request with
    | Some _ =>
        ret (mkSession
               (mkOutcome (redirect "login") db
                  [(success, "You have been successfully logged out.")])
               None None)
    | None =>
        ret (mkSession (mkOutcome (redirect "login") db [])
                       (user request) (session_biz_id request))
    end.

(** The template context of the transaction list. *)
Record ListContext : Type := mkList {
  list_business : Business.t;
  list_transactions : list Transaction.t;
  list_categories : list TransactionCategory.t;
  list_membership : Membership.t
}.

(** [if kind in ('CASH_IN','CASH_OUT'): qs = qs.filter(kind=kind)]. *)
Definition filter_kind_param (kind : string) (qs : list Transaction.t)
  : list Transaction.t :=
  if String.eqb kind "CASH_IN" || String.eqb kind "CASH_OUT"
  then filter (fun t => String.eqb (Transaction.value (Transaction.kind t)) kind) qs
  else qs.

Section TransactionsList.
(** The order in which the database hands out the rows of a query that
    has no [order_by]; it is not the program's to choose. *)
Variable unordered : list TransactionCategory.t -> list TransactionCategory.t.

Definition transactions_list_view (today : date) : View ListContext :=
  fun db request =>
    biz_id <- session_item request ;;
    business <- objects_get
                  (filter (fun b => Business.id b =? biz_id) (businesses db)) ;;
    bounds <- resolve_filter today (GET request) ;;
    let '(date_from, date_to) := bounds in
    let kind := match kind_filter (GET request) with
                | Some k => k
                | None => "ALL"
                end in
    let qs := filter_dates date_from date_to
                (filter (fun t => Transaction.business_id t =? biz_id)
                        (transactions db)) in
    let qs := filter_kind_param kind qs in
    let qs := order_by recent_first qs in
    let categories :=
      unordered
        (filter (fun c => TransactionCategory.business_id c =? biz_id)
                (categories db)) in
    u <- request_user request ;;
    membership <- objects_get (memberships_of db u biz_id) ;;
    ret (mkOutcome
           (render "transactions/list.html"
              (mkList business qs categories membership))
           db []).

Definition transactions_list (today : date) : View ListContext :=
  require_membership (transactions_list_view today).
End TransactionsList.

(** ** More vocabulary *)

(** The gate of [require_membership] is open: the caller is
    authenticated, a business is selected, and the caller has a
    membership in it. *)
Definition admitted (db : DB) (request : Request) : bool :=
  match user request, session_biz_id request with
  | Some u, Some b =>
      negb (b =? 0) && negb (Nat.eqb (List.length (memberships_of db u b)) 0)
  | _, _ => false
  end.

(** The next request of the session that a view has left behind. *)
Definition follow_up {C : Type} (s : SessionOutcome C) (m : string)
    (q : QueryParams) (p : PostData.t) : Request :=
  mkRequest (user_after s) (biz_id_after s) m q p.

(** What [unique_together] speaks of. *)
Definition membership_key (m : Membership.t) : Z * Z :=
  (User.id (Membership.user m), Membership.business_id m).

Definition category_key (c : TransactionCategory.t) : Z * string * string :=
  (TransactionCategory.business_id c, TransactionCategory.name c,
   TransactionCategory.value (TransactionCategory.kind c)).

(** A transaction lies inside filter bounds. *)
Definition within (bounds : option date * option date) (t : Transaction.t)
  : Prop :=
  (forall d, fst bounds = Some d -> leb d (Transaction.date t) = true) /\
  (forall d, snd bounds = Some d -> leb (Transaction.date t) d = true).

(** [a] may stand before [b] in a listing, most recent first: a later
    date, or the same date and no lower id. *)
Definition recent_le (a b : Transaction.t) : Prop :=
  (Transaction.date a <> Transaction.date b /\
   leb (Transaction.date b) (Transaction.date a) = true) \/
  (Transaction.date a = Transaction.date b /\
   Transaction.id b <= Transaction.id a).

(** A totals loop without its handler. *)
Fixpoint sum_unguarded (total : Pydecimal.Decimal) (tx : list Transaction.t)
  : result Pydecimal.Decimal :=
  match tx with
  | [] => ret total
  | t :: rest =>
      d <- Pydecimal.of_str (Transaction.amount t) ;;
      total' <- Pydecimal.add total d ;;
      sum_unguarded total' rest
  end.

(** What a recording view may have done to the database: nothing, or
    one new transaction of the given kind, created by the caller in the
    selected business, in which the caller holds one of the given roles;
    its category is a row of the category table, its amount is text of
    1 to 40 characters, and its id is above those in use. *)
Definition stamped (kind : Transaction.Kind) (roles : list Membership.Role)
    (db : DB) (request : Request) (o : Outcome FormState) : Prop :=
  db_after o = db \/
  exists row u m,
    db_after o = mkDB (users db) (businesses db) (memberships db)
                      (categories db) (transactions db ++ [row]) /\
    Transaction.kind row = kind /\
    user request = Some u /\ Transaction.created_by row = u /\
    session_biz_id request = Some (Transaction.business_id row) /\
    In m (memberships_of db u (Transaction.business_id row)) /\
    In (Membership.role m) roles /\
    In (Transaction.category row) (categories db) /\
    Transaction.amount row <> "" /\
    (String.length (Transaction.amount row) <= 40)%nat /\
    (forall t, In t (transactions db) -> Transaction.id t < Transaction.id row).

(** The kind parameter of the listing admits a transaction. *)
Definition kind_admits (q : QueryParams) (t : Transaction.t) : Prop :=
  forall k, kind_filter q = Some k -> k = "CASH_IN" \/ k = "CASH_OUT" ->
            Transaction.value (Transaction.kind t) = k.

(** The ordinates and abscissas of the texts drawn on a canvas. *)
Definition drawn_at (ops : list CanvasOp) : list (Z * Q) :=
  flat_map (fun o => match o with drawString x y _ => [(x, y)] | _ => [] end)
           ops.

(** The number of pages a canvas closes. *)
Definition pages (ops : list CanvasOp) : nat :=
  List.length (filter (fun o => match o with showPage => true | _ => false end)
                      ops).

(** The page breaks of the loop of the PDF export over [n] rows, from
    ordinate [y] on. *)
Fixpoint page_breaks (y : Q) (n : nat) : nat :=
  match n with
  | O => O
  | S n' =>
      let break := negb (Qle_bool 40 y) in
      let y' := if break then (A4_height - 40)%Q else y in
      ((if break then 1 else 0) + page_breaks (y' - 12)%Q n')%nat
  end.

(** A text lies in one of the six columns, between the margins of 40
    points at the foot and at the head of the page. *)
Definition in_frame (p : Z * Q) : Prop :=
  In (fst p) col_x /\ (40 <= snd p)%Q /\ (snd p <= A4_height - 40)%Q.

(** [qs] holds the rows of [table] that satisfy [P] and no other, each
    as often as the table has it, in some order. *)
Definition selects {A : Type} (P : A -> Prop) (table qs : list A) : Prop :=
  exists others,
    Permutation (qs ++ others) table /\
    Forall P qs /\ Forall (fun x => ~ P x) others.

(** A recording form that passes the validation, written out: it names
    the business [biz] and the category [cat], rows of their tables, and
    the date [d] of the calendar; its amount, stripped, is not blank, at
    most 40 characters long and free of NUL characters; its details,
    stripped, are at most 240 characters long and free of NUL
    characters; and no photo is uploaded. *)
Definition acceptable (db : DB) (p : PostData.t) (biz : Z)
    (cat : TransactionCategory.t) (d : date) : Prop :=
  PostData.business p = Some biz /\
  In biz (map Business.id (businesses db)) /\
  PostData.category p = Some (TransactionCategory.id cat) /\
  In cat (categories db) /\
  PostData.date p = Some d /\ valid d = true /\
  strip (PostData.amount p) <> "" /\
  (String.length (strip (PostData.amount p)) <= 40)%nat /\
  has_nul (strip (PostData.amount p)) = false /\
  (String.length (strip (PostData.details p)) <= 240)%nat /\
  has_nul (strip (PostData.details p)) = false /\
  PostData.photo p = None.

(** [c] is [s] cut to its first [n] characters. *)
Definition cut (n : nat) (s c : string) : Prop :=
  (exists rest, s = (c ++ rest)%string) /\
  String.length c = Nat.min n (String.length s).

(** The six cells of the row of a transaction in the PDF export, the
    date being written as [date_text]: date, kind, name of the category,
    amount, details cut to 20 characters and name of the user, every
    cell cut to 22 characters. *)
Definition row_cells (date_text : string) (t : Transaction.t)
    (cells : list string) : Prop :=
  exists c1 c3 c4 c5 c6,
    cells = [c1; Transaction.value (Transaction.kind t); c3; c4; c5; c6] /\
    cut 22 date_text c1 /\
    cut 22 (TransactionCategory.name (Transaction.category t)) c3 /\
    cut 22 (Transaction.amount t) c4 /\
    cut 20 (Transaction.details t) c5 /\
    cut 22 (User.username (Transaction.created_by t)) c6.

(** ** More sample data *)

Module Cases.

(** The query string of a custom period from [a] to [b]. *)
Definition custom (a b : date) (kind : option string) : QueryParams :=
  mkQuery (Some "custom") (Some a) (Some b) kind.

Definition at_ (u : User.t) (biz : Z) (q : QueryParams) : Request :=
  mkRequest (Some u) (Some biz) "GET" q Sample.no_post.

Definition anonymous : Request :=
  mkRequest None (Some 1) "GET" Sample.no_query Sample.no_post.

Definition may : list Transaction.t :=
  [Sample.cash_in 1 "100" (mkdate 2024 5 3);
   Sample.cash_out 2 "50" (mkdate 2024 5 4);
   Sample.cash_in 3 "200" (mkdate 2024 5 10)].

(** A form that names the rent category. *)
Definition rent_form (amount : string) : PostData.t :=
  PostData.mk (Some 1) (Some 2) " May " (Some Sample.today) amount None
              "" "" "" "".

Definition named_category (name kind : string) : PostData.t :=
  PostData.mk None None "" None "" None name kind "" "".

(** A second account on the address of dave, and the sample database
    with it. *)
Definition erin : User.t := User.mk 5 "erin" "Erin" "Roy" "dave@example.com".

Definition shared_db : DB :=
  mkDB [Sample.alice; Sample.bob; Sample.carol; Sample.dave; erin]
       [Sample.shop; Sample.cafe] Sample.team [Sample.sales; Sample.rent] [].

(** An order a database may hand categories out in: that of an index
    on the name. *)
Definition by_name (l : list TransactionCategory.t)
  : list TransactionCategory.t :=
  order_by (fun a b => String.leb (TransactionCategory.name a)
                                  (TransactionCategory.name b)) l.

End Cases.

(** * Properties *)

(** Closes [true = (a <=? b)] and [true = (a <? b)] by arithmetic. *)
Ltac bool_lia :=
  symmetry; first [apply Z.leb_le | apply Z.ltb_lt]; lia.

(** ** The calendar *)

Lemma valid_iff (d : date) :
  valid d = true <->
  1 <= year d <= 9999 /\ 1 <= month d <= 12 /\
  1 <= day d <= days_in_month (year d) (month d).
Proof.
  unfold valid, MINYEAR, MAXYEAR.
  rewrite !andb_true_iff, !Z.leb_le. intuition lia.
Qed.

Lemma month_cases (m : Z) :
  1 <= m <= 12 ->
  m = 1 \/ m = 2 \/ m = 3 \/ m = 4 \/ m = 5 \/ m = 6 \/
  m = 7 \/ m = 8 \/ m = 9 \/ m = 10 \/ m = 11 \/ m = 12.
Proof. lia. Qed.

Lemma days_in_month_bounds (y m : Z) :
  1 <= m <= 12 -> 28 <= days_in_month y m <= 31.
Proof.
  intros Hm. apply month_cases in Hm. unfold days_in_month.
  repeat (destruct Hm as [-> | Hm]); try subst m;
    destruct (is_leap y); cbv; split; discriminate.
Qed.

Lemma new_valid (y m d : Z) :
  valid (mkdate y m d) = true -> new y m d = inr (mkdate y m d).
Proof. unfold new. intros ->. reflexivity. Qed.

(** The first day of a month is a date as soon as the month is. *)
Lemma first_day_valid (y m : Z) :
  1 <= y <= 9999 -> 1 <= m <= 12 -> valid (mkdate y m 1) = true.
Proof.
  intros Hy Hm. apply valid_iff. cbn.
  pose proof (days_in_month_bounds y m Hm). lia.
Qed.

Lemma last_day_valid (y m : Z) :
  1 <= y <= 9999 -> 1 <= m <= 12 ->
  valid (mkdate y m (days_in_month y m)) = true.
Proof.
  intros Hy Hm. apply valid_iff. cbn.
  pose proof (days_in_month_bounds y m Hm). lia.
Qed.

(** Subtracting a day from the first of a month after January. *)
Lemma sub_one_day_first (y m : Z) :
  1 <= y <= 9999 -> 2 <= m ->
  sub_one_day (mkdate y m 1) = inr (mkdate y (m - 1) (days_in_month y (m - 1))).
Proof.
  intros Hy Hm. unfold sub_one_day, MINYEAR, MAXYEAR. cbn.
  replace (0 <? m - 1) with true by bool_lia.
  replace (1 <=? y) with true by bool_lia.
  replace (y <=? 9999) with true by bool_lia.
  reflexivity.
Qed.

(** Subtracting a day from January 1st. *)
Lemma sub_one_day_new_year (y : Z) :
  sub_one_day (mkdate y 1 1) =
  if (1 <=? y - 1) && (y - 1 <=? 9999) then inr (mkdate (y - 1) 12 31)
  else inl OverflowError.
Proof. reflexivity. Qed.

Lemma is_leap_iff (y : Z) :
  is_leap y = true <-> y mod 4 = 0 /\ (y mod 100 <> 0 \/ y mod 400 = 0).
Proof.
  unfold is_leap.
  rewrite andb_true_iff, orb_true_iff, negb_true_iff, !Z.eqb_eq, Z.eqb_neq.
  tauto.
Qed.

Lemma days_before_year_succ (y : Z) :
  days_before_year (y + 1) =
  days_before_year y + 365 + (if is_leap y then 1 else 0).
Proof.
  unfold days_before_year. cbv zeta.
  replace (y + 1 - 1) with y by lia.
  destruct (is_leap y) eqn:L.
  - apply is_leap_iff in L.
    Z.div_mod_to_equations. lia.
  - assert (~ (y mod 4 = 0 /\ (y mod 100 <> 0 \/ y mod 400 = 0)))
      by (rewrite <- is_leap_iff; congruence).
    Z.div_mod_to_equations. lia.
Qed.

(** A month starts the day after the preceding month ends. *)
Lemma days_before_month_succ (y m : Z) :
  1 <= m <= 11 ->
  days_before_month y (m + 1) = days_before_month y m + days_in_month y m.
Proof.
  intros Hm.
  assert (C : m = 1 \/ m = 2 \/ m = 3 \/ m = 4 \/ m = 5 \/ m = 6 \/
              m = 7 \/ m = 8 \/ m = 9 \/ m = 10 \/ m = 11) by lia.
  unfold days_before_month, days_in_month.
  repeat (destruct C as [-> | C]); try subst m;
    cbn; destruct (is_leap y); reflexivity.
Qed.

(** [sub_one_day] is subtraction of one on ordinals, and stays inside
    the calendar. *)
Lemma sub_one_day_ordinal (d r : date) :
  valid d = true -> sub_one_day d = inr r ->
  valid r = true /\ toordinal r = toordinal d - 1.
Proof.
  destruct d as [y m dd]. intros V. pose proof V as V'.
  apply valid_iff in V'. cbn in V'. destruct V' as (Hy & Hm & Hd).
  destruct (Z.eq_dec dd 1) as [-> | Hne].
  - destruct (Z.eq_dec m 1) as [-> | Hm1].
    + rewrite sub_one_day_new_year.
      destruct ((1 <=? y - 1) && (y - 1 <=? 9999)) eqn:E; [|discriminate].
      intros [= <-].
      apply andb_true_iff in E. rewrite !Z.leb_le in E.
      split; [apply valid_iff; cbn [year month day];
              change (days_in_month (y - 1) 12) with 31; lia|].
      unfold toordinal. cbn [year month day].
      replace (days_before_year y) with (days_before_year (y - 1 + 1))
        by (f_equal; lia).
      rewrite days_before_year_succ.
      unfold days_before_month.
      change (Z.to_nat 12) with 12%nat. change (Z.to_nat 1) with 1%nat.
      change (nth 12 DAYS_BEFORE_MONTH 0) with 334.
      change (nth 1 DAYS_BEFORE_MONTH 0) with 0.
      change (2 <? 1) with false. change (2 <? 12) with true.
      cbn [andb].
      destruct (is_leap (y - 1)); lia.
    + rewrite sub_one_day_first by lia. intros [= <-].
      split; [apply last_day_valid; lia|].
      unfold toordinal. cbn [year month day].
      replace (days_before_month y m) with (days_before_month y (m - 1 + 1))
        by (f_equal; lia).
      rewrite days_before_month_succ by lia. lia.
  - unfold sub_one_day. cbn [year month day].
    replace (dd - 1 =? 0) with false by (symmetry; apply Z.eqb_neq; lia).
    unfold MINYEAR, MAXYEAR.
    replace (1 <=? y) with true by bool_lia.
    replace (y <=? 9999) with true by bool_lia.
    cbn. intros [= <-].
    split; [apply valid_iff; cbn; lia|].
    unfold toordinal. cbn. lia.
Qed.

(** Ordinals grow with the calendar: a later year starts after the
    earlier one has ended, and a later month after the earlier one. *)
Lemma days_before_year_mono (y1 y2 : Z) :
  y1 < y2 ->
  days_before_year y1 + 365 + (if is_leap y1 then 1 else 0)
  <= days_before_year y2.
Proof.
  intros H. rewrite <- days_before_year_succ.
  unfold days_before_year. cbv zeta.
  Z.div_mod_to_equations. lia.
Qed.

Lemma days_before_month_mono (y m1 m2 : Z) :
  1 <= m1 -> m1 < m2 -> m2 <= 12 ->
  days_before_month y m1 + days_in_month y m1 <= days_before_month y m2.
Proof.
  intros H1 H12 H2.
  rewrite <- days_before_month_succ by lia.
  assert (G : forall k, 0 <= k -> m1 + 1 + k <= 12 ->
                        days_before_month y (m1 + 1)
                        <= days_before_month y (m1 + 1 + k)).
  { intros k K. pattern k. apply natlike_ind; [| |exact K].
    - intros _. replace (m1 + 1 + 0) with (m1 + 1) by lia. lia.
    - intros x Hx IH Hle.
      replace (m1 + 1 + Z.succ x) with (m1 + 1 + x + 1) by lia.
      rewrite (days_before_month_succ y (m1 + 1 + x)) by lia.
      pose proof (days_in_month_bounds y (m1 + 1 + x)). lia. }
  replace m2 with (m1 + 1 + (m2 - m1 - 1)) by lia. apply G; lia.
Qed.

(** The day of the year of a date is within the year. *)
Lemma day_of_year_bounds (d : date) :
  valid d = true ->
  1 <= days_before_month (year d) (month d) + day d
    <= 365 + (if is_leap (year d) then 1 else 0).
Proof.
  intros V. apply valid_iff in V. destruct V as (_ & Hm & Hd).
  destruct (Z.eq_dec (month d) 12) as [E|E].
  - rewrite E in *. unfold days_before_month, days_in_month in *.
    change (nth (Z.to_nat 12) DAYS_BEFORE_MONTH 0) with 334.
    change (nth (Z.to_nat 12) DAYS_IN_MONTH 0) with 31 in Hd.
    change (12 =? 2) with false in Hd. change (2 <? 12) with true.
    cbn [andb] in *. destruct (is_leap (year d)); lia.
  - pose proof (days_before_month_mono (year d) (month d) 12).
    assert (0 <= days_before_month (year d) (month d)).
    { apply month_cases in Hm. unfold days_before_month.
      repeat (destruct Hm as [-> | Hm]); try rewrite Hm;
        destruct (is_leap (year d)); cbv; discriminate. }
    unfold days_before_month at 2 in H.
    change (nth (Z.to_nat 12) DAYS_BEFORE_MONTH 0) with 334 in H.
    change (2 <? 12) with true in H. cbn [andb] in H.
    destruct (is_leap (year d)); lia.
Qed.

(** The order of dates is the order of their ordinals; in particular
    two dates with the same ordinal are the same date. *)
Lemma leb_toordinal (a b : date) :
  valid a = true -> valid b = true ->
  (leb a b = true <-> toordinal a <= toordinal b).
Proof.
  intros Va Vb.
  pose proof (day_of_year_bounds a Va) as Ba.
  pose proof (day_of_year_bounds b Vb) as Bb.
  apply valid_iff in Va. destruct Va as (_ & Hma & Hda).
  apply valid_iff in Vb. destruct Vb as (_ & Hmb & Hdb).
  unfold leb, toordinal.
  rewrite !orb_true_iff, !andb_true_iff, !orb_true_iff, !andb_true_iff,
    !Z.ltb_lt, !Z.eqb_eq, Z.leb_le.
  destruct (Z.lt_trichotomy (year a) (year b)) as [Y|[Y|Y]].
  - pose proof (days_before_year_mono _ _ Y). split; [lia|now left].
  - rewrite Y in *.
    destruct (Z.lt_trichotomy (month a) (month b)) as [M|[M|M]].
    + pose proof (days_before_month_mono (year b) _ _ (proj1 Hma) M (proj2 Hmb)).
      split; [lia|]. intros _. right. split; [reflexivity|now left].
    + rewrite M in *. split; [lia|]. intros H. right.
      split; [reflexivity|]. right. split; [reflexivity|lia].
    + pose proof (days_before_month_mono (year b) _ _ (proj1 Hmb) M (proj2 Hma)).
      split; lia.
  - pose proof (days_before_year_mono _ _ Y). split; lia.
Qed.

Lemma toordinal_inj (a b : date) :
  valid a = true -> valid b = true -> toordinal a = toordinal b -> a = b.
Proof.
  intros Va Vb E.
  assert (L1 : leb a b = true) by (apply leb_toordinal; auto; lia).
  assert (L2 : leb b a = true) by (apply leb_toordinal; auto; lia).
  unfold leb in L1, L2.
  rewrite !orb_true_iff, !andb_true_iff, !orb_true_iff, !andb_true_iff,
    !Z.ltb_lt, !Z.eqb_eq, Z.leb_le in L1, L2.
  destruct a as [ya ma da], b as [yb mb db']. cbn in *.
  assert (ya = yb) by lia. assert (ma = mb) by lia. assert (da = db') by lia.
  congruence.
Qed.

(** The date that [sub_one_day] returns is the one date whose ordinal
    is one less. *)
Lemma sub_one_day_unique (d r r' : date) :
  valid d = true -> sub_one_day d = inr r ->
  valid r' = true -> toordinal r' = toordinal d - 1 -> r' = r.
Proof.
  intros V S V' O.
  destruct (sub_one_day_ordinal d r V S) as [Vr Or].
  apply toordinal_inj; auto. lia.
Qed.

(** ** [resolve_period] *)

(** With ['this_month'] the start is the first of the month whenever
    [today] is a date. *)
Lemma replace_day_one (today : date) :
  valid today = true ->
  replace today None None (Some 1) = inr (mkdate (year today) (month today) 1).
Proof.
  intros V. apply valid_iff in V. unfold replace.
  apply new_valid, first_day_valid; lia.
Qed.

(** What ['this_month'] returns outside December 9999. *)
Lemma this_month_result (today : date) :
  valid today = true ->
  year today < 9999 \/ month today < 12 ->
  let start := mkdate (year today) (month today) 1 in
  let end_ := mkdate (year today) (month today)
                     (days_in_month (year today) (month today)) in
  resolve_period today "this_month" = inr (Some start, Some end_) /\
  valid start = true /\ valid end_ = true /\
  leb start today = true /\ leb today end_ = true.
Proof.
  intros V Hlim start end_. pose proof V as V'.
  apply valid_iff in V'. destruct V' as (Hy & Hm & Hd).
  split; [|split; [|split; [|split]]].
  - unfold resolve_period.
    replace (String.eqb "this_month" "this_month") with true by reflexivity.
    rewrite (replace_day_one today V). cbn [bind year month day].
    destruct (month today =? 12) eqn:E.
    + apply Z.eqb_eq in E.
      unfold replace. cbn [year month day].
      rewrite new_valid by (apply first_day_valid; lia).
      cbn [bind]. rewrite sub_one_day_new_year.
      replace (year today + 1 - 1) with (year today) by lia.
      replace (1 <=? year today) with true by bool_lia.
      replace (year today <=? 9999) with true by bool_lia.
      cbn. subst start end_. rewrite E. reflexivity.
    + apply Z.eqb_neq in E.
      unfold replace. cbn [year month day].
      rewrite new_valid by (apply first_day_valid; lia).
      cbn [bind]. rewrite sub_one_day_first by lia.
      replace (month today + 1 - 1) with (month today) by lia.
      reflexivity.
  - apply first_day_valid; lia.
  - apply last_day_valid; lia.
  - unfold leb, start. cbn [year month day].
    rewrite !Z.eqb_refl. replace (1 <=? day today) with true by bool_lia.
    cbn. rewrite !orb_true_r. reflexivity.
  - unfold leb, end_. cbn [year month day].
    rewrite !Z.eqb_refl.
    replace (day today <=? days_in_month (year today) (month today))
      with true by bool_lia.
    cbn. rewrite !orb_true_r. reflexivity.
Qed.

(** C5, as amended: for every current date outside December 9999,
    [resolve_period('this_month')] returns the first and the last day of
    today's calendar month, and start <= today <= end. *)
Theorem this_month_spans_today (today : date) :
  valid today = true ->
  year today < 9999 \/ month today < 12 ->
  let start := mkdate (year today) (month today) 1 in
  let end_ := mkdate (year today) (month today)
                     (days_in_month (year today) (month today)) in
  resolve_period today "this_month" = inr (Some start, Some end_) /\
  valid start = true /\ valid end_ = true /\
  leb start today = true /\ leb today end_ = true.
Proof. exact (this_month_result today). Qed.

Lemma this_month_spans_today_witness :
  resolve_period (mkdate 2024 12 25) "this_month" =
    inr (Some (mkdate 2024 12 1), Some (mkdate 2024 12 31)) /\
  resolve_period (mkdate 2024 2 10) "this_month" =
    inr (Some (mkdate 2024 2 1), Some (mkdate 2024 2 29)).
Proof.
  split.
  - apply (this_month_spans_today (mkdate 2024 12 25)); [reflexivity|].
    left. cbn. lia.
  - apply (this_month_spans_today (mkdate 2024 2 10)); [reflexivity|].
    left. cbn. lia.
Defined.

(** C5, as stated, fails in December 9999: the first day of the next
    month would be in year 10000, which [replace] refuses. *)
Lemma this_month_december_9999 :
  valid (mkdate 9999 12 15) = true /\
  resolve_period (mkdate 9999 12 15) "this_month" = inl ValueError.
Proof. split; reflexivity. Qed.

(** C6, as amended: for every current date outside January of year 1
    and December of year 9999, the end returned for ['last_month'] is
    exactly one day before the start returned for ['this_month'], and
    the start returned for ['last_month'] is the first day of the
    preceding calendar month (its end being that month's last day). *)
Theorem last_month_precedes_this_month (today : date) :
  valid today = true ->
  1 < year today \/ 1 < month today ->
  year today < 9999 \/ month today < 12 ->
  let '(py, pm) := preceding_month today in
  let start := mkdate py pm 1 in
  let end_ := mkdate py pm (days_in_month py pm) in
  let this_start := mkdate (year today) (month today) 1 in
  let this_end := mkdate (year today) (month today)
                         (days_in_month (year today) (month today)) in
  resolve_period today "last_month" = inr (Some start, Some end_) /\
  resolve_period today "this_month" = inr (Some this_start, Some this_end) /\
  valid start = true /\ valid end_ = true /\
  toordinal end_ = toordinal this_start - 1.
Proof.
  intros V Hlo Hhi. pose proof V as V'.
  apply valid_iff in V'. destruct V' as (Hy & Hm & Hd).
  assert (L : resolve_period today "last_month" =
              (first_this <- replace today None None (Some 1) ;;
               end_ <- sub_one_day first_this ;;
               start <- replace end_ None None (Some 1) ;;
               ret (Some start, Some end_))) by reflexivity.
  rewrite (replace_day_one today V) in L. cbn [bind] in L.
  pose proof (this_month_result today V Hhi) as (T & Vs & _).
  unfold preceding_month.
  destruct (month today =? 1) eqn:E.
  - apply Z.eqb_eq in E.
    assert (S : sub_one_day (mkdate (year today) (month today) 1) =
                inr (mkdate (year today - 1) 12 31)).
    { rewrite E, sub_one_day_new_year.
      replace (1 <=? year today - 1) with true by bool_lia.
      replace (year today - 1 <=? 9999) with true by bool_lia.
      reflexivity. }
    rewrite S in L. cbn [bind] in L. unfold replace in L.
    cbn [year month day] in L.
    rewrite new_valid in L by (apply first_day_valid; lia).
    cbn [bind ret] in L.
    change (days_in_month (year today - 1) 12) with 31.
    split; [exact L|]. split; [exact T|].
    split; [apply first_day_valid; lia|].
    destruct (sub_one_day_ordinal _ _ Vs S) as [Ve Ho].
    auto.
  - apply Z.eqb_neq in E.
    assert (S : sub_one_day (mkdate (year today) (month today) 1) =
                inr (mkdate (year today) (month today - 1)
                            (days_in_month (year today) (month today - 1))))
      by (apply sub_one_day_first; lia).
    rewrite S in L. cbn [bind] in L. unfold replace in L.
    cbn [year month day] in L.
    rewrite new_valid in L by (apply first_day_valid; lia).
    cbn [bind ret] in L.
    split; [exact L|]. split; [exact T|].
    split; [apply first_day_valid; lia|].
    destruct (sub_one_day_ordinal _ _ Vs S) as [Ve Ho].
    auto.
Qed.

Lemma last_month_precedes_this_month_witness :
  resolve_period (mkdate 2025 1 20) "last_month" =
    inr (Some (mkdate 2024 12 1), Some (mkdate 2024 12 31)) /\
  resolve_period (mkdate 2025 1 20) "this_month" =
    inr (Some (mkdate 2025 1 1), Some (mkdate 2025 1 31)) /\
  toordinal (mkdate 2024 12 31) = toordinal (mkdate 2025 1 1) - 1.
Proof.
  pose proof (last_month_precedes_this_month (mkdate 2025 1 20)
                eq_refl (or_introl eq_refl) (or_introl eq_refl)) as H.
  cbn in H. destruct H as (L & T & _ & _ & O).
  split; [exact L|]. split; [exact T|exact O].
Defined.

(** C6, as stated, fails at both ends of the calendar: in January of
    year 1 the day before the first of the month does not exist, and in
    December 9999 ['this_month'] returns no start at all. *)
Lemma last_month_calendar_ends :
  valid (mkdate 1 1 15) = true /\
  resolve_period (mkdate 1 1 15) "last_month" = inl OverflowError /\
  valid (mkdate 9999 12 15) = true /\
  resolve_period (mkdate 9999 12 15) "last_month" =
    inr (Some (mkdate 9999 11 1), Some (mkdate 9999 11 30)) /\
  resolve_period (mkdate 9999 12 15) "this_month" = inl ValueError.
Proof. repeat split. Qed.

(** ** [order_by] *)

Section OrderByFacts.
Context {A : Type} (le : A -> A -> bool).

Lemma insert_perm (x : A) (l : list A) :
  Permutation (insert le x l) (x :: l).
Proof.
  induction l as [|y l IH]; cbn; [reflexivity|].
  destruct (le x y); [reflexivity|].
  rewrite IH. apply perm_swap.
Qed.

Lemma order_by_perm (l : list A) : Permutation (order_by le l) l.
Proof.
  induction l as [|x l IH]; cbn; [constructor|].
  rewrite insert_perm. now constructor.
Qed.

Lemma order_by_length (l : list A) :
  List.length (order_by le l) = List.length l.
Proof. apply Permutation_length, order_by_perm. Qed.

Hypothesis le_total : forall a b, le a b = true \/ le b a = true.
Hypothesis le_trans :
  forall a b c, le a b = true -> le b c = true -> le a c = true.

Lemma insert_sorted (x : A) (l : list A) :
  StronglySorted (fun a b => le a b = true) l ->
  StronglySorted (fun a b => le a b = true) (insert le x l).
Proof.
  induction 1 as [|y l S IH F]; cbn.
  - repeat constructor.
  - destruct (le x y) eqn:E.
    + constructor; [now constructor|].
      constructor; [exact E|].
      eapply Forall_impl; [|exact F].
      intros z Hz. now apply le_trans with y.
    + constructor; [exact IH|].
      apply (Permutation_Forall (Permutation_sym (insert_perm x l))).
      constructor; [|exact F].
      destruct (le_total x y) as [H|H]; congruence.
Qed.

Lemma order_by_sorted (l : list A) :
  StronglySorted (fun a b => le a b = true) (order_by le l).
Proof.
  induction l as [|x l IH]; cbn; [constructor|].
  now apply insert_sorted.
Qed.
End OrderByFacts.

(** ** The order of text *)

Lemma compare_refl (s : string) : String.compare s s = Eq.
Proof. now apply OrderedTypeEx.String_as_OT.cmp_eq. Qed.

Lemma compare_lt_trans (a b c : string) :
  String.compare a b = Lt -> String.compare b c = Lt ->
  String.compare a c = Lt.
Proof.
  intros H1 H2.
  apply OrderedTypeEx.String_as_OT.cmp_lt.
  apply OrderedTypeEx.String_as_OT.lt_trans with b;
    now apply OrderedTypeEx.String_as_OT.cmp_lt.
Qed.

Lemma compare_gt_lt (a b : string) :
  String.compare a b = Gt -> String.compare b a = Lt.
Proof.
  intros H. rewrite String.compare_antisym, H. reflexivity.
Qed.

Lemma string_leb_trans (a b c : string) :
  String.leb a b = true -> String.leb b c = true -> String.leb a c = true.
Proof.
  unfold String.leb. intros H1 H2.
  destruct (String.compare a b) eqn:E1; [| |discriminate].
  - apply String.compare_eq_iff in E1. now subst.
  - destruct (String.compare b c) eqn:E2; [| |discriminate].
    + apply String.compare_eq_iff in E2. subst. now rewrite E1.
    + now rewrite (compare_lt_trans a b c E1 E2).
Qed.

(** ** The team roster *)

(** Sorting the stored role texts downwards is sorting by [text_rank]. *)
Lemma role_text_order (a b : Membership.Role) :
  String.compare (Membership.value b) (Membership.value a) =
  Nat.compare (text_rank a) (text_rank b).
Proof. destruct a, b; reflexivity. Qed.

Lemma text_rank_inj (a b : Membership.Role) :
  text_rank a = text_rank b -> a = b.
Proof. destruct a, b; cbn; congruence. Qed.

Lemma roster_order_iff (a b : Membership.t) :
  roster_order a b = true <-> roster_le a b.
Proof.
  unfold roster_order, roster_le, name_le, String.ltb.
  rewrite role_text_order.
  destruct (Nat.compare_spec (text_rank (Membership.role a))
                             (text_rank (Membership.role b))) as [E|L|G].
  - apply text_rank_inj in E.
    destruct (String.compare (User.first_name (Membership.user a))
                             (User.first_name (Membership.user b))) eqn:F.
    + apply String.compare_eq_iff in F. split.
      * intros H. right. split; [exact E|]. right. now split.
      * intros [H|[_ [H|[_ H]]]]; [rewrite E in H; lia|discriminate|exact H].
    + split; [intros _; right; split; [exact E|now left]|reflexivity].
    + split; [discriminate|].
      intros [H|[_ [H|[H _]]]]; [rewrite E in H; lia|discriminate|].
      rewrite H, compare_refl in F. discriminate.
  - split; [now left|reflexivity].
  - split; [discriminate|].
    intros [H|[H _]]; [lia|]. rewrite H in G. lia.
Qed.

Lemma roster_order_total (a b : Membership.t) :
  roster_order a b = true \/ roster_order b a = true.
Proof.
  rewrite !roster_order_iff. unfold roster_le, name_le, String.ltb.
  destruct (Nat.compare_spec (text_rank (Membership.role a))
                             (text_rank (Membership.role b))) as [E|L|G];
    [|now left; left|now right; left].
  apply text_rank_inj in E.
  destruct (String.compare (User.first_name (Membership.user a))
                           (User.first_name (Membership.user b))) eqn:F.
  - apply String.compare_eq_iff in F.
    destruct (String.leb_total (User.last_name (Membership.user a))
                               (User.last_name (Membership.user b))) as [H|H].
    + left. right. split; [exact E|]. right. now split.
    + right. right. split; [now symmetry|]. right. now split.
  - left. right. split; [exact E|]. left. reflexivity.
  - right. right. split; [now symmetry|]. left.
    now rewrite (compare_gt_lt _ _ F).
Qed.

Lemma name_le_trans (a b c : User.t) :
  name_le a b -> name_le b c -> name_le a c.
Proof.
  unfold name_le, String.ltb.
  intros [H1|[E1 L1]] [H2|[E2 L2]].
  - left.
    destruct (String.compare (User.first_name a) (User.first_name b)) eqn:F1;
      try discriminate.
    destruct (String.compare (User.first_name b) (User.first_name c)) eqn:F2;
      try discriminate.
    now rewrite (compare_lt_trans _ _ _ F1 F2).
  - left. now rewrite <- E2.
  - left. now rewrite E1.
  - right. split; [congruence|]. now apply string_leb_trans with (User.last_name b).
Qed.

Lemma roster_order_trans (a b c : Membership.t) :
  roster_order a b = true -> roster_order b c = true ->
  roster_order a c = true.
Proof.
  rewrite !roster_order_iff. unfold roster_le.
  intros [H1|[E1 N1]] [H2|[E2 N2]].
  - left. lia.
  - left. rewrite <- E2. exact H1.
  - left. rewrite E1. exact H2.
  - right. split; [congruence|]. now apply name_le_trans with (Membership.user b).
Qed.

(** C2, as amended: the roster lists the memberships of the business
    ordered by the text of the role, downwards -- every STAFF row before
    every OWNER row, and every OWNER row before every ADMIN row -- with
    ties broken by the user's given then family name. *)
Theorem team_members_order (db : DB) (biz_id : Z) :
  Permutation (team_members db biz_id)
    (filter (fun m => Membership.business_id m =? biz_id) (memberships db)) /\
  StronglySorted roster_le (team_members db biz_id).
Proof.
  split; [apply order_by_perm|].
  unfold team_members.
  pose proof (order_by_sorted roster_order roster_order_total roster_order_trans
                (filter (fun m => Membership.business_id m =? biz_id)
                        (memberships db))) as S.
  induction S as [|x l S IH F]; constructor; [exact IH|].
  eapply Forall_impl; [|exact F].
  intros y Hy. now apply roster_order_iff.
Qed.

(** C2, as stated, fails: in the shop the STAFF row of Carol comes
    first and the ADMIN row of Bob last, so the roster is not sorted by
    privilege. *)
Lemma team_members_not_by_privilege :
  map (fun m => (Membership.role m, User.username (Membership.user m)))
      (team_members (Sample.db []) 1) =
    [(Membership.STAFF, "carol"); (Membership.OWNER, "alice");
     (Membership.ADMIN, "bob")] /\
  ~ StronglySorted
      (fun a b => (privilege_rank (Membership.role a)
                   <= privilege_rank (Membership.role b))%nat)
      (team_members (Sample.db []) 1).
Proof.
  split; [reflexivity|].
  intros S. change (team_members (Sample.db []) 1) with
    [Membership.mk 3 Sample.carol 1 Membership.STAFF;
     Membership.mk 1 Sample.alice 1 Membership.OWNER;
     Membership.mk 2 Sample.bob 1 Membership.ADMIN] in S.
  inversion S as [|? ? _ F]; subst.
  inversion F as [|? ? H _]; subst. cbn in H. lia.
Qed.

(** ** The membership gate *)

Lemma require_membership_member {C : Type} (view : View C) (db : DB)
    (request : Request) (u : User.t) (biz : Z) (m : Membership.t)
    (rest : list Membership.t) :
  user request = Some u -> session_biz_id request = Some biz -> biz <> 0 ->
  memberships_of db u biz = m :: rest ->
  require_membership view db request = view db request.
Proof.
  intros Hu Hs Hz Hm. unfold require_membership.
  rewrite Hu, Hs, Hm. destruct biz; [contradiction| |]; reflexivity.
Qed.

(** Whatever the gate answers by itself leaves the database alone. *)
Lemma require_membership_cases {C : Type} (view : View C) (db : DB)
    (request : Request) :
  require_membership view db request = view db request \/
  exists r, require_membership view db request = inr (mkOutcome r db []) /\
            (r = redirect_to_login \/ exists c, r = HttpResponseForbidden c).
Proof.
  unfold require_membership.
  destruct (user request) as [u|]; [|right; eexists; split; [reflexivity|now left]].
  destruct (session_biz_id request) as [[|p|p]|];
    try (right; eexists; split; [reflexivity|right; eexists; reflexivity]).
  - destruct (memberships_of db u (Z.pos p));
      [right; eexists; split; [reflexivity|right; eexists; reflexivity]|now left].
  - destruct (memberships_of db u (Z.neg p));
      [right; eexists; split; [reflexivity|right; eexists; reflexivity]|now left].
Qed.

(** ** The dashboard totals *)

(** The handler of a totals loop does not catch what [Decimal] raises
    on text that is not a number. *)
Lemma add_amount_rejected (total : Pydecimal.Decimal) (t : Transaction.t) :
  Pydecimal.of_str (Transaction.amount t) = inl InvalidOperation ->
  add_amount total t = inl InvalidOperation.
Proof. unfold add_amount. intros ->. reflexivity. Qed.

(** What the arithmetic of the loop can raise. *)
Lemma fix_raises (sg : bool) (c : N) (x : Z) (e : exn) :
  Pydecimal.fix_ sg c x = inl e -> e = Overflow.
Proof.
  unfold Pydecimal.fix_, ret, raise. cbv zeta.
  repeat match goal with
         | |- context [if ?b then _ else _] => destruct b
         end;
    intros H; try discriminate H; now injection H as <-.
Qed.

Lemma add_raises (a b : Pydecimal.Decimal) (e : exn) :
  Pydecimal.add a b = inl e -> e = InvalidOperation \/ e = Overflow.
Proof.
  unfold Pydecimal.add, ret, raise.
  destruct a as [s1 c1 e1|s1|s1 [|]], b as [s2 c2 e2|s2|s2 [|]];
    try discriminate; try (intros [= <-]; now left).
  - cbv zeta.
    repeat match goal with
           | |- context [if ?c then _ else _] => destruct c
           end; intros H; right; exact (fix_raises _ _ _ _ H).
  - destruct (Bool.eqb s1 s2); [discriminate|]. intros [= <-]. now left.
Qed.

(** Nothing that a turn of the loop can raise is caught: the handler
    is for [ValueError] and [TypeError], and the turn raises
    [InvalidOperation] or [Overflow]. *)
Lemma add_amount_uncaught (total : Pydecimal.Decimal) (t : Transaction.t) :
  add_amount total t =
  (d <- Pydecimal.of_str (Transaction.amount t) ;; Pydecimal.add total d).
Proof.
  unfold add_amount, try_except.
  destruct (Pydecimal.of_str (Transaction.amount t)) as [e|d] eqn:P; cbn.
  - unfold Pydecimal.of_str, ret, raise in P.
    repeat match type of P with
           | context [match ?x with _ => _ end] => destruct x
           end; try discriminate P; now injection P as <-.
  - destruct (Pydecimal.add total d) as [e|r] eqn:E; [|reflexivity].
    destruct (add_raises _ _ _ E) as [-> | ->]; reflexivity.
Qed.

(** As soon as the text of one record is refused by [Decimal], the
    loop ends in an exception. *)
Lemma sum_amounts_rejected (tx : list Transaction.t) :
  forall total,
    Exists (fun t => Pydecimal.of_str (Transaction.amount t)
                     = inl InvalidOperation) tx ->
    exists e, sum_amounts total tx = inl e.
Proof.
  induction tx as [|t rest IH]; intros total H; [inversion H|].
  cbn [sum_amounts].
  destruct (add_amount total t) as [e|total'] eqn:A; [now exists e|].
  cbn [bind]. apply IH.
  inversion H as [? ? R|? ? R]; subst; [|exact R].
  rewrite (add_amount_rejected total t R) in A. discriminate.
Qed.

(** The same at the level of the view: when a cash-in record of the
    business inside the filter bounds carries text that [Decimal]
    refuses, the dashboard of an owner or admin ends in an exception. *)
Lemma dashboard_rejected_amount (today : date) (db : DB) (request : Request)
    (u : User.t) (biz : Z) (m : Membership.t) (business : Business.t)
    (bounds : option date * option date) (t : Transaction.t) :
  user request = Some u -> session_biz_id request = Some biz -> biz <> 0 ->
  memberships_of db u biz = [m] ->
  role_in (Membership.role m) [Membership.OWNER; Membership.ADMIN] = true ->
  filter (fun b => Business.id b =? biz) (businesses db) = [business] ->
  resolve_filter today (GET request) = inr bounds ->
  In t (filter_kind Transaction.CASH_IN
          (filter_dates (fst bounds) (snd bounds)
             (filter (fun t => Transaction.business_id t =? biz)
                     (transactions db)))) ->
  Pydecimal.of_str (Transaction.amount t) = inl InvalidOperation ->
  exists e, dashboard today db request = inl e.
Proof.
  intros Hu Hs Hz Hm Hr Hb Hf Hin Hrej.
  unfold dashboard.
  rewrite (require_membership_member _ db request u biz m [] Hu Hs Hz Hm).
  unfold dashboard_view, session_item, request_user.
  rewrite Hs, Hu. cbn [bind ret]. rewrite Hb, Hm. cbn [objects_get bind ret].
  rewrite Hr, Hf. cbn [negb bind]. destruct bounds as [df dt].
  cbn [fst snd] in Hin.
  destruct (sum_amounts_rejected _ Pydecimal.zero
              (proj2 (Exists_exists _ _) (ex_intro _ t (conj Hin Hrej))))
    as [e E].
  rewrite E. now exists e.
Qed.

(** With well-formed amounts the totals are the sums: here 100.50 in
    and 1 out in May, and a non-numeric cash-out of April that the
    default period leaves out. *)
Lemma dashboard_totals_example :
  exists ctx,
    dashboard Sample.today
      (Sample.db [Sample.cash_in 1 "100.50" (mkdate 2024 5 3);
                  Sample.cash_out 2 "abc" (mkdate 2024 4 10);
                  Sample.cash_out 3 "1" (mkdate 2024 5 10)])
      (Sample.get Sample.alice 1)
    = inr (mkOutcome (render "dashboard.html" ctx)
             (Sample.db [Sample.cash_in 1 "100.50" (mkdate 2024 5 3);
                         Sample.cash_out 2 "abc" (mkdate 2024 4 10);
                         Sample.cash_out 3 "1" (mkdate 2024 5 10)]) []) /\
    total_in ctx = Pydecimal.Finite false 10050 (-2) /\
    total_out ctx = Pydecimal.Finite false 1 0 /\
    balance ctx = Pydecimal.Finite false 9950 (-2).
Proof. eexists. split; [vm_compute; reflexivity|]. repeat split. Qed.

(** C1 at the input of its scenario: the business has the cash-in
    amounts "100.50" and "abc" in the current month, and its owner opens
    the dashboard with the default period.  [Decimal("abc")] raises
    [InvalidOperation], which the handler [(ValueError, TypeError)] does
    not catch: the request ends in that exception instead of a page with
    [total_in = 100.50]. *)
Theorem dashboard_non_numeric_amount :
  dashboard Sample.today
    (Sample.db [Sample.cash_in 1 "100.50" (mkdate 2024 5 3);
                Sample.cash_in 2 "abc" (mkdate 2024 5 10)])
    (Sample.get Sample.alice 1)
  = inl InvalidOperation.
Proof. vm_compute. reflexivity. Qed.

(** ** Recording transactions *)

(** A valid form carries the business that was submitted. *)
Lemma clean_business (db : DB) (p : PostData.t) (obj : TransactionForm.instance) :
  TransactionForm.clean db p = Some obj ->
  PostData.business p = Some (TransactionForm.business_id obj).
Proof.
  unfold TransactionForm.clean.
  destruct (PostData.business p) as [b|]; [|discriminate].
  destruct (PostData.category p) as [c|]; [|discriminate].
  destruct (PostData.date p) as [d|]; [|discriminate].
  destruct (find _ (businesses db)) as [biz|] eqn:F; [|discriminate].
  destruct (find _ (categories db)) as [cat|]; [|discriminate].
  destruct (_ && _); [|discriminate].
  intros [= <-]. cbn.
  apply find_some in F. destruct F as [_ F]. apply Z.eqb_eq in F. now rewrite F.
Qed.

(** C3, as amended: a cash-in submission of a caller whose role in the
    active business is STAFF is answered by a redirect to the
    transaction list with an error message (not by a forbidden result);
    a cash-out submission of a caller whose role is ADMIN is answered by
    an explicit forbidden result; in both cases the database is left as
    it was, so no transaction is created. *)
Theorem recording_role_gate (db : DB) (request : Request) (u : User.t)
    (biz : Z) (m : Membership.t) :
  user request = Some u -> session_biz_id request = Some biz -> biz <> 0 ->
  memberships_of db u biz = [m] ->
  (Membership.role m = Membership.STAFF ->
   cash_in_create db request =
     inr (mkOutcome (redirect "transactions_list") db
            [(error, "You cannot access to this")])) /\
  (Membership.role m = Membership.ADMIN ->
   cash_out_create db request =
     inr (mkOutcome
            (HttpResponseForbidden "Only staff/owner can record cash out.")
            db [])).
Proof.
  intros Hu Hs Hz Hm. split; intros Hr.
  - unfold cash_in_create.
    rewrite (require_membership_member _ db request u biz m [] Hu Hs Hz Hm).
    unfold cash_in_create_view, session_item, request_user.
    rewrite Hs, Hu. cbn [bind ret]. rewrite Hm. cbn [objects_get bind ret].
    rewrite Hr. reflexivity.
  - unfold cash_out_create.
    rewrite (require_membership_member _ db request u biz m [] Hu Hs Hz Hm).
    unfold cash_out_create_view, session_item, request_user.
    rewrite Hs, Hu. cbn [bind ret]. rewrite Hm. cbn [hd_error option_map].
    rewrite Hr. reflexivity.
Qed.

Lemma recording_role_gate_witness :
  cash_in_create (Sample.db [])
    (Sample.post Sample.carol 1 (Sample.transaction_form 1)) =
    inr (mkOutcome (redirect "transactions_list") (Sample.db [])
           [(error, "You cannot access to this")]) /\
  cash_out_create (Sample.db [])
    (Sample.post Sample.bob 1 (Sample.transaction_form 1)) =
    inr (mkOutcome
           (HttpResponseForbidden "Only staff/owner can record cash out.")
           (Sample.db []) []).
Proof.
  split.
  - apply (recording_role_gate (Sample.db [])
             (Sample.post Sample.carol 1 (Sample.transaction_form 1))
             Sample.carol 1 (Membership.mk 3 Sample.carol 1 Membership.STAFF));
      try reflexivity. lia.
  - apply (recording_role_gate (Sample.db [])
             (Sample.post Sample.bob 1 (Sample.transaction_form 1))
             Sample.bob 1 (Membership.mk 2 Sample.bob 1 Membership.ADMIN));
      try reflexivity. lia.
Defined.

(** C3, as stated, fails for cash-in: Carol, who is STAFF of the shop,
    submits a complete cash-in form and is answered by a redirect, not
    by a forbidden result. *)
Lemma staff_cash_in_is_redirected :
  exists o,
    cash_in_create (Sample.db [])
      (Sample.post Sample.carol 1 (Sample.transaction_form 1)) = inr o /\
    response o = redirect "transactions_list" /\
    (forall content, response o <> HttpResponseForbidden content) /\
    transactions (db_after o) = [].
Proof.
  eexists. split; [reflexivity|]. cbn.
  split; [reflexivity|]. split; [discriminate|reflexivity].
Qed.

(** C4: whatever the role of the caller in the active business, a
    cash-in or cash-out submission that is otherwise valid and names a
    business other than the active one is rejected, and the database --
    in particular the transaction table -- is left as it was. *)
Theorem wrong_business_rejected (db : DB) (request : Request) (u : User.t)
    (biz b : Z) (m : Membership.t) (obj : TransactionForm.instance) :
  user request = Some u -> session_biz_id request = Some biz -> biz <> 0 ->
  memberships_of db u biz = [m] ->
  method request = "POST" ->
  PostData.business (POST request) = Some b -> b <> biz ->
  TransactionForm.clean db (POST request) = Some obj ->
  (exists o, cash_in_create db request = inr o /\ rejected o /\
             db_after o = db) /\
  (exists o, cash_out_create db request = inr o /\ rejected o /\
             db_after o = db).
Proof.
  intros Hu Hs Hz Hm Hp Hb Hne Hv.
  assert (Hobj : (TransactionForm.business_id obj =? biz) = false).
  { apply Z.eqb_neq. pose proof (clean_business _ _ _ Hv) as B.
    rewrite Hb in B. injection B as <-. exact Hne. }
  split.
  - unfold cash_in_create.
    rewrite (require_membership_member _ db request u biz m [] Hu Hs Hz Hm).
    unfold cash_in_create_view, session_item, request_user.
    rewrite Hs, Hu. cbn [bind ret]. rewrite Hm. cbn [objects_get bind ret].
    destruct (role_in (Membership.role m) [Membership.OWNER; Membership.ADMIN]).
    + cbn [negb]. rewrite Hp. cbn [String.eqb]. unfold CashInForm.
      rewrite Hv, Hobj. cbn [negb].
      eexists. split; [reflexivity|]. split; [|reflexivity].
      left. eexists. reflexivity.
    + cbn [negb]. eexists. split; [reflexivity|]. split; [|reflexivity].
      right. do 2 eexists. split; [reflexivity|]. now left.
  - unfold cash_out_create.
    rewrite (require_membership_member _ db request u biz m [] Hu Hs Hz Hm).
    unfold cash_out_create_view, session_item, request_user.
    rewrite Hs, Hu. cbn [bind ret]. rewrite Hm. cbn [hd_error option_map].
    destruct (role_in (Membership.role m) [Membership.STAFF; Membership.OWNER]).
    + cbn [negb]. rewrite Hp. cbn [String.eqb]. unfold CashOutForm.
      rewrite Hv, Hobj. cbn [negb].
      eexists. split; [reflexivity|]. split; [|reflexivity].
      left. eexists. reflexivity.
    + cbn [negb]. eexists. split; [reflexivity|]. split; [|reflexivity].
      left. eexists. reflexivity.
Qed.

Lemma wrong_business_rejected_witness :
  (exists o, cash_in_create (Sample.db [])
               (Sample.post Sample.alice 1 (Sample.transaction_form 2)) = inr o /\
             rejected o /\ db_after o = Sample.db []) /\
  (exists o, cash_out_create (Sample.db [])
               (Sample.post Sample.alice 1 (Sample.transaction_form 2)) = inr o /\
             rejected o /\ db_after o = Sample.db []).
Proof.
  apply (wrong_business_rejected (Sample.db [])
           (Sample.post Sample.alice 1 (Sample.transaction_form 2))
           Sample.alice 1 2 (Membership.mk 1 Sample.alice 1 Membership.OWNER)
           (TransactionForm.mk 2 Sample.sales "till" Sample.today "25.00" None));
    try reflexivity; lia.
Defined.

(** ** Adding a member *)









(** ** The spreadsheet export *)

(** The total of a kind in the summary sheet is the text of its amounts
    put end to end. *)
Lemma groupby_kind_sum_joins (df : list FrameRow)
    (summary : list (string * string)) (k total : string) :
  groupby_kind_sum df = inr summary -> In (k, total) summary ->
  total = String.concat ""
            (map col_amount (filter (fun r => String.eqb (col_kind r) k) df)).
Proof.
  destruct df as [|r df]; [discriminate|].
  unfold groupby_kind_sum, ret. intros [= <-] H.
  apply in_map_iff in H. destruct H as (k' & [= <- <-] & _). reflexivity.
Qed.

(** C8 at a failing input: the shop has the cash-in amounts "100" and
    "200" and the cash-out amount "50" in the exported month.  The
    summary sheet gives "100200" for CASH_IN, the two texts joined, where
    the sum of the amounts is 300 (as the dashboard computes it). *)
Theorem export_excel_summary_joins_text :
  exists wb,
    export_excel Sample.today
      (Sample.db [Sample.cash_in 1 "100" (mkdate 2024 5 3);
                  Sample.cash_out 2 "50" (mkdate 2024 5 4);
                  Sample.cash_in 3 "200" (mkdate 2024 5 10)])
      (Sample.get Sample.alice 1)
    = inr (mkOutcome
             (HttpResponse wb
                "application/vnd.openxmlformats-officedocument.spreadsheetml.sheet")
             (Sample.db [Sample.cash_in 1 "100" (mkdate 2024 5 3);
                         Sample.cash_out 2 "50" (mkdate 2024 5 4);
                         Sample.cash_in 3 "200" (mkdate 2024 5 10)]) []) /\
    sheet_Summary wb = [("CASH_IN", "100200"); ("CASH_OUT", "50")] /\
    sum_amounts Pydecimal.zero
      [Sample.cash_in 1 "100" (mkdate 2024 5 3);
       Sample.cash_in 3 "200" (mkdate 2024 5 10)]
    = inr (Pydecimal.Finite false 300 0).
Proof. eexists. split; [vm_compute; reflexivity|]. split; reflexivity. Qed.

(** With no record in the period the frame has no column to group by,
    and the export ends in [KeyError]. *)
Lemma export_excel_no_record :
  export_excel Sample.today (Sample.db []) (Sample.get Sample.alice 1)
  = inl KeyError.
Proof. reflexivity. Qed.

(** ** Creating a category *)

Lemma set_business_overwrites (p : PostData.t) (v : option Z) (biz : Z) :
  PostData.set_business (submit_business p v) biz = PostData.set_business p biz.
Proof. reflexivity. Qed.

(** A valid category form yields a row of the submitted business. *)
Lemma category_clean_business (db : DB) (p : PostData.t)
    (obj : CategoryForm.instance) :
  CategoryForm.clean db p = Some obj ->
  PostData.business p = Some (CategoryForm.business_id obj).
Proof.
  unfold CategoryForm.clean.
  destruct (PostData.business p) as [b|]; [|discriminate].
  destruct (CategoryForm.kind_of_value _) as [k|]; [|discriminate].
  destruct (find _ (businesses db)) as [biz|] eqn:F; [|discriminate].
  destruct (_ && _); [|discriminate].
  intros [= <-]. cbn.
  apply find_some in F. destruct F as [_ F]. apply Z.eqb_eq in F. now rewrite F.
Qed.

(** C10: a category created through the endpoint belongs to the active
    business of the session, of which the caller is a member, and the
    business submitted by the client has no part in the outcome: the
    view overwrites it with the active business before validation. *)
Theorem category_in_active_business (db : DB) (request : Request)
    (o : Outcome CategoryJson) :
  create_transaction_category db request = inr o ->
  (forall v : option Z,
      create_transaction_category db
        (with_parameters request (method request) (GET request)
           (submit_business (POST request) v)) = inr o) /\
  (categories (db_after o) = categories db \/
   exists c u biz,
     categories (db_after o) = (categories db ++ [c])%list /\
     session_biz_id request = Some biz /\
     TransactionCategory.business_id c = biz /\
     user request = Some u /\
     memberships_of db u biz <> []).
Proof.
  intros H. split.
  - intros v. rewrite <- H.
    unfold create_transaction_category, require_membership,
      create_transaction_category_view, session_item, with_parameters.
    cbn [user session_biz_id method POST].
    destruct (user request) as [u|]; [|reflexivity].
    destruct (session_biz_id request) as [[|b|b]|]; reflexivity.
  - unfold create_transaction_category, require_membership in H.
    destruct (user request) as [u|] eqn:Hu; [|injection H as <-; now left].
    destruct (session_biz_id request) as [biz|] eqn:Hs;
      [|injection H as <-; now left].
    assert (G : db_after o = db \/
                (memberships_of db u biz <> [] /\
                 create_transaction_category_view db request = inr o)).
    { destruct biz; [left; now injection H as <-| |];
        (destruct (memberships_of db u _) eqn:M;
         [left; now injection H as <-|right; split; [discriminate|exact H]]). }
    destruct G as [-> | [M V]]; [now left|].
    unfold create_transaction_category_view, session_item in V.
    destruct (String.eqb (method request) "POST");
      [|injection V as <-; now left].
    rewrite Hs in V. cbn [bind ret] in V.
    destruct (CategoryForm.clean db _) as [obj|] eqn:C;
      [|injection V as <-; now left].
    apply category_clean_business in C. cbn in C. injection C as C.
    cbn in V. injection V as <-. right.
    eexists. exists u, biz. cbn. repeat split; auto.
Qed.

Lemma category_in_active_business_witness :
  exists o,
    create_transaction_category (Sample.db [])
      (Sample.post Sample.carol 1 (Sample.category_form (Some 2))) = inr o /\
    categories (db_after o) =
      [Sample.sales; Sample.rent;
       TransactionCategory.mk 3 1 "Fees" TransactionCategory.EXPENSE] /\
    create_transaction_category (Sample.db [])
      (Sample.post Sample.carol 1 (Sample.category_form None)) = inr o.
Proof.
  eexists. split; [reflexivity|]. split; [reflexivity|].
  exact (proj1 (category_in_active_business (Sample.db [])
                  (Sample.post Sample.carol 1 (Sample.category_form (Some 2)))
                  _ eq_refl) None).
Defined.

(** ** The PDF export *)

Lemma date_leb_iff (a b : date) :
  leb a b = true <->
  year a < year b \/
  (year a = year b /\
   (month a < month b \/ (month a = month b /\ day a <= day b))).
Proof.
  unfold leb.
  rewrite !orb_true_iff, !andb_true_iff, !orb_true_iff, !andb_true_iff,
    !Z.ltb_lt, !Z.eqb_eq, Z.leb_le.
  tauto.
Qed.

Lemma by_date_total (a b : Transaction.t) :
  by_date a b = true \/ by_date b a = true.
Proof. unfold by_date. rewrite !date_leb_iff. lia. Qed.

Lemma by_date_trans (a b c : Transaction.t) :
  by_date a b = true -> by_date b c = true -> by_date a c = true.
Proof. unfold by_date. rewrite !date_leb_iff. lia. Qed.

Lemma slice_to_length (n : nat) (s : string) :
  (String.length (slice_to n s) <= n)%nat.
Proof.
  unfold slice_to. revert s.
  induction n as [|n IH]; intros [|c s]; cbn; try lia.
  specialize (IH s). lia.
Qed.

Lemma slice_to_short (n : nat) (s : string) :
  (String.length s <= n)%nat -> slice_to n s = s.
Proof.
  unfold slice_to. revert s.
  induction n as [|n IH]; intros [|c s]; cbn; intros H;
    try reflexivity; try lia.
  rewrite IH by lia. reflexivity.
Qed.

(** [s[:n]] is [s] cut to its first [n] characters. *)
Lemma slice_to_cut (n : nat) (s : string) : cut n s (slice_to n s).
Proof.
  unfold slice_to, cut. revert s.
  induction n as [|n IH]; intros [|c s]; cbn.
  - split; [now exists ""|reflexivity].
  - split; [now exists (String c s)|reflexivity].
  - split; [now exists ""|reflexivity].
  - destruct (IH s) as [[rest E] L]. split.
    + exists rest. now rewrite <- E.
    + now rewrite L.
Qed.

Lemma drawn_texts_app (a b : list CanvasOp) :
  drawn_texts (a ++ b) = (drawn_texts a ++ drawn_texts b)%list.
Proof. apply flat_map_app. Qed.

Section ExportPdfFacts.
Variable strftime : date -> string.
Variable str_int : Z -> string.

(** The fifth cell of a row is the details cut to 20 characters, and
    the cut to 22 that every cell undergoes leaves it as it is. *)
Lemma pdf_row_details (t : Transaction.t) :
  nth_error (pdf_row strftime t) 4 = Some (slice_to 20 (Transaction.details t)) /\
  (String.length (slice_to 20 (Transaction.details t)) <= 20)%nat /\
  slice_to 22 (slice_to 20 (Transaction.details t)) =
    slice_to 20 (Transaction.details t).
Proof.
  split; [|split].
  - unfold pdf_row. cbn [nth_error].
    destruct (String.eqb (Transaction.details t) "") eqn:E; [|reflexivity].
    apply String.eqb_eq in E. now rewrite E.
  - apply slice_to_length.
  - apply slice_to_short. pose proof (slice_to_length 20 (Transaction.details t)).
    lia.
Qed.

Lemma drawn_texts_cells (y : Q) (t : Transaction.t) :
  drawn_texts (draw_cells y (pdf_row strftime t)) =
  map (slice_to 22) (pdf_row strftime t).
Proof. reflexivity. Qed.

(** The loop draws the cells of every record of the query set, in
    order, whatever the page breaks. *)
Lemma drawn_texts_rows (qs : list Transaction.t) :
  forall y : Q,
    drawn_texts (draw_rows strftime y qs) =
    flat_map (fun t => map (slice_to 22) (pdf_row strftime t)) qs.
Proof.
  induction qs as [|t rest IH]; intros y; [reflexivity|].
  cbn [draw_rows flat_map].
  rewrite !drawn_texts_app, drawn_texts_cells, IH.
  destruct (negb (Qle_bool 40 y)); reflexivity.
Qed.

(** The cells drawn for a transaction are its six cells, cut. *)
Lemma pdf_row_cells (t : Transaction.t) :
  row_cells (strftime (Transaction.date t)) t
            (map (slice_to 22) (pdf_row strftime t)).
Proof.
  destruct (pdf_row_details t) as (_ & _ & D).
  unfold row_cells.
  exists (slice_to 22 (strftime (Transaction.date t))),
         (slice_to 22 (TransactionCategory.name (Transaction.category t))),
         (slice_to 22 (Transaction.amount t)),
         (slice_to 20 (Transaction.details t)),
         (slice_to 22 (User.username (Transaction.created_by t))).
  split; [|repeat split; try apply slice_to_cut;
           destruct (slice_to_cut 22 (strftime (Transaction.date t)));
           destruct (slice_to_cut 22
                       (TransactionCategory.name (Transaction.category t)));
           destruct (slice_to_cut 22 (Transaction.amount t));
           destruct (slice_to_cut 20 (Transaction.details t));
           destruct (slice_to_cut 22
                       (User.username (Transaction.created_by t)));
           assumption].
  unfold pdf_row. cbn [map].
  replace (slice_to 22 (Transaction.value (Transaction.kind t)))
    with (Transaction.value (Transaction.kind t))
    by (destruct (Transaction.kind t); reflexivity).
  replace (slice_to 22
             (if String.eqb (Transaction.details t) "" then ""
              else slice_to 20 (Transaction.details t)))
    with (slice_to 20 (Transaction.details t)); [reflexivity|].
  destruct (String.eqb (Transaction.details t) "") eqn:E.
  - apply String.eqb_eq in E. now rewrite E.
  - now rewrite D.
Qed.

(** C9: for a member of the active business and every combination of
    filter parameters (indeed every method, query string and form),
    the PDF export draws, after its title line, the line of the business
    and the six headers, one row of six cells for each of the first
    min(200, n) of the n transactions of the business in ascending order
    of date and nothing else: the date as text, the kind, the name of
    the category, the amount, the details and the name of the user, the
    details being their first 20 characters (all of them when they are
    shorter) and every other cell its first 22; the canvas is the same
    whatever the parameters. *)
Theorem export_pdf_rows (db : DB) (request : Request) (u : User.t)
    (biz : Z) (m : Membership.t) (rest : list Membership.t) :
  user request = Some u -> session_biz_id request = Some biz -> biz <> 0 ->
  memberships_of db u biz = m :: rest ->
  let all := filter (fun t => Transaction.business_id t =? biz)
                    (transactions db) in
  exists (sorted : list Transaction.t) (ops : list CanvasOp)
         (rows : list (list string)),
    Permutation sorted all /\
    StronglySorted
      (fun a b => leb (Transaction.date a) (Transaction.date b) = true)
      sorted /\
    List.length (firstn 200 sorted) = Nat.min 200 (List.length all) /\
    (forall (method' : string) (q : QueryParams) (p : PostData.t),
        export_pdf strftime str_int db (with_parameters request method' q p)
        = inr (mkOutcome (HttpResponse ops "application/pdf") db [])) /\
    drawn_texts ops =
      (["Transactions Report (first 200)";
        ("Business ID: " ++ str_int biz)%string;
        "Date"; "Kind"; "Category"; "Amount"; "Details"; "User"]
       ++ List.concat rows)%list /\
    Forall2 (fun t cells => row_cells (strftime (Transaction.date t)) t cells)
            (firstn 200 sorted) rows.
Proof.
  intros Hu Hs Hz Hm all.
  exists (order_by by_date all). eexists.
  exists (map (fun t => map (slice_to 22) (pdf_row strftime t))
              (firstn 200 (order_by by_date all))).
  split; [apply order_by_perm|].
  split; [apply (order_by_sorted by_date by_date_total by_date_trans)|].
  split; [rewrite length_firstn, order_by_length; reflexivity|].
  split; [|split].
  - intros method' q p. unfold export_pdf.
    rewrite (require_membership_member _ db _ u biz m rest); auto.
    unfold export_pdf_view, session_item, with_parameters.
    cbn [session_biz_id]. rewrite Hs. cbn [bind ret].
    unfold pdf_queryset. fold all. reflexivity.
  - rewrite !drawn_texts_app.
    change (drawn_texts (setFont "Helvetica" 9 :: ?l)) with (drawn_texts l).
    rewrite drawn_texts_rows.
    change (drawn_texts [showPage; save]) with (@nil string).
    rewrite app_nil_r, <- flat_map_concat_map. reflexivity.
  - induction (firstn 200 (order_by by_date all)) as [|t l IH];
      cbn [map]; constructor; [apply pdf_row_cells|exact IH].
Qed.
End ExportPdfFacts.

Lemma export_pdf_rows_witness :
  exists (sorted : list Transaction.t) (ops : list CanvasOp)
         (rows : list (list string)),
    Permutation sorted Sample.two_records /\
    export_pdf Sample.strftime Sample.str_int (Sample.db Sample.two_records)
      (with_parameters (Sample.get Sample.alice 1) "GET"
         Sample.cash_in_last_month Sample.no_post)
    = inr (mkOutcome (HttpResponse ops "application/pdf")
                     (Sample.db Sample.two_records) []) /\
    drawn_texts ops =
      (["Transactions Report (first 200)"; "Business ID: 1";
        "Date"; "Kind"; "Category"; "Amount"; "Details"; "User"]
       ++ List.concat rows)%list /\
    Forall2 (fun t cells =>
               row_cells (Sample.strftime (Transaction.date t)) t cells)
            (firstn 200 sorted) rows.
Proof.
  destruct (export_pdf_rows Sample.strftime Sample.str_int
              (Sample.db Sample.two_records)
              (Sample.get Sample.alice 1) Sample.alice 1
              (Membership.mk 1 Sample.alice 1 Membership.OWNER) []
              eq_refl eq_refl ltac:(lia) eq_refl)
    as (sorted & ops & rows & P & _ & _ & E & D & R).
  exists sorted, ops, rows.
  split; [exact P|]. split; [apply E|]. split; [exact D|exact R].
Defined.

(** The canvas of the sample business: the cash-out of May 1st comes
    before the cash-in of May 3rd, and its details are cut. *)
Lemma export_pdf_example :
  option_map
    (fun o => match response o with
              | HttpResponse ops _ => drawn_texts ops
              | _ => []
              end)
    (match export_pdf Sample.strftime Sample.str_int
             (Sample.db Sample.two_records)
             (Sample.get Sample.alice 1) with
     | inr o => Some o
     | inl _ => None
     end)
  = Some ["Transactions Report (first 200)"; "Business ID: 1";
          "Date"; "Kind"; "Category"; "Amount"; "Details"; "User";
          "2024-05-01"; "CASH_OUT"; "Rent"; "50"; "rent for the month o"; "carol";
          "2024-05-03"; "CASH_IN"; "Sales"; "100"; "till"; "alice"].
Proof. vm_compute. reflexivity. Qed.

(** * Further properties *)

(** Selections of rows. *)
Lemma filter_split {A : Type} (f : A -> bool) (l : list A) :
  Permutation (filter f l ++ filter (fun x => negb (f x)) l) l.
Proof.
  induction l as [|x l IH]; [constructor|]. cbn [filter].
  destruct (f x); cbn [negb app].
  - now constructor.
  - apply Permutation_sym, Permutation_cons_app, Permutation_sym, IH.
Qed.

Lemma selects_all {A : Type} (table : list A) :
  selects (fun _ => True) table table.
Proof.
  exists []. rewrite app_nil_r. split; [apply Permutation_refl|].
  split; [|constructor]. apply Forall_forall. auto.
Qed.

Lemma selects_iff {A : Type} (P Q : A -> Prop) (table qs : list A) :
  (forall x, P x <-> Q x) -> selects P table qs -> selects Q table qs.
Proof.
  intros E (others & Pm & F1 & F2). exists others. split; [exact Pm|].
  split; eapply Forall_impl; try eassumption; intros x; cbv beta;
    rewrite (E x); auto.
Qed.

Lemma selects_filter {A : Type} (P Q : A -> Prop) (f : A -> bool)
    (table qs : list A) :
  (forall x, f x = true <-> Q x) -> selects P table qs ->
  selects (fun x => P x /\ Q x) table (filter f qs).
Proof.
  intros E (others & Pm & F1 & F2).
  exists (filter (fun x => negb (f x)) qs ++ others)%list.
  rewrite Forall_forall in F1, F2. split; [|split].
  - rewrite app_assoc. apply Permutation_trans with (qs ++ others)%list;
      [|exact Pm].
    apply Permutation_app_tail, filter_split.
  - apply Forall_forall. intros x H. apply filter_In in H.
    destruct H as [H1 H2]. split; [now apply F1|now apply E].
  - apply Forall_forall. intros x H [Hp Hq]. apply in_app_or in H.
    destruct H as [H | H].
    + apply filter_In in H. destruct H as [_ H].
      apply negb_true_iff in H. apply E in Hq. congruence.
    + exact (F2 x H Hp).
Qed.

Lemma selects_perm {A : Type} (P : A -> Prop) (table qs qs' : list A) :
  Permutation qs qs' -> selects P table qs -> selects P table qs'.
Proof.
  intros H (others & Pm & F1 & F2). exists others. split; [|split].
  - apply Permutation_trans with (qs ++ others)%list; [|exact Pm].
    apply Permutation_app_tail, Permutation_sym, H.
  - apply (Permutation_Forall H F1).
  - exact F2.
Qed.

(** ** More on [resolve_period] *)

(** What ['last_month'] returns outside January of year 1. *)
Lemma last_month_result (today : date) :
  valid today = true ->
  1 < year today \/ 1 < month today ->
  let '(py, pm) := preceding_month today in
  resolve_period today "last_month" =
    inr (Some (mkdate py pm 1), Some (mkdate py pm (days_in_month py pm))).
Proof.
  intros V Hlo. pose proof V as V'.
  apply valid_iff in V'. destruct V' as (Hy & Hm & Hd).
  assert (L : resolve_period today "last_month" =
              (first_this <- replace today None None (Some 1) ;;
               end_ <- sub_one_day first_this ;;
               start <- replace end_ None None (Some 1) ;;
               ret (Some start, Some end_))) by reflexivity.
  rewrite (replace_day_one today V) in L. cbn [bind] in L.
  unfold preceding_month.
  destruct (month today =? 1) eqn:E.
  - apply Z.eqb_eq in E. rewrite E, sub_one_day_new_year in L.
    replace (1 <=? year today - 1) with true in L by bool_lia.
    replace (year today - 1 <=? 9999) with true in L by bool_lia.
    cbn [andb bind] in L. unfold replace in L. cbn [year month day] in L.
    rewrite new_valid in L by (apply first_day_valid; lia).
    exact L.
  - apply Z.eqb_neq in E. rewrite sub_one_day_first in L by lia.
    cbn [bind] in L. unfold replace in L. cbn [year month day] in L.
    rewrite new_valid in L by (apply first_day_valid; lia).
    exact L.
Qed.

Lemma this_month_december_last (today : date) :
  valid today = true -> year today = 9999 -> month today = 12 ->
  resolve_period today "this_month" = inl ValueError.
Proof.
  intros V Hy Hm.
  assert (L : resolve_period today "this_month" =
              (start <- replace today None None (Some 1) ;;
               end_ <- (if month start =? 12 then
                          d <- replace start (Some (year start + 1)) (Some 1)
                                 (Some 1) ;;
                          sub_one_day d
                        else
                          d <- replace start None (Some (month start + 1))
                                 (Some 1) ;;
                          sub_one_day d) ;;
               ret (Some start, Some end_))) by reflexivity.
  rewrite (replace_day_one today V) in L. cbn [bind year month day] in L.
  rewrite Hy, Hm in L. exact L.
Qed.

Lemma last_month_january_first (today : date) :
  valid today = true -> year today = 1 -> month today = 1 ->
  resolve_period today "last_month" = inl OverflowError.
Proof.
  intros V Hy Hm.
  assert (L : resolve_period today "last_month" =
              (first_this <- replace today None None (Some 1) ;;
               end_ <- sub_one_day first_this ;;
               start <- replace end_ None None (Some 1) ;;
               ret (Some start, Some end_))) by reflexivity.
  rewrite (replace_day_one today V) in L. cbn [bind] in L.
  rewrite Hy, Hm in L. exact L.
Qed.

Lemma this_year_result (today : date) :
  valid today = true ->
  resolve_period today "this_year" =
    inr (Some (mkdate (year today) 1 1), Some (mkdate (year today) 12 31)).
Proof.
  intros V. apply valid_iff in V. destruct V as (Hy & _ & _).
  assert (L : resolve_period today "this_year" =
              (start <- new (year today) 1 1 ;;
               end_ <- new (year today) 12 31 ;;
               ret (Some start, Some end_))) by reflexivity.
  rewrite new_valid in L by (apply first_day_valid; lia).
  cbn [bind] in L.
  rewrite new_valid in L by (apply (last_day_valid (year today) 12); lia).
  exact L.
Qed.

(** The keywords that [resolve_period] knows. *)
Lemma period_cases (period : string) :
  period = "this_month" \/ period = "last_month" \/ period = "this_year" \/
  (period <> "this_month" /\ period <> "last_month" /\ period <> "this_year" /\
   forall today, resolve_period today period = inr (None, None)).
Proof.
  destruct (String.eqb_spec period "this_month") as [E1|E1]; [now left|].
  destruct (String.eqb_spec period "last_month") as [E2|E2]; [now right; left|].
  destruct (String.eqb_spec period "this_year") as [E3|E3];
    [now right; right; left|].
  right. right. right. repeat split; auto.
  intros today. unfold resolve_period.
  apply String.eqb_neq in E1, E2, E3. now rewrite E1, E2, E3.
Qed.

(** X1: for every current date, [resolve_period('this_year')] returns
    January 1st and December 31st of today's year, and
    start <= today <= end; it never raises. *)
Theorem this_year_spans_today (today : date) :
  valid today = true ->
  let start := mkdate (year today) 1 1 in
  let end_ := mkdate (year today) 12 31 in
  resolve_period today "this_year" = inr (Some start, Some end_) /\
  valid start = true /\ valid end_ = true /\
  leb start today = true /\ leb today end_ = true.
Proof.
  intros V start end_. split; [now apply this_year_result|].
  pose proof V as V'. apply valid_iff in V'. destruct V' as (Hy & Hm & Hd).
  pose proof (days_in_month_bounds (year today) (month today) Hm).
  split; [apply first_day_valid; lia|].
  split; [apply (last_day_valid (year today) 12); lia|].
  split; apply date_leb_iff; cbn [year month day start end_]; lia.
Qed.

Lemma this_year_spans_today_witness :
  resolve_period (mkdate 2024 2 29) "this_year" =
    inr (Some (mkdate 2024 1 1), Some (mkdate 2024 12 31)).
Proof. apply (this_year_spans_today (mkdate 2024 2 29)). reflexivity. Defined.

(** X2: on a current date that is a date, [resolve_period] raises in
    two cases only: ['this_month'] in December 9999 ([ValueError]) and
    ['last_month'] in January of year 1 ([OverflowError]). *)
Theorem resolve_period_raises_at_calendar_ends (today : date)
    (period : string) (e : exn) :
  valid today = true ->
  (resolve_period today period = inl e <->
   (period = "this_month" /\ year today = 9999 /\ month today = 12 /\
    e = ValueError) \/
   (period = "last_month" /\ year today = 1 /\ month today = 1 /\
    e = OverflowError)).
Proof.
  intros V. pose proof V as V'.
  apply valid_iff in V'. destruct V' as (Hy & Hm & Hd).
  split.
  - intros R.
    destruct (period_cases period) as [-> | [-> | [-> | (_ & _ & _ & N)]]].
    + left. split; [reflexivity|].
      destruct (Z.eq_dec (year today) 9999) as [Y|Y];
        [destruct (Z.eq_dec (month today) 12) as [M|M]|].
      * rewrite (this_month_december_last today V Y M) in R.
        injection R as <-. auto.
      * destruct (this_month_result today V) as [T _]; [lia|congruence].
      * destruct (this_month_result today V) as [T _]; [lia|congruence].
    + right. split; [reflexivity|].
      destruct (Z.eq_dec (year today) 1) as [Y|Y];
        [destruct (Z.eq_dec (month today) 1) as [M|M]|].
      * rewrite (last_month_january_first today V Y M) in R.
        injection R as <-. auto.
      * pose proof (last_month_result today V) as T.
        destruct (preceding_month today). rewrite T in R by lia. discriminate.
      * pose proof (last_month_result today V) as T.
        destruct (preceding_month today). rewrite T in R by lia. discriminate.
    + rewrite (this_year_result today V) in R. discriminate.
    + rewrite N in R. discriminate.
  - intros [(-> & Y & M & ->) | (-> & Y & M & ->)].
    + now apply this_month_december_last.
    + now apply last_month_january_first.
Qed.

Lemma resolve_period_raises_at_calendar_ends_witness :
  resolve_period (mkdate 9999 12 31) "this_month" = inl ValueError /\
  resolve_period (mkdate 1 1 1) "last_month" = inl OverflowError.
Proof.
  split.
  - apply (resolve_period_raises_at_calendar_ends (mkdate 9999 12 31));
      [reflexivity|]. left. repeat split.
  - apply (resolve_period_raises_at_calendar_ends (mkdate 1 1 1));
      [reflexivity|]. right. repeat split.
Defined.

(** X3: the pair that [resolve_period] returns has both bounds or
    none.  A keyword other than the three periods (['custom'], the empty
    text, ...) gives none; a period gives two dates, the start being the
    first day of a month and not after the end. *)
Theorem resolve_period_bounds (today : date) (period : string)
    (bounds : option date * option date) :
  valid today = true ->
  resolve_period today period = inr bounds ->
  (bounds = (None, None) /\
   period <> "this_month" /\ period <> "last_month" /\ period <> "this_year")
  \/
  (exists start end_,
      bounds = (Some start, Some end_) /\
      valid start = true /\ valid end_ = true /\
      day start = 1 /\ leb start end_ = true /\
      (period = "this_month" \/ period = "last_month" \/ period = "this_year")).
Proof.
  intros V R. pose proof V as V'.
  apply valid_iff in V'. destruct V' as (Hy & Hm & Hd).
  destruct (period_cases period) as [-> | [-> | [-> | (N1 & N2 & N3 & N)]]].
  - right.
    assert (H : year today < 9999 \/ month today < 12).
    { destruct (Z.eq_dec (year today) 9999) as [Y|Y]; [|lia].
      destruct (Z.eq_dec (month today) 12) as [M|M]; [|lia].
      rewrite (this_month_december_last today V Y M) in R. discriminate. }
    destruct (this_month_result today V H) as (T & V1 & V2 & _).
    rewrite T in R. injection R as <-.
    do 2 eexists. split; [reflexivity|]. repeat split; auto.
    apply date_leb_iff. cbn [year month day].
    pose proof (days_in_month_bounds (year today) (month today) Hm). lia.
  - right.
    assert (H : 1 < year today \/ 1 < month today).
    { destruct (Z.eq_dec (year today) 1) as [Y|Y]; [|lia].
      destruct (Z.eq_dec (month today) 1) as [M|M]; [|lia].
      rewrite (last_month_january_first today V Y M) in R. discriminate. }
    pose proof (last_month_result today V H) as T.
    unfold preceding_month in T.
    destruct (month today =? 1) eqn:E.
    + apply Z.eqb_eq in E. rewrite T in R. injection R as <-.
      do 2 eexists. split; [reflexivity|].
      split; [apply first_day_valid; lia|].
      split; [apply last_day_valid; lia|].
      split; [reflexivity|]. split; [|auto].
      apply date_leb_iff. cbn [year month day].
      pose proof (days_in_month_bounds (year today - 1) 12). lia.
    + apply Z.eqb_neq in E. rewrite T in R. injection R as <-.
      do 2 eexists. split; [reflexivity|].
      split; [apply first_day_valid; lia|].
      split; [apply last_day_valid; lia|].
      split; [reflexivity|]. split; [|auto].
      apply date_leb_iff. cbn [year month day].
      pose proof (days_in_month_bounds (year today) (month today - 1)). lia.
  - right. rewrite (this_year_result today V) in R. injection R as <-.
    do 2 eexists. split; [reflexivity|].
    split; [apply first_day_valid; lia|].
    split; [apply (last_day_valid (year today) 12); lia|].
    split; [reflexivity|]. split; [|auto].
    apply date_leb_iff. cbn [year month day]. lia.
  - left. rewrite N in R. injection R as <-. auto.
Qed.

Lemma resolve_period_bounds_witness :
  (exists start end_,
      (Some (mkdate 2024 4 1), Some (mkdate 2024 4 30)) = (Some start, Some end_) /\
      valid start = true /\ valid end_ = true /\
      day start = 1 /\ leb start end_ = true /\
      ("last_month" = "this_month" \/ "last_month" = "last_month" \/
       "last_month" = "this_year")) /\
  resolve_period Sample.today "custom" = inr (None, None).
Proof.
  split; [|reflexivity].
  destruct (resolve_period_bounds Sample.today "last_month"
              (Some (mkdate 2024 4 1), Some (mkdate 2024 4 30))
              eq_refl eq_refl) as [(H & _) | H]; [discriminate H|exact H].
Defined.

(** ** The gates *)

Lemma admitted_iff (db : DB) (request : Request) :
  admitted db request = true <->
  exists u b m rest,
    user request = Some u /\ session_biz_id request = Some b /\ b <> 0 /\
    memberships_of db u b = m :: rest.
Proof.
  unfold admitted. split.
  - destruct (user request) as [u|]; [|discriminate].
    destruct (session_biz_id request) as [b|]; [|discriminate].
    intros H. apply andb_true_iff in H. destruct H as [H1 H2].
    apply negb_true_iff, Z.eqb_neq in H1.
    destruct (memberships_of db u b) as [|m rest] eqn:M; [discriminate|].
    exists u, b, m, rest. auto.
  - intros (u & b & m & rest & -> & -> & Hb & ->).
    apply Z.eqb_neq in Hb. now rewrite Hb.
Qed.

Lemma require_membership_admitted {C : Type} (view : View C) (db : DB)
    (request : Request) :
  admitted db request = true ->
  require_membership view db request = view db request.
Proof.
  intros H. apply admitted_iff in H.
  destruct H as (u & b & m & rest & Hu & Hs & Hb & Hm).
  now apply (require_membership_member view db request u b m rest).
Qed.

(** X4: [require_membership] runs the view exactly for an authenticated
    caller who has selected a business (other than 0) in which he or she
    holds a membership, and then changes nothing of its result.  Every
    other request is answered by the gate alone, whatever the view: an
    anonymous one by the redirect to the login page, the others by a
    forbidden response; the database is left as it was. *)
Theorem require_membership_gate {C : Type} (view : View C) (db : DB)
    (request : Request) :
  (admitted db request = true ->
   require_membership view db request = view db request) /\
  (admitted db request = false ->
   exists r,
     require_membership view db request = inr (mkOutcome r db []) /\
     (user request = None -> r = redirect_to_login) /\
     (user request <> None -> exists content, r = HttpResponseForbidden content)).
Proof.
  split; [apply require_membership_admitted|].
  unfold admitted, require_membership.
  destruct (user request) as [u|].
  - destruct (session_biz_id request) as [[|b|b]|]; cbn [negb andb Z.eqb];
      try (intros _; eexists; split; [reflexivity|];
           split; [discriminate|intros _; eexists; reflexivity]).
    + destruct (memberships_of db u (Z.pos b)); [|discriminate].
      intros _. eexists. split; [reflexivity|].
      split; [discriminate|intros _; eexists; reflexivity].
    + destruct (memberships_of db u (Z.neg b)); [|discriminate].
      intros _. eexists. split; [reflexivity|].
      split; [discriminate|intros _; eexists; reflexivity].
  - intros _. eexists. split; [reflexivity|]. split; [reflexivity|congruence].
Qed.

Lemma require_membership_gate_witness :
  require_membership (dashboard_view Sample.today) (Sample.db [])
    (Sample.get Sample.alice 1)
  = dashboard_view Sample.today (Sample.db []) (Sample.get Sample.alice 1) /\
  exists r,
    require_membership (dashboard_view Sample.today) (Sample.db [])
      (Sample.get Sample.dave 1) = inr (mkOutcome r (Sample.db []) []) /\
    (user (Sample.get Sample.dave 1) = None -> r = redirect_to_login) /\
    (user (Sample.get Sample.dave 1) <> None ->
     exists content, r = HttpResponseForbidden content).
Proof.
  split.
  - exact (proj1 (require_membership_gate (dashboard_view Sample.today)
                    (Sample.db []) (Sample.get Sample.alice 1)) eq_refl).
  - exact (proj2 (require_membership_gate (dashboard_view Sample.today)
                    (Sample.db []) (Sample.get Sample.dave 1)) eq_refl).
Defined.

(** X5: for an authenticated caller, [require_role(role)] runs the view
    when the caller's membership in the selected business carries
    exactly [role] -- a higher role does not do -- and otherwise answers
    "Insufficient role." and leaves the database as it was. *)
Theorem require_role_gate {C : Type} (role : Membership.Role) (view : View C)
    (db : DB) (request : Request) (u : User.t) :
  user request = Some u ->
  (forall b m rest,
      session_biz_id request = Some b -> memberships_of db u b = m :: rest ->
      Membership.role m = role ->
      require_role role view db request = view db request) /\
  (forall b m rest,
      session_biz_id request = Some b -> memberships_of db u b = m :: rest ->
      Membership.role m <> role ->
      require_role role view db request =
        inr (mkOutcome (HttpResponseForbidden "Insufficient role.") db [])) /\
  (session_biz_id request = None \/
   (exists b, session_biz_id request = Some b /\ memberships_of db u b = []) ->
   require_role role view db request =
     inr (mkOutcome (HttpResponseForbidden "Insufficient role.") db [])).
Proof.
  intros Hu. unfold require_role, request_user. rewrite Hu. cbn [bind ret].
  split; [|split].
  - intros b m rest -> -> <-. cbn [hd_error].
    now destruct (Membership.role m).
  - intros b m rest -> -> Hne. cbn [hd_error].
    destruct (Membership.role m), role; try reflexivity; contradiction.
  - intros [-> | (b & -> & ->)]; reflexivity.
Qed.

Lemma require_role_gate_witness :
  require_role Membership.ADMIN cash_in_create_view (Sample.db [])
    (Sample.get Sample.bob 1)
  = cash_in_create_view (Sample.db []) (Sample.get Sample.bob 1) /\
  require_role Membership.ADMIN cash_in_create_view (Sample.db [])
    (Sample.get Sample.alice 1)
  = inr (mkOutcome (HttpResponseForbidden "Insufficient role.")
                   (Sample.db []) []).
Proof.
  split.
  - apply (proj1 (require_role_gate Membership.ADMIN cash_in_create_view
                    (Sample.db []) (Sample.get Sample.bob 1) Sample.bob eq_refl)
                 1 (Membership.mk 2 Sample.bob 1 Membership.ADMIN) []);
      reflexivity.
  - apply (proj1 (proj2 (require_role_gate Membership.ADMIN cash_in_create_view
                           (Sample.db []) (Sample.get Sample.alice 1)
                           Sample.alice eq_refl))
                 1 (Membership.mk 1 Sample.alice 1 Membership.OWNER) []);
      try reflexivity. discriminate.
Defined.

(** ** Switching and logging out *)

(** X6: a user without a membership in a business cannot switch into
    it: the answer is a forbidden response and the session keeps the
    selection it had. *)
Theorem switch_business_needs_membership (db : DB) (request : Request)
    (u : User.t) (biz : Z) :
  user request = Some u -> memberships_of db u biz = [] ->
  switch_business biz db request =
    inr (mkSession
           (mkOutcome
              (HttpResponseForbidden "You are not a member of this business")
              db [])
           (Some u) (session_biz_id request)).
Proof.
  intros Hu Hm. unfold switch_business, login_required, switch_business_view,
    request_user.
  rewrite Hu. cbn [bind ret]. now rewrite Hm.
Qed.

Lemma switch_business_needs_membership_witness :
  switch_business 2 (Sample.db []) (Sample.get Sample.bob 1) =
    inr (mkSession
           (mkOutcome
              (HttpResponseForbidden "You are not a member of this business")
              (Sample.db []) [])
           (Some Sample.bob) (Some 1)).
Proof.
  apply (switch_business_needs_membership (Sample.db [])
           (Sample.get Sample.bob 1) Sample.bob 2); reflexivity.
Defined.

(** X7: a member who switches into a business gets it selected and
    is sent to the dashboard as OWNER or ADMIN, to the transaction list
    as STAFF; nothing is written. *)
Theorem switch_business_lands_by_role (db : DB) (request : Request)
    (u : User.t) (biz : Z) (m : Membership.t) :
  user request = Some u -> memberships_of db u biz = [m] ->
  switch_business biz db request =
    inr (mkSession
           (mkOutcome
              (redirect (match Membership.role m with
                         | Membership.STAFF => "transactions_list"
                         | _ => "dashboard"
                         end))
              db [])
           (Some u) (Some biz)).
Proof.
  intros Hu Hm. unfold switch_business, login_required, switch_business_view,
    request_user.
  rewrite Hu. cbn [bind ret]. rewrite Hm. cbn [objects_get bind ret].
  now destruct (Membership.role m).
Qed.

Lemma switch_business_lands_by_role_witness :
  switch_business 1 (Sample.db []) (Sample.get Sample.carol 2) =
    inr (mkSession (mkOutcome (redirect "transactions_list") (Sample.db []) [])
                   (Some Sample.carol) (Some 1)).
Proof.
  apply (switch_business_lands_by_role (Sample.db [])
           (Sample.get Sample.carol 2) Sample.carol 1
           (Membership.mk 3 Sample.carol 1 Membership.STAFF)); reflexivity.
Defined.

(** What a switch that redirects has found. *)
Lemma switch_business_redirect (db : DB) (request : Request) (biz : Z)
    (s : SessionOutcome unit) (to : string) :
  switch_business biz db request = inr s ->
  response (outcome s) = redirect to ->
  exists u m,
    user_after s = Some u /\ biz_id_after s = Some biz /\
    memberships_of db u biz = [m] /\
    to = (if role_in (Membership.role m) [Membership.OWNER; Membership.ADMIN]
          then "dashboard" else "transactions_list").
Proof.
  unfold switch_business, login_required, switch_business_view, request_user.
  destruct (user request) as [u|]; [|intros [= <-]; discriminate].
  cbn [bind ret].
  destruct (memberships_of db u biz) as [|m [|m' rest]] eqn:M;
    cbn [objects_get bind ret raise]; try discriminate;
    intros [= <-]; cbn [outcome response user_after biz_id_after];
    [discriminate|].
  intros R. exists u, m. repeat split; [exact M|].
  destruct (Membership.role m); cbn in R |- *; now injection R as <-.
Qed.

(** X8: once a switch into a business (other than 0) has redirected,
    the gate of [require_membership] is open for the next request of
    the session, whatever it asks; and the landing page fits the role:
    the dashboard is named exactly for an OWNER or ADMIN, whom the
    dashboard does not send away. *)
Theorem switch_business_opens_gate (db : DB) (request : Request) (biz : Z)
    (s : SessionOutcome unit) (to : string) :
  switch_business biz db request = inr s ->
  response (outcome s) = redirect to -> biz <> 0 ->
  (forall (C : Type) (view : View C) (method' : string) (q : QueryParams)
          (p : PostData.t),
      require_membership view db (follow_up s method' q p) =
      view db (follow_up s method' q p)) /\
  exists u m,
    user_after s = Some u /\ memberships_of db u biz = [m] /\
    (to = "dashboard" <->
     Membership.role m = Membership.OWNER \/ Membership.role m = Membership.ADMIN).
Proof.
  intros S R Hz.
  destruct (switch_business_redirect db request biz s to S R)
    as (u & m & Hu & Hb & Hm & Hto).
  split.
  - intros C view method' q p.
    apply (require_membership_member view db _ u biz m []); auto.
  - exists u, m. repeat split; auto.
    + intros E. rewrite E in Hto.
      destruct (Membership.role m); auto; discriminate.
    + intros [E | E]; rewrite E in Hto; exact Hto.
Qed.

Lemma switch_business_opens_gate_witness :
  exists s,
    switch_business 1 (Sample.db []) (Sample.get Sample.bob 2) = inr s /\
    response (outcome s) = redirect "dashboard" /\
    require_membership (dashboard_view Sample.today) (Sample.db [])
      (follow_up s "GET" Sample.no_query Sample.no_post)
    = dashboard_view Sample.today (Sample.db [])
        (follow_up s "GET" Sample.no_query Sample.no_post).
Proof.
  eexists. split; [reflexivity|]. split; [reflexivity|].
  apply (proj1 (switch_business_opens_gate (Sample.db [])
                  (Sample.get Sample.bob 2) 1 _ "dashboard"
                  eq_refl eq_refl ltac:(lia))).
Defined.

(** X9: [custom_logout] always answers with the redirect to the login
    page; afterwards the session has no user, an authenticated session
    has lost its selected business, and every view behind
    [require_membership] answers the next request of the session with the
    redirect to the login page.  Nothing is written. *)
Theorem custom_logout_closes_gate (db : DB) (request : Request) :
  exists s,
    custom_logout db request = inr s /\
    response (outcome s) = redirect "login" /\
    db_after (outcome s) = db /\
    user_after s = None /\
    (user request <> None -> biz_id_after s = None) /\
    (forall (C : Type) (view : View C) (method' : string) (q : QueryParams)
            (p : PostData.t),
        require_membership view db (follow_up s method' q p) =
        inr (mkOutcome redirect_to_login db [])).
Proof.
  unfold custom_logout.
  destruct (user request) as [u|] eqn:Hu; eexists;
    (split; [reflexivity|]); cbn; repeat split; auto; congruence.
Qed.

(** ** The context processor *)

(** X10: the context processor lists the caller's own memberships, each
    once and no other (none for an anonymous caller), and its current
    membership is one of them and belongs to the selected business.  The
    current business is not screened: it is a row with the selected id
    for whoever asks -- the same for every request with that selection,
    and handed out whenever the table has such a row, to a caller
    without a membership in it and to an anonymous caller as well. *)
Theorem current_business_scope
    (unordered : list Membership.t -> list Membership.t)
    (db : DB) (request : Request) :
  (forall l, Permutation (unordered l) l) ->
  let c := ContextProcessors.current_business unordered db request in
  selects (fun m => option_map User.id (user request)
                    = Some (User.id (Membership.user m)))
          (memberships db) (ContextProcessors.own_memberships c) /\
  (forall m, ContextProcessors.membership c = Some m ->
             In m (ContextProcessors.own_memberships c) /\
             session_biz_id request = Some (Membership.business_id m)) /\
  (user request = None ->
   ContextProcessors.own_memberships c = [] /\
   ContextProcessors.membership c = None) /\
  (forall b, ContextProcessors.business c = Some b ->
             In b (businesses db) /\ session_biz_id request = Some (Business.id b)) /\
  (forall b, In b (businesses db) -> Business.id b <> 0 ->
             session_biz_id request = Some (Business.id b) ->
             exists b', ContextProcessors.business c = Some b' /\
                        Business.id b' = Business.id b) /\
  (forall request',
      session_biz_id request' = session_biz_id request ->
      ContextProcessors.business
        (ContextProcessors.current_business unordered db request')
      = ContextProcessors.business c).
Proof.
  intros U.
  unfold ContextProcessors.current_business, ContextProcessors.selected.
  assert (HD : forall (A : Type) (l : list A) (x : A),
             hd_error l = Some x -> In x l)
    by (intros A [|y l] x; [discriminate|intros [= ->]; now left]).
  cbv zeta. split; [|split; [|split; [|split; [|split]]]].
  - destruct (user request) as [u|]; cbn.
    + eapply selects_perm; [apply Permutation_sym, U|].
      eapply selects_iff; [|
        apply (selects_filter (fun _ => True)
                 (fun m => User.id (Membership.user m) = User.id u)
                 (fun m => User.id (Membership.user m) =? User.id u));
          [intros m; apply Z.eqb_eq|apply selects_all]].
      intros m. cbv beta. split; [intros [_ ->]; reflexivity|].
      intros [= ->]. auto.
    + exists (memberships db). split; [apply Permutation_refl|].
      split; [constructor|]. apply Forall_forall. intros m _. discriminate.
  - intros m. destruct (user request) as [u|]; cbn; [|discriminate].
    destruct (session_biz_id request) as [[|b|b]|]; try discriminate;
      intros H; apply HD in H; unfold memberships_of in H;
      apply filter_In in H; destruct H as [H E];
      apply andb_true_iff in E; destruct E as [E1 E2];
      apply Z.eqb_eq in E2; rewrite E2;
      (split; [|reflexivity]);
      apply (Permutation_in _ (Permutation_sym (U _)));
      apply filter_In; auto.
  - intros ->. cbn. auto.
  - intros b.
    assert (G : match
                  match session_biz_id request with
                  | Some 0 | None => None
                  | Some b0 => Some b0
                  end
                with
                | Some b0 =>
                    hd_error (filter (fun x => Business.id x =? b0) (businesses db))
                | None => None
                end = Some b ->
                In b (businesses db) /\
                session_biz_id request = Some (Business.id b)).
    { destruct (session_biz_id request) as [[|k|k]|]; try discriminate;
        intros H; apply HD in H; apply filter_In in H; destruct H as [H E];
        apply Z.eqb_eq in E; rewrite E; auto. }
    destruct (user request); cbn; exact G.
  - intros b I Hz Hs. rewrite Hs.
    assert (G : exists b',
               hd_error (filter (fun x => Business.id x =? Business.id b)
                                (businesses db)) = Some b' /\
               Business.id b' = Business.id b).
    { destruct (filter (fun x => Business.id x =? Business.id b)
                       (businesses db)) as [|b' l] eqn:F.
      - exfalso. assert (I' : In b []); [|exact I'].
        rewrite <- F. apply filter_In. split; [exact I|apply Z.eqb_refl].
      - exists b'. split; [reflexivity|].
        assert (I' : In b' (b' :: l)) by now left.
        rewrite <- F in I'. apply filter_In in I'. now apply Z.eqb_eq. }
    destruct (Business.id b) as [|k|k]; [contradiction| |];
      destruct (user request); cbn; exact G.
  - intros request' ->.
    destruct (user request'), (user request); reflexivity.
Qed.

Lemma current_business_scope_witness :
  ContextProcessors.business
    (ContextProcessors.current_business (fun l => rev l) (Sample.db [])
       (mkRequest None (Some 2) "GET" Sample.no_query Sample.no_post))
  = ContextProcessors.business
      (ContextProcessors.current_business (fun l => rev l) (Sample.db [])
         (Sample.get Sample.alice 2)).
Proof.
  apply (proj2 (proj2 (proj2 (proj2 (proj2
           (current_business_scope (fun l => rev l) (Sample.db [])
              (Sample.get Sample.alice 2)
              (fun l => Permutation_sym (Permutation_rev l)))))))).
  reflexivity.
Defined.

(** ** More on the dashboard *)

Lemma date_eqb_iff (a b : date) : eqb a b = true <-> a = b.
Proof.
  unfold eqb. rewrite !andb_true_iff, !Z.eqb_eq.
  destruct a, b; cbn. split; [intros [[-> ->] ->]; reflexivity|].
  intros [= -> -> ->]. auto.
Qed.

(** The order of a listing, on the fields it compares. *)
Lemma recent_first_iff (a b : Transaction.t) :
  recent_first a b = true <->
  year (Transaction.date b) < year (Transaction.date a) \/
  (year (Transaction.date b) = year (Transaction.date a) /\
   (month (Transaction.date b) < month (Transaction.date a) \/
    (month (Transaction.date b) = month (Transaction.date a) /\
     (day (Transaction.date b) < day (Transaction.date a) \/
      (day (Transaction.date b) = day (Transaction.date a) /\
       Transaction.id b <= Transaction.id a))))).
Proof.
  unfold recent_first.
  destruct (eqb (Transaction.date a) (Transaction.date b)) eqn:E.
  - apply date_eqb_iff in E. rewrite E, Z.leb_le. lia.
  - assert (N : Transaction.date a <> Transaction.date b)
      by (intros H; apply date_eqb_iff in H; congruence).
    rewrite date_leb_iff.
    assert (D : ~ (year (Transaction.date a) = year (Transaction.date b) /\
                   month (Transaction.date a) = month (Transaction.date b) /\
                   day (Transaction.date a) = day (Transaction.date b))).
    { intros (H1 & H2 & H3). apply N.
      destruct (Transaction.date a), (Transaction.date b); cbn in *.
      congruence. }
    lia.
Qed.

Lemma recent_first_total (a b : Transaction.t) :
  recent_first a b = true \/ recent_first b a = true.
Proof. rewrite !recent_first_iff. lia. Qed.

Lemma recent_first_trans (a b c : Transaction.t) :
  recent_first a b = true -> recent_first b c = true ->
  recent_first a c = true.
Proof. rewrite !recent_first_iff. lia. Qed.

Lemma recent_first_le (a b : Transaction.t) :
  recent_first a b = true -> recent_le a b.
Proof.
  unfold recent_first, recent_le.
  destruct (eqb (Transaction.date a) (Transaction.date b)) eqn:E.
  - apply date_eqb_iff in E. rewrite Z.leb_le. now right.
  - intros H. left. split; [|exact H].
    intros N. apply date_eqb_iff in N. congruence.
Qed.

(** A listing by [order_by('-date', '-id')] is most recent first. *)
Lemma order_by_recent (l : list Transaction.t) :
  StronglySorted recent_le (order_by recent_first l).
Proof.
  pose proof (order_by_sorted recent_first recent_first_total
                recent_first_trans l) as S.
  induction S as [|x r S IH F]; constructor; [exact IH|].
  eapply Forall_impl; [|exact F]. intros y. apply recent_first_le.
Qed.

(** X11: the dashboard sends a STAFF member to the transaction list
    with a notice, before any period is resolved or amount is read: the
    answer is the same on every date and whatever the records hold, and
    nothing is written. *)
Theorem dashboard_staff_redirected (today : date) (db : DB)
    (request : Request) (u : User.t) (biz : Z) (m : Membership.t)
    (business : Business.t) :
  user request = Some u -> session_biz_id request = Some biz -> biz <> 0 ->
  memberships_of db u biz = [m] ->
  filter (fun b => Business.id b =? biz) (businesses db) = [business] ->
  Membership.role m = Membership.STAFF ->
  dashboard today db request =
    inr (mkOutcome (redirect "transactions_list") db
           [(info, "You do not have permission to access the dashboard. Redirecting to transactions.")]).
Proof.
  intros Hu Hs Hz Hm Hb Hr. unfold dashboard.
  rewrite (require_membership_member _ db request u biz m [] Hu Hs Hz Hm).
  unfold dashboard_view, session_item, request_user.
  rewrite Hs, Hu. cbn [bind ret]. rewrite Hb, Hm. cbn [objects_get bind ret].
  rewrite Hr. reflexivity.
Qed.

Lemma dashboard_staff_redirected_witness :
  dashboard (mkdate 9999 12 31)
    (Sample.db [Sample.cash_in 1 "abc" (mkdate 9999 12 1)])
    (Sample.get Sample.carol 1) =
    inr (mkOutcome (redirect "transactions_list")
           (Sample.db [Sample.cash_in 1 "abc" (mkdate 9999 12 1)])
           [(info, "You do not have permission to access the dashboard. Redirecting to transactions.")]).
Proof.
  apply (dashboard_staff_redirected (mkdate 9999 12 31) _ _ Sample.carol 1
           (Membership.mk 3 Sample.carol 1 Membership.STAFF) Sample.shop);
    try reflexivity. lia.
Defined.

(** What a rendered dashboard was computed from. *)
Lemma dashboard_rendered (today : date) (db : DB) (request : Request)
    (o : Outcome DashboardContext) (template : string) (ctx : DashboardContext) :
  dashboard today db request = inr o ->
  response o = render template ctx ->
  exists biz,
    session_biz_id request = Some biz /\
    db_after o = db /\
    recent_transactions ctx =
      firstn 10 (order_by recent_first
                   (filter (fun t => Transaction.business_id t =? biz)
                           (transactions db))) /\
    team_roster ctx = team_members db biz /\
    Pydecimal.sub (total_in ctx) (total_out ctx) = inr (balance ctx).
Proof.
  unfold dashboard. intros H R.
  destruct (require_membership_cases (dashboard_view today) db request)
    as [E | (r & E & [-> | [c ->]])]; rewrite E in H;
    [|injection H as <-; discriminate R|injection H as <-; discriminate R].
  unfold dashboard_view, session_item in H.
  destruct (session_biz_id request) as [biz|]; [|discriminate].
  cbn [bind ret] in H.
  destruct (objects_get (filter _ (businesses db))) as [e|business];
    [discriminate|]. cbn [bind] in H.
  destruct (request_user request) as [e|u]; [discriminate|]. cbn [bind] in H.
  destruct (objects_get (memberships_of db u biz)) as [e|m];
    [discriminate|]. cbn [bind] in H.
  destruct (negb _); [injection H as <-; discriminate R|].
  destruct (resolve_filter today (GET request)) as [e|[df dt]];
    [discriminate|]. cbn [bind] in H.
  destruct (sum_amounts _ (filter_kind Transaction.CASH_IN _)) as [e|tin];
    [discriminate|]. cbn [bind] in H.
  destruct (sum_amounts _ (filter_kind Transaction.CASH_OUT _)) as [e|tout];
    [discriminate|]. cbn [bind] in H.
  destruct (Pydecimal.sub tin tout) as [e|bal] eqn:B; [discriminate|].
  cbn [bind ret] in H. injection H as <-. cbn in R. injection R as _ <-.
  exists biz. cbn. auto.
Qed.

(** X12: on a rendered dashboard the preview lists at most 10
    transactions, all of the active business, most recent first (later
    date first, higher id first on the same date); they are the first
    10 of all the transactions of the business in that order, so the
    preview is the same whatever the filter parameters of the request;
    and rendering writes nothing. *)
Theorem dashboard_recent_transactions (today : date) (db : DB)
    (request : Request) (o : Outcome DashboardContext) (template : string)
    (ctx : DashboardContext) :
  dashboard today db request = inr o ->
  response o = render template ctx ->
  db_after o = db /\
  exists biz sorted,
    session_biz_id request = Some biz /\
    Permutation sorted
      (filter (fun t => Transaction.business_id t =? biz) (transactions db)) /\
    StronglySorted recent_le sorted /\
    recent_transactions ctx = firstn 10 sorted /\
    (List.length (recent_transactions ctx) <= 10)%nat /\
    (forall (method' : string) (q : QueryParams) (p : PostData.t)
            (o' : Outcome DashboardContext) (template' : string)
            (ctx' : DashboardContext),
        dashboard today db (with_parameters request method' q p) = inr o' ->
        response o' = render template' ctx' ->
        recent_transactions ctx' = recent_transactions ctx).
Proof.
  intros H R.
  destruct (dashboard_rendered today db request o template ctx H R)
    as (biz & Hs & Hdb & Hrec & _).
  split; [exact Hdb|].
  exists biz, (order_by recent_first
                 (filter (fun t => Transaction.business_id t =? biz)
                         (transactions db))).
  split; [exact Hs|]. split; [apply order_by_perm|].
  split; [apply order_by_recent|]. split; [exact Hrec|].
  split; [rewrite Hrec; apply firstn_le_length|].
  intros method' q p o' template' ctx' H' R'.
  destruct (dashboard_rendered today db _ o' template' ctx' H' R')
    as (biz' & Hs' & _ & Hrec' & _).
  cbn in Hs'. rewrite Hs in Hs'. injection Hs' as <-.
  now rewrite Hrec, Hrec'.
Qed.

Lemma dashboard_recent_transactions_witness :
  exists o ctx,
    dashboard Sample.today (Sample.db Cases.may) (Sample.get Sample.alice 1)
      = inr o /\
    response o = render "dashboard.html" ctx /\
    db_after o = Sample.db Cases.may /\
    map Transaction.id (recent_transactions ctx) = [3; 2; 1].
Proof.
  eexists. eexists. split; [vm_compute; reflexivity|].
  split; [reflexivity|]. split; [|reflexivity].
  eapply (proj1 (dashboard_recent_transactions Sample.today
                   (Sample.db Cases.may) (Sample.get Sample.alice 1) _
                   "dashboard.html" _ eq_refl eq_refl)).
Defined.

(** X13: the handler of the totals loops is never taken.  What a turn
    can raise is [InvalidOperation] (text that is not a number, a
    signalling NaN, opposite infinities) or [Overflow], and the handler
    is for [ValueError] and [TypeError]: each loop computes what the
    same loop without [try] computes, exceptions included. *)
Theorem totals_handler_never_taken (tx : list Transaction.t) :
  forall total, sum_amounts total tx = sum_unguarded total tx.
Proof.
  induction tx as [|t rest IH]; intros total; [reflexivity|].
  cbn [sum_amounts sum_unguarded]. rewrite add_amount_uncaught.
  destruct (Pydecimal.of_str (Transaction.amount t)) as [e|d]; [reflexivity|].
  cbn [bind]. destruct (Pydecimal.add total d) as [e|total']; [reflexivity|].
  cbn [bind]. apply IH.
Qed.

(** X14: one record is enough to take the dashboard down: when a
    cash-in or cash-out record of the business inside the filter bounds
    carries text that [Decimal] refuses, the dashboard of an owner or
    admin ends in an exception instead of a page. *)
Theorem dashboard_refused_amount (today : date) (db : DB) (request : Request)
    (u : User.t) (biz : Z) (m : Membership.t) (business : Business.t)
    (bounds : option date * option date) (t : Transaction.t) :
  user request = Some u -> session_biz_id request = Some biz -> biz <> 0 ->
  memberships_of db u biz = [m] ->
  Membership.role m <> Membership.STAFF ->
  filter (fun b => Business.id b =? biz) (businesses db) = [business] ->
  resolve_filter today (GET request) = inr bounds ->
  In t (filter_dates (fst bounds) (snd bounds)
          (filter (fun t => Transaction.business_id t =? biz)
                  (transactions db))) ->
  Pydecimal.of_str (Transaction.amount t) = inl InvalidOperation ->
  exists e, dashboard today db request = inl e.
Proof.
  intros Hu Hs Hz Hm Hr Hb Hf Hin Hrej.
  unfold dashboard.
  rewrite (require_membership_member _ db request u biz m [] Hu Hs Hz Hm).
  unfold dashboard_view, session_item, request_user.
  rewrite Hs, Hu. cbn [bind ret]. rewrite Hb, Hm. cbn [objects_get bind ret].
  replace (role_in (Membership.role m) [Membership.OWNER; Membership.ADMIN])
    with true by (destruct (Membership.role m); try reflexivity; contradiction).
  rewrite Hf. cbn [negb bind]. destruct bounds as [df dt]. cbn [fst snd] in Hin.
  set (tx := filter_dates df dt _) in *.
  assert (K : forall k, Transaction.kind t = k ->
                        exists e, sum_amounts Pydecimal.zero (filter_kind k tx)
                                  = inl e).
  { intros k Hk. apply sum_amounts_rejected. apply Exists_exists.
    exists t. split; [|exact Hrej].
    apply filter_In. split; [exact Hin|]. rewrite Hk. now destruct k. }
  destruct (Transaction.kind t) eqn:Kd.
  - destruct (K _ eq_refl) as [e E]. rewrite E. now exists e.
  - destruct (sum_amounts Pydecimal.zero (filter_kind Transaction.CASH_IN tx))
      as [e|tin]; [now exists e|]. cbn [bind].
    destruct (K _ eq_refl) as [e E]. rewrite E. now exists e.
Qed.

Lemma dashboard_refused_amount_witness :
  exists e,
    dashboard Sample.today
      (Sample.db [Sample.cash_in 1 "100.50" (mkdate 2024 5 3);
                  Sample.cash_out 2 "12,50" (mkdate 2024 5 10)])
      (Sample.get Sample.bob 1) = inl e.
Proof.
  apply (dashboard_refused_amount Sample.today _ _ Sample.bob 1
           (Membership.mk 2 Sample.bob 1 Membership.ADMIN) Sample.shop
           (Some (mkdate 2024 5 1), Some (mkdate 2024 5 31))
           (Sample.cash_out 2 "12,50" (mkdate 2024 5 10)));
    try reflexivity; try lia; try discriminate.
  right. now left.
Defined.

(** ** The transaction list *)

Lemma filter_dates_In (bounds : option date * option date)
    (l : list Transaction.t) (t : Transaction.t) :
  In t (filter_dates (fst bounds) (snd bounds) l) <-> In t l /\ within bounds t.
Proof.
  destruct bounds as [[a|] [b|]]; unfold filter_dates, within; cbn [fst snd];
    rewrite ?filter_In; split.
  - intros [[H1 H2] H3]. split; [exact H1|]. split; intros d [= <-]; auto.
  - intros [H1 [H2 H3]]. auto.
  - intros [H1 H2]. split; [exact H1|]. split; intros d; [intros [= <-]; auto|discriminate].
  - intros [H1 [H2 _]]. auto.
  - intros [H1 H2]. split; [exact H1|]. split; intros d; [discriminate|intros [= <-]; auto].
  - intros [H1 [_ H3]]. auto.
  - intros H. split; [exact H|]. split; discriminate.
  - intros [H _]. exact H.
Qed.

Lemma filter_kind_param_In (q : QueryParams) (l : list Transaction.t)
    (t : Transaction.t) :
  In t (filter_kind_param
          (match kind_filter q with Some k => k | None => "ALL" end) l)
  <-> In t l /\ kind_admits q t.
Proof.
  unfold filter_kind_param, kind_admits.
  destruct (kind_filter q) as [k|].
  - destruct (String.eqb k "CASH_IN" || String.eqb k "CASH_OUT") eqn:E.
    + rewrite filter_In, String.eqb_eq. split.
      * intros [H1 H2]. split; [exact H1|]. now intros k' [= <-] _.
      * intros [H1 H2]. split; [exact H1|]. apply H2; [reflexivity|].
        apply orb_true_iff in E. rewrite !String.eqb_eq in E. exact E.
    + split; [|tauto]. intros H. split; [exact H|].
      intros k' [= <-] K. apply orb_false_iff in E.
      rewrite !String.eqb_neq in E. destruct K; tauto.
  - split; [|tauto]. intros H. split; [exact H|]. discriminate.
Qed.

Lemma filter_dates_selects (P : Transaction.t -> Prop)
    (bounds : option date * option date) (table qs : list Transaction.t) :
  selects P table qs ->
  selects (fun t => P t /\ within bounds t) table
          (filter_dates (fst bounds) (snd bounds) qs).
Proof.
  intros H.
  pose proof (fun a => selects_filter P
                (fun t => leb a (Transaction.date t) = true)
                (fun t => leb a (Transaction.date t)) table qs
                (fun t => iff_refl _) H) as From.
  pose proof (fun (P' : Transaction.t -> Prop) qs' b =>
                selects_filter P'
                  (fun t => leb (Transaction.date t) b = true)
                  (fun t => leb (Transaction.date t) b) table qs'
                  (fun t => iff_refl _)) as To.
  destruct bounds as [[a|] [b|]]; unfold filter_dates, within; cbn [fst snd].
  - eapply selects_iff; [|exact (To _ _ b (From a))].
    intros t. cbv beta. split.
    + intros [[H1 H2] H3]. split; [exact H1|].
      split; intros d [= <-]; assumption.
    + intros [H1 [H2 H3]]. auto.
  - eapply selects_iff; [|exact (From a)].
    intros t. cbv beta. split.
    + intros [H1 H2]. split; [exact H1|].
      split; intros d; [intros [= <-]; assumption|discriminate].
    + intros [H1 [H2 _]]. auto.
  - eapply selects_iff; [|exact (To _ _ b H)].
    intros t. cbv beta. split.
    + intros [H1 H2]. split; [exact H1|].
      split; intros d; [discriminate|intros [= <-]; assumption].
    + intros [H1 [_ H3]]. auto.
  - eapply selects_iff; [|exact H]. intros t. cbv beta. split.
    + intros H1. split; [exact H1|]. split; discriminate.
    + tauto.
Qed.

Lemma filter_kind_param_selects (P : Transaction.t -> Prop) (q : QueryParams)
    (table qs : list Transaction.t) :
  selects P table qs ->
  selects (fun t => P t /\ kind_admits q t) table
          (filter_kind_param
             (match kind_filter q with Some k => k | None => "ALL" end) qs).
Proof.
  intros H. unfold filter_kind_param, kind_admits.
  destruct (kind_filter q) as [k|].
  - destruct (String.eqb k "CASH_IN" || String.eqb k "CASH_OUT") eqn:E.
    + eapply selects_iff; [|
        apply (selects_filter P
                 (fun t => Transaction.value (Transaction.kind t) = k)
                 (fun t => String.eqb (Transaction.value (Transaction.kind t)) k));
          [intros t; apply String.eqb_eq|exact H]].
      intros t. cbv beta. split.
      * intros [H1 H2]. split; [exact H1|]. now intros k' [= <-] _.
      * intros [H1 H2]. split; [exact H1|]. apply H2; [reflexivity|].
        apply orb_true_iff in E. rewrite !String.eqb_eq in E. exact E.
    + eapply selects_iff; [|exact H]. intros t. cbv beta.
      split; [|tauto]. intros H1. split; [exact H1|].
      intros k' [= <-] K. apply orb_false_iff in E.
      rewrite !String.eqb_neq in E. destruct K; tauto.
  - eapply selects_iff; [|exact H]. intros t. cbv beta.
    split; [|tauto]. intros H1. split; [exact H1|]. discriminate.
Qed.

(** The transactions of a business, selected from the table. *)
Lemma business_selects (db : DB) (biz : Z) :
  selects (fun t => Transaction.business_id t = biz) (transactions db)
          (filter (fun t => Transaction.business_id t =? biz) (transactions db)).
Proof.
  eapply selects_iff; [|
    apply (selects_filter (fun _ => True)
             (fun t => Transaction.business_id t = biz)
             (fun t => Transaction.business_id t =? biz));
      [intros t; apply Z.eqb_eq|apply selects_all]].
  intros t. cbv beta. tauto.
Qed.

(** X15: a rendered transaction list holds the transactions of the
    active business that lie inside the filter bounds and that the kind
    parameter admits (CASH_IN or CASH_OUT narrow the list; ALL, no
    parameter or any other text do not), each once and no other, most
    recent first; the categories offered are those of the active
    business, each once and no other, in the order the database hands
    them out, whichever that is; nothing is written. *)
Theorem transactions_list_contents
    (unordered : list TransactionCategory.t -> list TransactionCategory.t)
    (today : date) (db : DB)
    (request : Request) (o : Outcome ListContext) (template : string)
    (ctx : ListContext) :
  (forall l, Permutation (unordered l) l) ->
  transactions_list unordered today db request = inr o ->
  response o = render template ctx ->
  db_after o = db /\
  exists biz bounds,
    session_biz_id request = Some biz /\
    resolve_filter today (GET request) = inr bounds /\
    selects (fun t => Transaction.business_id t = biz /\
                      within bounds t /\ kind_admits (GET request) t)
            (transactions db) (list_transactions ctx) /\
    StronglySorted recent_le (list_transactions ctx) /\
    selects (fun c => TransactionCategory.business_id c = biz)
            (categories db) (list_categories ctx).
Proof.
  unfold transactions_list. intros U H R.
  destruct (require_membership_cases (transactions_list_view unordered today)
              db request)
    as [E | (r & E & [-> | [c ->]])]; rewrite E in H;
    [|injection H as <-; discriminate R|injection H as <-; discriminate R].
  unfold transactions_list_view, session_item in H.
  destruct (session_biz_id request) as [biz|]; [|discriminate].
  cbn [bind ret] in H.
  destruct (objects_get (filter _ (businesses db))) as [e|business];
    [discriminate|]. cbn [bind] in H.
  destruct (resolve_filter today (GET request)) as [e|[df dt]] eqn:F;
    [discriminate|]. cbn [bind] in H.
  destruct (request_user request) as [e|u]; [discriminate|]. cbn [bind] in H.
  destruct (objects_get (memberships_of db u biz)) as [e|m];
    [discriminate|]. cbn [bind ret] in H.
  injection H as <-. cbn in R. injection R as _ <-. cbn.
  split; [reflexivity|]. exists biz, (df, dt).
  split; [reflexivity|]. split; [reflexivity|].
  split; [|split; [apply order_by_recent|]].
  - eapply selects_perm;
      [apply Permutation_sym, (order_by_perm recent_first)|].
    eapply selects_iff; [|
      apply filter_kind_param_selects;
      apply (filter_dates_selects
               (fun t => Transaction.business_id t = biz) (df, dt));
      apply business_selects].
    intros t. cbv beta. tauto.
  - eapply selects_perm; [apply Permutation_sym, U|].
    eapply selects_iff; [|
      apply (selects_filter (fun _ => True)
               (fun c => TransactionCategory.business_id c = biz)
               (fun c => TransactionCategory.business_id c =? biz));
        [intros c; apply Z.eqb_eq|apply selects_all]].
    intros c. cbv beta. tauto.
Qed.

Lemma transactions_list_contents_witness :
  exists o ctx,
    transactions_list Cases.by_name Sample.today (Sample.db Cases.may)
      (Cases.at_ Sample.carol 1
         (Cases.custom (mkdate 2024 5 1) (mkdate 2024 5 9) (Some "CASH_IN")))
      = inr o /\
    response o = render "transactions/list.html" ctx /\
    db_after o = Sample.db Cases.may /\
    map Transaction.id (list_transactions ctx) = [1] /\
    list_categories ctx = [Sample.rent; Sample.sales].
Proof.
  eexists. eexists. split; [vm_compute; reflexivity|].
  split; [reflexivity|]. split; [|split; reflexivity].
  eapply (proj1 (transactions_list_contents Cases.by_name Sample.today
                   (Sample.db Cases.may)
                   (Cases.at_ Sample.carol 1
                      (Cases.custom (mkdate 2024 5 1) (mkdate 2024 5 9)
                                    (Some "CASH_IN")))
                   _ "transactions/list.html" _
                   (fun l => order_by_perm _ l) eq_refl eq_refl)).
Defined.

(** ** More on recording transactions *)

Lemma next_id_fresh (ids : list Z) (x : Z) : In x ids -> x < next_id ids.
Proof.
  unfold next_id. induction ids as [|y ids IH]; cbn [fold_right In];
    [contradiction|].
  intros [-> | H]; [lia|]. specialize (IH H). lia.
Qed.

Lemma role_in_In (r : Membership.Role) (l : list Membership.Role) :
  role_in r l = true -> In r l.
Proof.
  unfold role_in. intros H. apply existsb_exists in H.
  destruct H as (x & Hx & E). destruct r, x; try discriminate; exact Hx.
Qed.

(** What a valid transaction form carries. *)
Lemma clean_fields (db : DB) (p : PostData.t) (obj : TransactionForm.instance) :
  TransactionForm.clean db p = Some obj ->
  In (TransactionForm.category obj) (categories db) /\
  PostData.category p = Some (TransactionCategory.id (TransactionForm.category obj)) /\
  TransactionForm.amount obj = strip (PostData.amount p) /\
  TransactionForm.amount obj <> "" /\
  (String.length (TransactionForm.amount obj) <= 40)%nat /\
  TransactionForm.details obj = strip (PostData.details p) /\
  (String.length (TransactionForm.details obj) <= 240)%nat /\
  PostData.date p = Some (TransactionForm.date obj).
Proof.
  unfold TransactionForm.clean.
  destruct (PostData.business p) as [b|]; [|discriminate].
  destruct (PostData.category p) as [c|]; [|discriminate].
  destruct (PostData.date p) as [d|]; [|discriminate].
  destruct (find _ (businesses db)) as [biz|]; [|discriminate].
  destruct (find _ (categories db)) as [cat|] eqn:F; [|discriminate].
  destruct (_ && _) eqn:E; [|discriminate].
  intros [= <-]. cbn.
  apply find_some in F. destruct F as [F1 F2]. apply Z.eqb_eq in F2.
  rewrite !andb_true_iff in E. destruct E as [[[[[E1 E2] E3] _] _] _].
  apply negb_true_iff, String.eqb_neq in E1.
  apply Nat.leb_le in E2, E3. rewrite F2. repeat split; auto.
Qed.

(** What the form validation has checked besides. *)
Lemma clean_checked (db : DB) (p : PostData.t) (obj : TransactionForm.instance) :
  TransactionForm.clean db p = Some obj ->
  TransactionForm.photo obj = PostData.photo p /\
  has_nul (TransactionForm.amount obj) = false /\
  has_nul (TransactionForm.details obj) = false /\
  valid (TransactionForm.date obj) = true /\
  In (TransactionForm.business_id obj) (map Business.id (businesses db)).
Proof.
  unfold TransactionForm.clean.
  destruct (PostData.business p) as [b|]; [|discriminate].
  destruct (PostData.category p) as [c|]; [|discriminate].
  destruct (PostData.date p) as [d|]; [|discriminate].
  destruct (find _ (businesses db)) as [biz|] eqn:B; [|discriminate].
  destruct (find _ (categories db)) as [cat|]; [|discriminate].
  destruct (_ && _) eqn:E; [|discriminate].
  intros [= <-]. cbn.
  rewrite !andb_true_iff, !negb_true_iff in E.
  destruct E as [[[_ E4] E5] E6].
  apply find_some in B. destruct B as [B _].
  repeat split; auto. apply in_map_iff. now exists biz.
Qed.

(** A complete cash-in form for the active business, from an OWNER or
    ADMIN. *)
Lemma cash_in_saves (db : DB) (request : Request) (u : User.t) (biz : Z)
    (m : Membership.t) (obj : TransactionForm.instance) :
  user request = Some u -> session_biz_id request = Some biz -> biz <> 0 ->
  memberships_of db u biz = [m] ->
  method request = "POST" ->
  TransactionForm.clean db (POST request) = Some obj ->
  TransactionForm.business_id obj = biz ->
  Membership.role m <> Membership.STAFF ->
  cash_in_create db request =
    inr (mkOutcome (redirect "transactions_list")
           (Transaction_save db obj Transaction.CASH_IN u)
           [(success, "Cash In recorded.")]).
Proof.
  intros Hu Hs Hz Hm Hp Hv Hb Hr.
  assert (Hobj : (TransactionForm.business_id obj =? biz) = true)
    by now apply Z.eqb_eq.
  unfold cash_in_create.
  rewrite (require_membership_member _ db request u biz m [] Hu Hs Hz Hm).
  unfold cash_in_create_view, session_item, request_user.
  rewrite Hs, Hu. cbn [bind ret]. rewrite Hm. cbn [objects_get bind ret].
  replace (role_in (Membership.role m) [Membership.OWNER; Membership.ADMIN])
    with true by (destruct (Membership.role m); try reflexivity; contradiction).
  cbn [negb]. rewrite Hp. change (String.eqb "POST" "POST") with true.
  cbv iota. unfold CashInForm. now rewrite Hv, Hobj.
Qed.

(** A complete cash-out form for the active business, from a STAFF or
    OWNER. *)
Lemma cash_out_saves (db : DB) (request : Request) (u : User.t) (biz : Z)
    (m : Membership.t) (obj : TransactionForm.instance) :
  user request = Some u -> session_biz_id request = Some biz -> biz <> 0 ->
  memberships_of db u biz = [m] ->
  method request = "POST" ->
  TransactionForm.clean db (POST request) = Some obj ->
  TransactionForm.business_id obj = biz ->
  Membership.role m <> Membership.ADMIN ->
  cash_out_create db request =
    inr (mkOutcome (redirect "transactions_list")
           (Transaction_save db obj Transaction.CASH_OUT u)
           [(success, "Cash Out recorded.")]).
Proof.
  intros Hu Hs Hz Hm Hp Hv Hb Hr.
  assert (Hobj : (TransactionForm.business_id obj =? biz) = true)
    by now apply Z.eqb_eq.
  unfold cash_out_create.
  rewrite (require_membership_member _ db request u biz m [] Hu Hs Hz Hm).
  unfold cash_out_create_view, session_item, request_user.
  rewrite Hs, Hu. cbn [bind ret]. rewrite Hm. cbn [hd_error option_map].
  replace (role_in (Membership.role m) [Membership.STAFF; Membership.OWNER])
    with true by (destruct (Membership.role m); try reflexivity; contradiction).
  cbn [negb]. rewrite Hp. change (String.eqb "POST" "POST") with true.
  cbv iota. unfold CashOutForm. now rewrite Hv, Hobj.
Qed.

(** A primary key finds its row. *)
Lemma find_category (l : list TransactionCategory.t)
    (cat : TransactionCategory.t) :
  NoDup (map TransactionCategory.id l) -> In cat l ->
  find (fun x => TransactionCategory.id x =? TransactionCategory.id cat) l
  = Some cat.
Proof.
  induction l as [|x l IH]; cbn [map find In]; [contradiction|].
  intros N [-> | H]; [now rewrite Z.eqb_refl|].
  inversion N as [|? ? Hx N']. subst.
  destruct (TransactionCategory.id x =? TransactionCategory.id cat) eqn:E;
    [|now apply IH].
  apply Z.eqb_eq in E. exfalso. apply Hx. rewrite E.
  apply in_map_iff. now exists cat.
Qed.

(** The validation accepts a form that meets its rules. *)
Lemma clean_accepts (db : DB) (p : PostData.t) (biz : Z)
    (cat : TransactionCategory.t) (d : date) :
  NoDup (map TransactionCategory.id (categories db)) ->
  acceptable db p biz cat d ->
  TransactionForm.clean db p =
    Some (TransactionForm.mk biz cat (strip (PostData.details p)) d
                             (strip (PostData.amount p)) None).
Proof.
  intros N (A1 & A2 & A3 & A4 & A5 & A6 & A7 & A8 & A9 & A10 & A11 & A12).
  unfold TransactionForm.clean. rewrite A1, A3, A5.
  rewrite (find_category _ cat N A4).
  destruct (find (fun x => Business.id x =? biz) (businesses db)) as [b|] eqn:F.
  - apply find_some in F. destruct F as [_ F]. apply Z.eqb_eq in F.
    apply String.eqb_neq in A7. apply Nat.leb_le in A8, A10.
    rewrite A7, A8, A9, A10, A11, A6, A12, F. reflexivity.
  - exfalso. apply in_map_iff in A2. destruct A2 as (b & Hb & I).
    apply (find_none _ _ F) in I. apply Z.eqb_neq in I. contradiction.
Qed.

(** X16: a recording form that meets the rules of the validation and
    names the active business is saved.  The rules: the business and the
    category are rows of their tables (the ids of the categories being
    unique, as a primary key is), the date is a date of the calendar, the stripped amount is not blank, at most 40 characters
    and free of NUL characters, the stripped details are at most 240
    characters and free of NUL characters, and no photo is uploaded.
    Submitted by an OWNER or ADMIN to the cash-in view, by a STAFF or
    OWNER to the cash-out view, the form adds one transaction that
    carries its category and date, its stripped amount and details, no
    photo, the kind of the view and the caller as creator, with a new
    id; the other tables are left as they were and the answer is the
    redirect to the list with a success message. *)
Theorem recording_saves (db : DB) (request : Request) (u : User.t) (biz : Z)
    (m : Membership.t) (cat : TransactionCategory.t) (d : date) :
  user request = Some u -> session_biz_id request = Some biz -> biz <> 0 ->
  memberships_of db u biz = [m] ->
  method request = "POST" ->
  NoDup (map TransactionCategory.id (categories db)) ->
  acceptable db (POST request) biz cat d ->
  let row kind :=
    Transaction.mk (next_id (map Transaction.id (transactions db))) biz
      (strip (PostData.details (POST request))) cat kind
      (strip (PostData.amount (POST request))) None d u in
  let saved kind :=
    mkDB (users db) (businesses db) (memberships db) (categories db)
         (transactions db ++ [row kind]) in
  (Membership.role m <> Membership.STAFF ->
   cash_in_create db request =
     inr (mkOutcome (redirect "transactions_list")
            (saved Transaction.CASH_IN) [(success, "Cash In recorded.")])) /\
  (Membership.role m <> Membership.ADMIN ->
   cash_out_create db request =
     inr (mkOutcome (redirect "transactions_list")
            (saved Transaction.CASH_OUT) [(success, "Cash Out recorded.")])).
Proof.
  intros Hu Hs Hz Hm Hp N A row saved.
  pose proof (clean_accepts db _ biz cat d N A) as Hv.
  split; intros Hr.
  - rewrite (cash_in_saves db request u biz m _ Hu Hs Hz Hm Hp Hv eq_refl Hr).
    reflexivity.
  - rewrite (cash_out_saves db request u biz m _ Hu Hs Hz Hm Hp Hv eq_refl Hr).
    reflexivity.
Qed.

Lemma recording_saves_witness :
  cash_out_create (Sample.db Cases.may)
    (Sample.post Sample.carol 1 (Cases.rent_form " 7.5 ")) =
    inr (mkOutcome (redirect "transactions_list")
           (Sample.db
              (Cases.may ++
               [Transaction.mk 4 1 "May" Sample.rent Transaction.CASH_OUT "7.5"
                               None Sample.today Sample.carol]))
           [(success, "Cash Out recorded.")]).
Proof.
  apply (proj2 (recording_saves (Sample.db Cases.may)
                  (Sample.post Sample.carol 1 (Cases.rent_form " 7.5 "))
                  Sample.carol 1
                  (Membership.mk 3 Sample.carol 1 Membership.STAFF)
                  Sample.rent Sample.today
                  eq_refl eq_refl ltac:(lia) eq_refl eq_refl
                  ltac:(repeat constructor; cbn; intuition discriminate)
                  ltac:(repeat split; cbn; auto; try lia; discriminate))).
  discriminate.
Defined.

(** The write of a recording view, if any. *)
Lemma recording_view_effect (kind : Transaction.Kind)
    (roles : list Membership.Role) (db : DB) (request : Request)
    (biz : Z) (u : User.t) (m : Membership.t) (obj : TransactionForm.instance)
    (r : Response FormState) (msgs : list Message) :
  session_biz_id request = Some biz -> user request = Some u ->
  In m (memberships_of db u biz) -> In (Membership.role m) roles ->
  TransactionForm.clean db (POST request) = Some obj ->
  TransactionForm.business_id obj = biz ->
  stamped kind roles db request
    (mkOutcome r (Transaction_save db obj kind u) msgs).
Proof.
  intros Hs Hu Hm Hr Hv Hb. right.
  destruct (clean_fields db _ obj Hv) as (C1 & _ & _ & C4 & C5 & _).
  eexists. exists u, m. unfold Transaction_save. cbn.
  split; [reflexivity|]. rewrite Hb. repeat split; auto.
  intros t Ht. apply next_id_fresh. now apply in_map.
Qed.

(** X17: the recording views stamp kind and creator themselves.
    Whatever the request, the cash-in view writes nothing or adds one
    transaction of kind CASH_IN created by the caller in the selected
    business, where the caller is OWNER or ADMIN; the cash-out view
    nothing or one transaction of kind CASH_OUT, the caller being STAFF
    or OWNER.  The saved amount is stripped text of 1 to 40 characters
    (numeric or not), the category a row of the category table of any
    business, and the id is above all ids in use. *)
Theorem recording_stamps (db : DB) (request : Request)
    (o : Outcome FormState) :
  (cash_in_create db request = inr o ->
   stamped Transaction.CASH_IN [Membership.OWNER; Membership.ADMIN]
           db request o) /\
  (cash_out_create db request = inr o ->
   stamped Transaction.CASH_OUT [Membership.STAFF; Membership.OWNER]
           db request o).
Proof.
  split; intros H.
  - unfold cash_in_create in H.
    destruct (require_membership_cases cash_in_create_view db request)
      as [E | (r & E & _)]; rewrite E in H; [|injection H as <-; now left].
    unfold cash_in_create_view, session_item, request_user in H.
    destruct (session_biz_id request) as [biz|] eqn:Hs; [|discriminate].
    destruct (user request) as [u|] eqn:Hu; [|discriminate].
    cbn [bind ret] in H.
    destruct (memberships_of db u biz) as [|m [|m' rest]] eqn:Hm;
      cbn [objects_get bind ret raise] in H; try discriminate.
    destruct (role_in (Membership.role m) _) eqn:Hr; cbn [negb] in H;
      [|injection H as <-; now left].
    destruct (String.eqb (method request) "POST");
      [|injection H as <-; now left].
    unfold CashInForm in H.
    destruct (TransactionForm.clean db (POST request)) as [obj|] eqn:Hv;
      [|injection H as <-; now left].
    destruct (TransactionForm.business_id obj =? biz) eqn:Hb; cbn [negb] in H;
      [|injection H as <-; now left].
    apply Z.eqb_eq in Hb. injection H as <-.
    apply (recording_view_effect _ _ db request biz u m obj); auto;
      [rewrite Hm; now left|now apply role_in_In].
  - unfold cash_out_create in H.
    destruct (require_membership_cases cash_out_create_view db request)
      as [E | (r & E & _)]; rewrite E in H; [|injection H as <-; now left].
    unfold cash_out_create_view, session_item, request_user in H.
    destruct (session_biz_id request) as [biz|] eqn:Hs; [|discriminate].
    destruct (user request) as [u|] eqn:Hu; [|discriminate].
    cbn [bind ret] in H.
    destruct (memberships_of db u biz) as [|m rest] eqn:Hm;
      cbn [hd_error option_map negb] in H; [injection H as <-; now left|].
    destruct (role_in (Membership.role m) _) eqn:Hr; cbn [negb] in H;
      [|injection H as <-; now left].
    destruct (String.eqb (method request) "POST");
      [|injection H as <-; now left].
    unfold CashOutForm in H.
    destruct (TransactionForm.clean db (POST request)) as [obj|] eqn:Hv;
      [|injection H as <-; now left].
    destruct (TransactionForm.business_id obj =? biz) eqn:Hb; cbn [negb] in H;
      [|injection H as <-; now left].
    apply Z.eqb_eq in Hb. injection H as <-.
    apply (recording_view_effect _ _ db request biz u m obj); auto;
      [rewrite Hm; now left|now apply role_in_In].
Qed.

Lemma recording_stamps_witness :
  stamped Transaction.CASH_IN [Membership.OWNER; Membership.ADMIN]
    (Sample.db [])
    (Sample.post Sample.alice 1 (Sample.transaction_form 1))
    (mkOutcome (redirect "transactions_list")
       (Sample.db [Transaction.mk 1 1 "till" Sample.sales Transaction.CASH_IN
                                  "25.00" None Sample.today Sample.alice])
       [(success, "Cash In recorded.")]).
Proof.
  apply (proj1 (recording_stamps (Sample.db [])
                  (Sample.post Sample.alice 1 (Sample.transaction_form 1)) _)).
  reflexivity.
Defined.

(** X18: what is recorded can be read back.  After a cash-in form that
    meets the rules of the validation (those of X16, the ids of the
    categories being unique) has been saved for an OWNER or ADMIN, the transaction list of the same session, asked for a custom
    period between two dates of the calendar that enclose the date of
    the form, shows a transaction with the category and the date of the
    form, its amount and details stripped of surrounding blanks, kind
    CASH_IN and the caller as creator. *)
Theorem recorded_cash_in_is_listed
    (unordered : list TransactionCategory.t -> list TransactionCategory.t)
    (today : date) (db : DB)
    (request : Request) (u : User.t) (biz : Z) (m : Membership.t)
    (business : Business.t) (cat : TransactionCategory.t) (d : date)
    (a b : date) (kind' : option string) :
  user request = Some u -> session_biz_id request = Some biz -> biz <> 0 ->
  memberships_of db u biz = [m] ->
  filter (fun x => Business.id x =? biz) (businesses db) = [business] ->
  method request = "POST" ->
  NoDup (map TransactionCategory.id (categories db)) ->
  acceptable db (POST request) biz cat d ->
  Membership.role m <> Membership.STAFF ->
  valid a = true -> valid b = true ->
  leb a d = true -> leb d b = true ->
  kind' = None \/ kind' = Some "ALL" \/ kind' = Some "CASH_IN" ->
  exists o o' ctx row,
    cash_in_create db request = inr o /\
    transactions_list unordered today (db_after o)
      (with_parameters request "GET"
         (mkQuery (Some "custom") (Some a) (Some b) kind') (POST request))
      = inr o' /\
    response o' = render "transactions/list.html" ctx /\
    In row (list_transactions ctx) /\
    Transaction.business_id row = biz /\
    Transaction.category row = cat /\
    Transaction.date row = d /\
    Transaction.amount row = strip (PostData.amount (POST request)) /\
    Transaction.details row = strip (PostData.details (POST request)) /\
    Transaction.kind row = Transaction.CASH_IN /\
    Transaction.created_by row = u.
Proof.
  intros Hu Hs Hz Hm Hb Hp N A Hr Va Vb Ha Hbd Hk.
  pose proof (clean_accepts db _ biz cat d N A) as Hv.
  eexists. eexists. eexists.
  exists (Transaction.mk (next_id (map Transaction.id (transactions db)))
            biz (strip (PostData.details (POST request))) cat
            Transaction.CASH_IN (strip (PostData.amount (POST request)))
            None d u).
  split; [exact (cash_in_saves db request u biz m _ Hu Hs Hz Hm Hp Hv eq_refl Hr)|].
  cbn [db_after Transaction.category Transaction.date Transaction.amount
       Transaction.details Transaction.kind Transaction.created_by
       Transaction.business_id].
  split.
  - unfold transactions_list.
    rewrite (require_membership_member _ _ _ u biz m []); auto.
    unfold transactions_list_view, session_item, request_user, with_parameters.
    cbn [session_biz_id user GET businesses Transaction_save memberships_of
         memberships].
    rewrite Hs, Hu. cbn [bind ret]. rewrite Hb. cbn [objects_get bind ret].
    unfold resolve_filter, to_python.
    cbn [period date_from date_to]. rewrite Va, Vb.
    change (resolve_period today "custom") with (@inr exn _ (@None date, @None date)).
    cbn [bind ret].
    change (memberships_of (Transaction_save db _ Transaction.CASH_IN u) u biz)
      with (memberships_of db u biz).
    rewrite Hm. cbn [objects_get bind ret]. reflexivity.
  - split; [reflexivity|].
    cbn [list_transactions transactions categories Transaction_save
         TransactionForm.business_id TransactionForm.details
         TransactionForm.category TransactionForm.amount TransactionForm.photo
         TransactionForm.date].
    split; [|auto 10].
    apply (Permutation_in _ (Permutation_sym (order_by_perm recent_first _))).
    assert (K : forall l t, In t l -> Transaction.kind t = Transaction.CASH_IN ->
                In t (filter_kind_param
                        (match kind' with Some k => k | None => "ALL" end) l)).
    { intros l t Ht Kt. destruct Hk as [-> | [-> | ->]]; cbn; auto.
      apply filter_In. split; [exact Ht|]. now rewrite Kt. }
    apply K; [|reflexivity].
    apply (filter_dates_In (Some a, Some b)). split.
    + apply filter_In. split; [apply in_or_app; right; now left|].
      cbn. now apply Z.eqb_eq.
    + split; intros d' [= <-]; assumption.
Qed.

Lemma recorded_cash_in_is_listed_witness :
  exists o o' ctx,
    cash_in_create (Sample.db Cases.may)
      (Sample.post Sample.bob 1 (Cases.rent_form " 7.5 ")) = inr o /\
    transactions_list Cases.by_name Sample.today (db_after o)
      (with_parameters (Sample.post Sample.bob 1 (Cases.rent_form " 7.5 "))
         "GET"
         (mkQuery (Some "custom") (Some (mkdate 2024 5 10))
                  (Some (mkdate 2024 5 31)) None)
         (Cases.rent_form " 7.5 ")) = inr o' /\
    response o' = render "transactions/list.html" ctx /\
    map (fun t => (Transaction.id t, Transaction.amount t, Transaction.details t))
        (list_transactions ctx) = [(4, "7.5", "May"); (3, "200", "till")].
Proof.
  destruct (recorded_cash_in_is_listed Cases.by_name Sample.today
              (Sample.db Cases.may)
              (Sample.post Sample.bob 1 (Cases.rent_form " 7.5 "))
              Sample.bob 1 (Membership.mk 2 Sample.bob 1 Membership.ADMIN)
              Sample.shop Sample.rent Sample.today
              (mkdate 2024 5 10) (mkdate 2024 5 31) None
              eq_refl eq_refl ltac:(lia) eq_refl eq_refl eq_refl
              ltac:(repeat constructor; cbn; intuition discriminate)
              ltac:(repeat split; cbn; auto; try lia; discriminate)
              ltac:(discriminate) eq_refl eq_refl eq_refl eq_refl
              (or_introl eq_refl))
    as (o & o' & ctx & row & H1 & H2 & H3 & _).
  exists o, o', ctx. split; [exact H1|]. split; [exact H2|]. split; [exact H3|].
  vm_compute in H1. injection H1 as <-.
  vm_compute in H2. injection H2 as <-.
  cbn in H3. injection H3 as <-. reflexivity.
Defined.

(** ** More on adding members *)

(** A valid form names the address of exactly one account. *)
Lemma clean_found (EmailValidator : string -> bool)
    (caller : Membership.Role) (db : DB) (p : PostData.t)
    (data : AddMemberForm.cleaned_data) :
  AddMemberForm.clean EmailValidator caller db p = inr (Some data) ->
  exists x,
    filter (fun u => String.eqb (User.email u) (AddMemberForm.email data))
           (users db) = [x].
Proof.
  unfold AddMemberForm.clean, AddMemberForm.clean_email.
  destruct (_ || _); cbn [bind ret]; [discriminate|].
  destruct (filter _ (users db)) as [|x [|y l]] eqn:F;
    cbn [objects_get bind ret raise try_except existsb exn_eqb orb];
    try discriminate.
  destruct (AddMemberForm.clean_role _ _); [|discriminate].
  intros [= <-]. cbn [AddMemberForm.email]. now exists x.
Qed.

(** What the view writes, and under which conditions. *)
Lemma add_member_view_write (EmailValidator : string -> bool) (db : DB)
    (request : Request) (o : Outcome FormState) :
  add_member_view EmailValidator db request = inr o ->
  (db_after o = db /\
   (messages o = [] \/
    messages o = [(error, "This user is already a member of this business.")]))
  \/
  exists target business biz r,
    session_biz_id request = Some biz /\ Business.id business = biz /\
    memberships_of db target biz = [] /\
    db_after o = Membership_create db target business r /\
    response o = redirect "dashboard" /\
    messages o = [(success,
                   "Successfully added " ++ display_name target ++ " as "
                   ++ Membership.value r ++ ".")].
Proof.
  unfold add_member_view, session_item.
  destruct (session_biz_id request) as [biz|]; [|discriminate]. cbn [bind ret].
  destruct (filter _ (businesses db)) as [|business [|b' bl]] eqn:B;
    [discriminate| |discriminate]. cbn [objects_get bind ret].
  destruct (request_user request) as [e|u]; [discriminate|]. cbn [bind].
  destruct (objects_get (memberships_of db u biz)) as [e|m];
    [discriminate|]. cbn [bind].
  destruct (negb _); [intros [= <-]; left; cbn; auto|].
  destruct (String.eqb (method request) "POST");
    [|intros [= <-]; left; cbn; auto].
  destruct (AddMemberForm.clean _ _ _ _) as [e|[data|]] eqn:V;
    [discriminate| |intros [= <-]; left; cbn; auto].
  destruct (clean_found _ _ _ _ _ V) as (target & T).
  cbn [bind]. rewrite T. cbn [objects_get bind ret try_except].
  destruct (memberships_of db target biz) eqn:M; intros [= <-];
    [|left; cbn; auto].
  right. exists target, business, biz, (AddMemberForm.role data).
  cbn [db_after response messages]. repeat split; auto.
  assert (I : In business (filter (fun b => Business.id b =? biz)
                                  (businesses db)))
    by (rewrite B; now left).
  apply filter_In in I. destruct I as [_ I]. now apply Z.eqb_eq in I.
Qed.

Lemma add_member_write (EmailValidator : string -> bool) (db : DB)
    (request : Request) (o : Outcome FormState) :
  add_member EmailValidator db request = inr o ->
  (db_after o = db /\
   (messages o = [] \/
    messages o = [(error, "This user is already a member of this business.")]))
  \/
  exists target business biz r,
    session_biz_id request = Some biz /\ Business.id business = biz /\
    memberships_of db target biz = [] /\
    db_after o = Membership_create db target business r /\
    response o = redirect "dashboard" /\
    messages o = [(success,
                   "Successfully added " ++ display_name target ++ " as "
                   ++ Membership.value r ++ ".")].
Proof.
  unfold add_member. intros H.
  destruct (require_membership_cases (add_member_view EmailValidator)
              db request) as [E | (r & E & _)]; rewrite E in H.
  - exact (add_member_view_write EmailValidator db request o H).
  - injection H as <-. left. cbn. auto.
Qed.

Lemma NoDup_snoc {A : Type} (l : list A) (x : A) :
  NoDup l -> ~ In x l -> NoDup (l ++ [x]).
Proof.
  induction 1 as [|y l Hy N IH]; cbn; intros Hx.
  - constructor; [intros []|constructor].
  - constructor.
    + rewrite in_app_iff. cbn. intuition congruence.
    + apply IH. intuition.
Qed.

(** X19: the add-member view keeps the table of memberships free of
    duplicates: when no two memberships share a user and a business
    before the request, none do after it, and likewise for the ids of
    the rows. *)
Theorem add_member_keeps_memberships_unique
    (EmailValidator : string -> bool) (db : DB) (request : Request)
    (o : Outcome FormState) :
  add_member EmailValidator db request = inr o ->
  (NoDup (map membership_key (memberships db)) ->
   NoDup (map membership_key (memberships (db_after o)))) /\
  (NoDup (map Membership.id (memberships db)) ->
   NoDup (map Membership.id (memberships (db_after o)))).
Proof.
  intros H.
  destruct (add_member_write _ _ _ _ H)
    as [[-> _] | (target & business & biz & r & _ & Hb & M & -> & _)];
    [split; auto|].
  cbn [Membership_create memberships]. rewrite !map_app. cbn [map].
  split; intros N.
  - apply NoDup_snoc; [exact N|].
    intros K. apply in_map_iff in K.
    destruct K as (x & Kx & Ix).
    assert (I : In x (memberships_of db target biz)).
    { apply filter_In. split; [exact Ix|].
      unfold membership_key in Kx. cbn in Kx. injection Kx as K1 K2.
      rewrite K1, K2, Hb, !Z.eqb_refl. reflexivity. }
    now rewrite M in I.
  - apply NoDup_snoc; [exact N|].
    intros K. apply next_id_fresh in K. cbn in K. lia.
Qed.

Lemma add_member_keeps_memberships_unique_witness :
  NoDup (map membership_key
           (memberships
              (Membership_create (Sample.db []) Sample.dave Sample.shop
                                 Membership.STAFF))).
Proof.
  apply (proj1 (add_member_keeps_memberships_unique Sample.has_at (Sample.db [])
                  (Sample.post Sample.alice 1
                     (Sample.member_form " dave@example.com" "STAFF"))
                  (mkOutcome (redirect "dashboard")
                     (Membership_create (Sample.db []) Sample.dave Sample.shop
                                        Membership.STAFF)
                     [(success, "Successfully added dave as STAFF.")])
                  eq_refl)).
  repeat constructor; cbn; intuition discriminate.
Defined.

(** X20: the message of the view for an unknown address, "User with this
    email does not exist.", is never issued: the form has looked the
    address up already, so that the lookup of the view finds the
    account.  A request leaves no message, the message that the user is
    a member already with the database untouched, or the message of
    success with the redirect to the dashboard. *)
Theorem add_member_messages (EmailValidator : string -> bool) (db : DB)
    (request : Request) (o : Outcome FormState) :
  add_member EmailValidator db request = inr o ->
  ~ In (error, "User with this email does not exist.") (messages o) /\
  (messages o = [] \/
   (messages o = [(error, "This user is already a member of this business.")]
    /\ db_after o = db) \/
   (exists text, messages o = [(success, text)]) /\
   response o = redirect "dashboard").
Proof.
  intros H.
  destruct (add_member_write _ _ _ _ H)
    as [[D [M | M]] | (target & business & biz & r & _ & _ & _ & _ & R & M)];
    rewrite M.
  - split; [intros []|now left].
  - split; [intros [[=] | []]|right; left; auto].
  - split; [intros [[=] | []]|right; right; split; [eexists; reflexivity|exact R]].
Qed.

Lemma add_member_messages_witness :
  ~ In (error, "User with this email does not exist.")
       [(error, "This user is already a member of this business.")] /\
  ~ In (error, "User with this email does not exist.") (@nil Message).
Proof.
  split.
  - apply (add_member_messages Sample.has_at (Sample.db [])
             (Sample.post Sample.bob 1
                (Sample.member_form "carol@example.com" "STAFF"))
             (mkOutcome (render "add_member.html"
                           (bound_form
                              (Sample.member_form "carol@example.com" "STAFF")))
                        (Sample.db [])
                        [(error,
                          "This user is already a member of this business.")])
             eq_refl).
  - apply (add_member_messages Sample.has_at (Sample.db [])
             (Sample.post Sample.alice 1
                (Sample.member_form "nobody@example.com" "STAFF"))
             (mkOutcome (render "add_member.html"
                           (bound_form
                              (Sample.member_form "nobody@example.com" "STAFF")))
                        (Sample.db []) [])
             eq_refl).
Defined.

(** X21: an OWNER or ADMIN posts an address that is syntactically
    valid.  When exactly one account has the address, that account is a
    member of the active business already and the role asked for is one
    the caller may give, the form comes back with an error message and
    nothing is written.  When two or more accounts have the address,
    the request ends in [MultipleObjectsReturned], whatever the role
    asked for and whether or not any of them is a member. *)
Theorem add_member_existing_member (EmailValidator : string -> bool)
    (db : DB) (request : Request) (u : User.t) (biz : Z) (m : Membership.t)
    (business : Business.t) :
  user request = Some u -> session_biz_id request = Some biz -> biz <> 0 ->
  memberships_of db u biz = [m] ->
  filter (fun b => Business.id b =? biz) (businesses db) = [business] ->
  method request = "POST" ->
  Membership.role m <> Membership.STAFF ->
  strip (PostData.email (POST request)) <> "" ->
  EmailValidator (strip (PostData.email (POST request))) = true ->
  (forall (target : User.t) (r : Membership.Role),
      In r (AddMemberForm.role_choices (Membership.role m)) ->
      PostData.role (POST request) = Membership.value r ->
      filter (fun x => String.eqb (User.email x)
                         (strip (PostData.email (POST request))))
             (users db) = [target] ->
      memberships_of db target biz <> [] ->
      add_member EmailValidator db request =
        inr (mkOutcome (render "add_member.html" (bound_form (POST request))) db
               [(error, "This user is already a member of this business.")])) /\
  (forall (x y : User.t) (l : list User.t),
      filter (fun x => String.eqb (User.email x)
                         (strip (PostData.email (POST request))))
             (users db) = x :: y :: l ->
      add_member EmailValidator db request = inl MultipleObjectsReturned).
Proof.
  intros Hu Hs Hz Hm Hb Hp Hrole Hne Hv.
  assert (R1 : role_in (Membership.role m) [Membership.OWNER; Membership.ADMIN]
               = true)
    by (destruct (Membership.role m); try reflexivity; contradiction).
  apply String.eqb_neq in Hne.
  assert (Start : add_member EmailValidator db request =
                  cleaned <- AddMemberForm.clean EmailValidator
                               (Membership.role m) db (POST request) ;;
                  match cleaned with
                  | Some data =>
                      let page msgs :=
                        mkOutcome
                          (render "add_member.html" (bound_form (POST request)))
                          db msgs in
                      try_except
                        (new_user <- objects_get
                                       (filter
                                          (fun x => String.eqb (User.email x)
                                                      (AddMemberForm.email data))
                                          (users db)) ;;
                         match memberships_of db new_user biz with
                         | _ :: _ =>
                             ret (page [(error, "This user is already a member of this business.")])
                         | [] =>
                             ret (mkOutcome (redirect "dashboard")
                                    (Membership_create db new_user business
                                       (AddMemberForm.role data))
                                    [(success,
                                      "Successfully added " ++ display_name new_user
                                      ++ " as "
                                      ++ Membership.value (AddMemberForm.role data)
                                      ++ ".")])
                         end)
                        [DoesNotExist]
                        (ret (page [(error, "User with this email does not exist.")]))
                  | None =>
                      ret (mkOutcome
                             (render "add_member.html" (bound_form (POST request)))
                             db [])
                  end).
  { unfold add_member.
    rewrite (require_membership_member _ db request u biz m [] Hu Hs Hz Hm).
    unfold add_member_view, session_item, request_user.
    rewrite Hs, Hu. cbn [bind ret]. rewrite Hb, Hm. cbn [objects_get bind ret].
    rewrite R1, Hp. cbn [negb].
    change (String.eqb "POST" "POST") with true. reflexivity. }
  rewrite Start. clear Start.
  unfold AddMemberForm.clean, AddMemberForm.clean_email.
  rewrite Hv, Hne. cbn [orb negb].
  split.
  - intros target r Hin Hpost Ht Hnm.
    assert (R2 : AddMemberForm.clean_role
                   (AddMemberForm.role_choices (Membership.role m))
                   (Membership.value r) = Some r).
    { destruct (Membership.role m); cbn in Hin;
        intuition (subst; reflexivity). }
    rewrite Ht. cbn [objects_get bind ret try_except].
    rewrite Hpost, R2. cbn [bind ret AddMemberForm.email AddMemberForm.role].
    rewrite Ht. cbn [objects_get bind ret try_except].
    destruct (memberships_of db target biz); [contradiction|reflexivity].
  - intros x y l Ht. rewrite Ht. reflexivity.
Qed.

Lemma add_member_existing_member_witness :
  add_member Sample.has_at (Sample.db [])
    (Sample.post Sample.bob 1 (Sample.member_form "carol@example.com " "STAFF"))
  = inr (mkOutcome
           (render "add_member.html"
              (bound_form (Sample.member_form "carol@example.com " "STAFF")))
           (Sample.db [])
           [(error, "This user is already a member of this business.")]) /\
  add_member Sample.has_at Cases.shared_db
    (Sample.post Sample.bob 1 (Sample.member_form "dave@example.com" "OWNER"))
  = inl MultipleObjectsReturned.
Proof.
  split.
  - apply (proj1 (add_member_existing_member Sample.has_at (Sample.db [])
                    (Sample.post Sample.bob 1
                       (Sample.member_form "carol@example.com " "STAFF"))
                    Sample.bob 1 (Membership.mk 2 Sample.bob 1 Membership.ADMIN)
                    Sample.shop eq_refl eq_refl ltac:(lia) eq_refl eq_refl
                    eq_refl ltac:(discriminate) ltac:(discriminate) eq_refl)
                 Sample.carol Membership.STAFF);
      try reflexivity; try (now left); discriminate.
  - apply (proj2 (add_member_existing_member Sample.has_at Cases.shared_db
                    (Sample.post Sample.bob 1
                       (Sample.member_form "dave@example.com" "OWNER"))
                    Sample.bob 1 (Membership.mk 2 Sample.bob 1 Membership.ADMIN)
                    Sample.shop eq_refl eq_refl ltac:(lia) eq_refl eq_refl
                    eq_refl ltac:(discriminate) ltac:(discriminate) eq_refl)
                 Sample.dave Cases.erin []).
    reflexivity.
Defined.

(** ** More on creating categories *)

(** What a valid category form holds. *)
Lemma category_clean_fields (db : DB) (p : PostData.t)
    (obj : CategoryForm.instance) :
  CategoryForm.clean db p = Some obj ->
  PostData.business p = Some (CategoryForm.business_id obj) /\
  In (CategoryForm.business_id obj) (map Business.id (businesses db)) /\
  CategoryForm.name obj = strip (PostData.name p) /\
  CategoryForm.name obj <> "" /\
  (String.length (CategoryForm.name obj) <= 100)%nat /\
  CategoryForm.kind_of_value (PostData.kind p) = Some (CategoryForm.kind obj) /\
  ~ In (CategoryForm.business_id obj, CategoryForm.name obj,
        TransactionCategory.value (CategoryForm.kind obj))
       (map category_key (categories db)).
Proof.
  unfold CategoryForm.clean.
  destruct (PostData.business p) as [b|]; [|discriminate].
  destruct (CategoryForm.kind_of_value _) as [k|]; [|discriminate].
  destruct (find _ (businesses db)) as [biz|] eqn:F; [|discriminate].
  destruct (_ && _) eqn:E; [|discriminate].
  intros [= <-]. cbn [CategoryForm.business_id CategoryForm.name CategoryForm.kind].
  apply find_some in F. destruct F as [F1 F2]. apply Z.eqb_eq in F2.
  rewrite !andb_true_iff in E. destruct E as [[[E1 E2] _] E3].
  apply negb_true_iff in E1, E3. apply String.eqb_neq in E1.
  apply Nat.leb_le in E2.
  repeat split; auto.
  - now rewrite F2.
  - apply in_map_iff. now exists biz.
  - intros I. apply in_map_iff in I. destruct I as (c & K & I).
    unfold category_key in K. injection K as K1 K2 K3.
    assert (X : existsb
                  (fun c =>
                     (TransactionCategory.business_id c =? Business.id biz)
                     && String.eqb (TransactionCategory.name c)
                                   (strip (PostData.name p))
                     && CategoryForm.same_kind (TransactionCategory.kind c) k)
                  (categories db) = true).
    { apply existsb_exists. exists c. split; [exact I|].
      unfold CategoryForm.same_kind.
      rewrite K1, K2, K3, Z.eqb_refl, !String.eqb_refl. reflexivity. }
    congruence.
Qed.

(** The converse: a form with these fields is valid. *)
Lemma category_clean_accepts (db : DB) (p : PostData.t) (biz : Z)
    (k : TransactionCategory.Kind) :
  PostData.business p = Some biz ->
  In biz (map Business.id (businesses db)) ->
  CategoryForm.kind_of_value (PostData.kind p) = Some k ->
  strip (PostData.name p) <> "" ->
  (String.length (strip (PostData.name p)) <= 100)%nat ->
  has_nul (strip (PostData.name p)) = false ->
  ~ In (biz, strip (PostData.name p), TransactionCategory.value k)
       (map category_key (categories db)) ->
  CategoryForm.clean db p = Some (CategoryForm.mk biz (strip (PostData.name p)) k).
Proof.
  intros Hb Hin Hk Hn Hl Hz Hf. unfold CategoryForm.clean. rewrite Hb, Hk.
  destruct (find (fun x => Business.id x =? biz) (businesses db)) as [b|] eqn:F.
  - apply find_some in F. destruct F as [_ F]. apply Z.eqb_eq in F.
    rewrite F. apply String.eqb_neq in Hn. rewrite Hn.
    apply Nat.leb_le in Hl. rewrite Hl, Hz. cbn [negb andb].
    destruct (existsb _ (categories db)) eqn:E; [|reflexivity].
    exfalso. apply Hf. apply existsb_exists in E. destruct E as (c & I & E).
    apply andb_true_iff in E. destruct E as [E E3].
    apply andb_true_iff in E. destruct E as [E1 E2].
    apply Z.eqb_eq in E1. apply String.eqb_eq in E2.
    unfold CategoryForm.same_kind in E3. apply String.eqb_eq in E3.
    apply in_map_iff. exists c. split; [|exact I].
    unfold category_key. now rewrite E1, E2, E3.
  - exfalso. apply in_map_iff in Hin. destruct Hin as (b & Hb' & I).
    apply (find_none _ _ F) in I. apply Z.eqb_neq in I. contradiction.
Qed.

(** Behind the gate the endpoint depends on the method and on the form
    alone. *)
Lemma category_view_admitted (db : DB) (request : Request) (u : User.t)
    (biz : Z) (m : Membership.t) (rest : list Membership.t) :
  user request = Some u -> session_biz_id request = Some biz -> biz <> 0 ->
  memberships_of db u biz = m :: rest ->
  create_transaction_category db request =
    if String.eqb (method request) "POST" then
      match CategoryForm.clean db (PostData.set_business (POST request) biz) with
      | Some obj =>
          inr (mkOutcome
                 (JsonResponse
                    (category_created
                       (next_id (map TransactionCategory.id (categories db)))
                       (CategoryForm.name obj))
                    200)
                 (snd (CategoryForm.save db obj)) [])
      | None => inr (mkOutcome (JsonResponse category_errors 400) db [])
      end
    else inr (mkOutcome (JsonResponse invalid_request_method 405) db []).
Proof.
  intros Hu Hs Hz Hm. unfold create_transaction_category.
  rewrite (require_membership_member _ db request u biz m rest Hu Hs Hz Hm).
  unfold create_transaction_category_view, session_item. rewrite Hs.
  cbn [bind ret].
  destruct (String.eqb (method request) "POST"); [|reflexivity].
  destruct (CategoryForm.clean db _); reflexivity.
Qed.

(** X22: any member of the active business, of whatever role, who posts
    a name that, once stripped, is not blank, at most 100 characters
    long and free of NUL characters, with the kind INCOME or EXPENSE,
    creates a category when the business has none of this name and kind
    yet: the new row has the next id, the active business, the stripped
    name and the kind, and the answer carries the id and the name with
    status 200. *)
Theorem category_created_for_member (db : DB) (request : Request)
    (u : User.t) (biz : Z) (m : Membership.t) (rest : list Membership.t)
    (k : TransactionCategory.Kind) :
  user request = Some u -> session_biz_id request = Some biz -> biz <> 0 ->
  memberships_of db u biz = m :: rest ->
  In biz (map Business.id (businesses db)) ->
  method request = "POST" ->
  PostData.kind (POST request) = TransactionCategory.value k ->
  strip (PostData.name (POST request)) <> "" ->
  (String.length (strip (PostData.name (POST request))) <= 100)%nat ->
  has_nul (strip (PostData.name (POST request))) = false ->
  ~ In (biz, strip (PostData.name (POST request)), TransactionCategory.value k)
       (map category_key (categories db)) ->
  let id := next_id (map TransactionCategory.id (categories db)) in
  let name := strip (PostData.name (POST request)) in
  create_transaction_category db request =
    inr (mkOutcome (JsonResponse (category_created id name) 200)
           (mkDB (users db) (businesses db) (memberships db)
                 (categories db ++ [TransactionCategory.mk id biz name k])
                 (transactions db))
           []).
Proof.
  intros Hu Hs Hz Hm Hb Hp Hk Hn Hl Hnul Hf id name.
  rewrite (category_view_admitted db request u biz m rest Hu Hs Hz Hm), Hp.
  change (String.eqb "POST" "POST") with true. cbv iota.
  rewrite (category_clean_accepts db _ biz k); auto.
  cbn [PostData.set_business PostData.kind]. rewrite Hk. now destruct k.
Qed.

Lemma category_created_for_member_witness :
  create_transaction_category (Sample.db [])
    (Sample.post Sample.carol 1 (Cases.named_category "  Sales " "EXPENSE"))
  = inr (mkOutcome (JsonResponse (category_created 3 "Sales") 200)
           (mkDB (users (Sample.db [])) (businesses (Sample.db []))
                 (memberships (Sample.db []))
                 [Sample.sales; Sample.rent;
                  TransactionCategory.mk 3 1 "Sales" TransactionCategory.EXPENSE]
                 [])
           []).
Proof.
  apply (category_created_for_member (Sample.db [])
           (Sample.post Sample.carol 1 (Cases.named_category "  Sales " "EXPENSE"))
           Sample.carol 1 (Membership.mk 3 Sample.carol 1 Membership.STAFF) []
           TransactionCategory.EXPENSE);
    try reflexivity; try lia; try discriminate.
  - now left.
  - cbn. lia.
  - cbn. intuition discriminate.
Defined.

(** X23: a member who posts a name and kind that the active business
    has already, or a blank name, or a kind other than INCOME and
    EXPENSE, gets the errors with status 400; a request that is not a
    POST gets status 405; in both cases nothing is written. *)
Theorem category_refused (db : DB) (request : Request) (u : User.t)
    (biz : Z) (m : Membership.t) (rest : list Membership.t) :
  user request = Some u -> session_biz_id request = Some biz -> biz <> 0 ->
  memberships_of db u biz = m :: rest ->
  (method request <> "POST" ->
   create_transaction_category db request =
     inr (mkOutcome (JsonResponse invalid_request_method 405) db [])) /\
  (method request = "POST" ->
   strip (PostData.name (POST request)) = "" \/
   CategoryForm.kind_of_value (PostData.kind (POST request)) = None \/
   In (biz, strip (PostData.name (POST request)), PostData.kind (POST request))
      (map category_key (categories db)) ->
   create_transaction_category db request =
     inr (mkOutcome (JsonResponse category_errors 400) db [])).
Proof.
  intros Hu Hs Hz Hm.
  rewrite (category_view_admitted db request u biz m rest Hu Hs Hz Hm).
  split.
  - intros Hp. apply String.eqb_neq in Hp. now rewrite Hp.
  - intros Hp Hbad. rewrite Hp. change (String.eqb "POST" "POST") with true.
    cbv iota.
    destruct (CategoryForm.clean db _) as [obj|] eqn:C; [|reflexivity].
    exfalso.
    destruct (category_clean_fields _ _ _ C) as (B & _ & N & Nn & _ & K & F).
    cbn [PostData.set_business PostData.business PostData.name PostData.kind]
      in B, N, K.
    injection B as B.
    destruct Hbad as [H | [H | H]].
    + apply Nn. now rewrite N.
    + congruence.
    + apply F. rewrite <- B, N.
      replace (TransactionCategory.value (CategoryForm.kind obj))
        with (PostData.kind (POST request)); [exact H|].
      unfold CategoryForm.kind_of_value in K.
      destruct (String.eqb (PostData.kind (POST request)) "INCOME") eqn:E1;
        [apply String.eqb_eq in E1; injection K as <-; exact E1|].
      destruct (String.eqb (PostData.kind (POST request)) "EXPENSE") eqn:E2;
        [apply String.eqb_eq in E2; injection K as <-; exact E2|discriminate].
Qed.

Lemma category_refused_witness :
  create_transaction_category (Sample.db [])
    (Sample.get Sample.carol 1)
  = inr (mkOutcome (JsonResponse invalid_request_method 405) (Sample.db []) [])
  /\
  create_transaction_category (Sample.db [])
    (Sample.post Sample.carol 1 (Cases.named_category " Rent" "EXPENSE"))
  = inr (mkOutcome (JsonResponse category_errors 400) (Sample.db []) []).
Proof.
  split.
  - apply (proj1 (category_refused (Sample.db []) (Sample.get Sample.carol 1)
                    Sample.carol 1
                    (Membership.mk 3 Sample.carol 1 Membership.STAFF) []
                    eq_refl eq_refl ltac:(lia) eq_refl)).
    discriminate.
  - apply (proj2 (category_refused (Sample.db [])
                    (Sample.post Sample.carol 1
                       (Cases.named_category " Rent" "EXPENSE"))
                    Sample.carol 1
                    (Membership.mk 3 Sample.carol 1 Membership.STAFF) []
                    eq_refl eq_refl ltac:(lia) eq_refl));
      [reflexivity|].
    right. right. cbn. auto.
Defined.

(** X24: the endpoint keeps the table of categories free of duplicates:
    when no two categories share business, name and kind before the
    request, none do after it, and likewise for the ids of the rows; the
    other tables are left as they were. *)
Theorem category_keeps_categories_unique (db : DB) (request : Request)
    (o : Outcome CategoryJson) :
  create_transaction_category db request = inr o ->
  (NoDup (map category_key (categories db)) ->
   NoDup (map category_key (categories (db_after o)))) /\
  (NoDup (map TransactionCategory.id (categories db)) ->
   NoDup (map TransactionCategory.id (categories (db_after o)))) /\
  users (db_after o) = users db /\
  businesses (db_after o) = businesses db /\
  memberships (db_after o) = memberships db /\
  transactions (db_after o) = transactions db.
Proof.
  intros H. unfold create_transaction_category in H.
  assert (G : db_after o = db \/
              exists obj, db_after o = snd (CategoryForm.save db obj) /\
                exists p, CategoryForm.clean db p = Some obj).
  { destruct (require_membership_cases create_transaction_category_view
                db request) as [E | (r & E & _)]; rewrite E in H;
      [|injection H as <-; now left].
    unfold create_transaction_category_view in H.
    destruct (String.eqb (method request) "POST");
      [|injection H as <-; now left].
    destruct (session_item request) as [e|biz]; [discriminate|].
    cbn [bind ret] in H.
    destruct (CategoryForm.clean db _) as [obj|] eqn:C;
      [|injection H as <-; now left].
    cbn in H. injection H as <-. right. exists obj. split; [reflexivity|].
    eexists. exact C. }
  destruct G as [-> | (obj & -> & p & C)]; [repeat split; auto|].
  destruct (category_clean_fields _ _ _ C) as (_ & _ & _ & _ & _ & _ & F).
  cbn [CategoryForm.save snd categories users businesses memberships
       transactions].
  rewrite !map_app. cbn [map].
  repeat split; auto; intros N; apply NoDup_snoc; auto.
  intros K. apply next_id_fresh in K. cbn in K. lia.
Qed.

Lemma category_keeps_categories_unique_witness :
  NoDup (map category_key
           [Sample.sales; Sample.rent;
            TransactionCategory.mk 3 1 "Fees" TransactionCategory.EXPENSE]).
Proof.
  apply (proj1 (category_keeps_categories_unique (Sample.db [])
                  (Sample.post Sample.carol 1 (Sample.category_form (Some 2)))
                  (mkOutcome (JsonResponse (category_created 3 "Fees") 200)
                     (mkDB (users (Sample.db [])) (businesses (Sample.db []))
                        (memberships (Sample.db []))
                        [Sample.sales; Sample.rent;
                         TransactionCategory.mk 3 1 "Fees"
                                                TransactionCategory.EXPENSE]
                        [])
                     [])
                  eq_refl)).
  repeat constructor; cbn; intuition discriminate.
Defined.

(** ** More on the spreadsheet export *)

Lemma unique_In (l : list string) (x : string) : In x (unique l) <-> In x l.
Proof.
  induction l as [|y l IH]; cbn [unique In]; [tauto|].
  rewrite filter_In, IH, negb_true_iff, String.eqb_neq.
  destruct (String.eqb y x) eqn:E.
  - apply String.eqb_eq in E. tauto.
  - apply String.eqb_neq in E. tauto.
Qed.

Lemma unique_NoDup (l : list string) : NoDup (unique l).
Proof.
  induction l as [|y l IH]; cbn [unique]; constructor.
  - rewrite filter_In, negb_true_iff, String.eqb_neq. tauto.
  - now apply NoDup_filter.
Qed.

(** A duplicate-free list in ascending order ascends strictly. *)
Lemma sorted_strict (l : list string) :
  StronglySorted (fun a b => String.leb a b = true) l -> NoDup l ->
  StronglySorted (fun a b => String.ltb a b = true) l.
Proof.
  induction 1 as [|x l S IH F]; intros N; constructor.
  - apply IH. now inversion N.
  - inversion N as [|? ? Hx N']. subst.
    rewrite Forall_forall in F |- *. intros y Hy. specialize (F y Hy).
    unfold String.leb in F. unfold String.ltb.
    destruct (String.compare x y) eqn:E; [|reflexivity|discriminate].
    apply String.compare_eq_iff in E. now subst.
Qed.

Lemma frame_amounts (k : string) (qs : list Transaction.t) :
  map col_amount (filter (fun r => String.eqb (col_kind r) k) (map values qs))
  = map Transaction.amount
      (filter (fun t => String.eqb (Transaction.value (Transaction.kind t)) k) qs).
Proof.
  induction qs as [|t qs IH]; [reflexivity|]. cbn [map filter values col_kind].
  destruct (String.eqb _ k); cbn [map col_amount]; now rewrite IH.
Qed.

(** The summary of a frame that has rows. *)
Lemma groupby_kind_sum_keys (qs : list Transaction.t)
    (summary : list (string * string)) :
  groupby_kind_sum (map values qs) = inr summary ->
  qs <> [] /\
  StronglySorted (fun a b => String.ltb a b = true) (map fst summary) /\
  (forall k, In k (map fst summary) <->
             exists t, In t qs /\ Transaction.value (Transaction.kind t) = k) /\
  (forall k total, In (k, total) summary ->
     total = String.concat ""
               (map Transaction.amount
                  (filter (fun t => String.eqb
                                      (Transaction.value (Transaction.kind t)) k)
                          qs))).
Proof.
  intros H.
  assert (G : qs <> [] /\
              summary =
                map (fun k =>
                       (k, String.concat ""
                             (map col_amount
                                (filter (fun r => String.eqb (col_kind r) k)
                                        (map values qs)))))
                    (order_by String.leb (unique (map col_kind (map values qs))))).
  { destruct qs as [|t0 qs]; [discriminate|]. split; [discriminate|].
    unfold groupby_kind_sum, ret in H. cbn [map] in H |- *. congruence. }
  clear H. destruct G as [G ->]. split; [exact G|]. clear G.
  rename qs into l.
  rewrite map_map. cbn [fst]. rewrite map_id.
  assert (P : forall k, In k (order_by String.leb (unique (map col_kind (map values l))))
                        <-> In k (map col_kind (map values l))).
  { intros k. rewrite <- (unique_In (map col_kind (map values l))).
    split; apply Permutation_in;
      [apply order_by_perm|apply Permutation_sym, order_by_perm]. }
  split; [|split].
  - apply sorted_strict.
    + apply order_by_sorted; [apply String.leb_total|apply string_leb_trans].
    + apply (Permutation_NoDup (Permutation_sym (order_by_perm _ _))).
      apply unique_NoDup.
  - intros k. rewrite P, map_map, in_map_iff.
    split; intros (t & H1 & H2); exists t; cbn in *; auto.
  - intros k total H. apply in_map_iff in H.
    destruct H as (k' & [= <- <-] & _). now rewrite frame_amounts.
Qed.

(** X25: a workbook that the export delivers holds, on the sheet
    Transactions, the rows of a list of transactions that has every
    transaction of the active business inside the filter bounds once and
    no other, and there is at least one; the sheet Summary has one row
    for each kind that occurs among them and no other, in strictly
    ascending order of kind and so at most two, and the total of a row
    is the amounts of its kind, in the order of the first sheet, put end
    to end as text.  Nothing is written. *)
Theorem export_excel_workbook (today : date) (db : DB) (request : Request)
    (o : Outcome Workbook) (wb : Workbook) (content_type : string) :
  export_excel today db request = inr o ->
  response o = HttpResponse wb content_type ->
  db_after o = db /\
  exists biz bounds qs,
    session_biz_id request = Some biz /\
    resolve_filter today (GET request) = inr bounds /\
    sheet_Transactions wb = map values qs /\ qs <> [] /\
    selects (fun t => Transaction.business_id t = biz /\ within bounds t)
            (transactions db) qs /\
    StronglySorted (fun a b => String.ltb a b = true)
                   (map fst (sheet_Summary wb)) /\
    (List.length (sheet_Summary wb) <= 2)%nat /\
    (forall k, In k (map fst (sheet_Summary wb)) <->
               exists t, In t qs /\ Transaction.value (Transaction.kind t) = k) /\
    (forall k total, In (k, total) (sheet_Summary wb) ->
       total = String.concat ""
                 (map Transaction.amount
                    (filter (fun t => String.eqb
                                        (Transaction.value (Transaction.kind t)) k)
                            qs))).
Proof.
  unfold export_excel. intros H R.
  destruct (require_membership_cases (export_excel_view today) db request)
    as [E | (r & E & [-> | [c ->]])]; rewrite E in H;
    [|injection H as <-; discriminate R|injection H as <-; discriminate R].
  unfold export_excel_view, session_item in H.
  destruct (session_biz_id request) as [biz|]; [|discriminate].
  cbn [bind ret] in H.
  destruct (resolve_filter today (GET request)) as [e|[df dt]] eqn:F;
    [discriminate|]. cbn [bind] in H.
  destruct (groupby_kind_sum _) as [e|summary] eqn:G; [discriminate|].
  cbn [bind ret] in H. injection H as <-. cbn in R. injection R as <- _.
  cbn [db_after sheet_Transactions sheet_Summary].
  split; [reflexivity|]. exists biz, (df, dt). eexists.
  split; [reflexivity|]. split; [reflexivity|]. split; [reflexivity|].
  destruct (groupby_kind_sum_keys _ _ G) as (G1 & G2 & G3 & G4).
  split; [exact G1|]. split.
  { apply (filter_dates_selects
             (fun t => Transaction.business_id t = biz) (df, dt)).
    apply business_selects. }
  split; [exact G2|]. split; [|split; [exact G3|exact G4]].
  rewrite <- (length_map fst).
  apply (NoDup_incl_length (l' := ["CASH_IN"; "CASH_OUT"])).
  - clear - G2. induction G2 as [|x l S IH Fx]; constructor; [|exact IH].
    intros I. rewrite Forall_forall in Fx. specialize (Fx x I).
    unfold String.ltb in Fx.
    destruct (String.compare x x) eqn:C; try discriminate.
    pose proof (String.compare_antisym x x) as A. rewrite C in A.
    discriminate A.
  - intros k I. apply G3 in I. destruct I as (t & _ & <-).
    destruct (Transaction.kind t); cbn; auto.
Qed.

Lemma export_excel_workbook_witness :
  exists o wb,
    export_excel Sample.today (Sample.db Cases.may) (Sample.get Sample.alice 1)
      = inr o /\
    response o
      = HttpResponse wb
          "application/vnd.openxmlformats-officedocument.spreadsheetml.sheet" /\
    (List.length (sheet_Summary wb) <= 2)%nat.
Proof.
  eexists. eexists. split; [vm_compute; reflexivity|]. split; [reflexivity|].
  destruct (export_excel_workbook Sample.today (Sample.db Cases.may)
              (Sample.get Sample.alice 1) _ _ _ eq_refl eq_refl)
    as (_ & biz & bounds & qs & _ & _ & _ & _ & _ & _ & L & _).
  exact L.
Defined.





(** ** More on the PDF export *)

Lemma drawn_at_app (a b : list CanvasOp) :
  drawn_at (a ++ b) = (drawn_at a ++ drawn_at b)%list.
Proof. unfold drawn_at. now rewrite flat_map_app. Qed.

Lemma pages_app (a b : list CanvasOp) :
  pages (a ++ b) = (pages a + pages b)%nat.
Proof. unfold pages. now rewrite filter_app, length_app. Qed.

Lemma head_margin : (40 <= A4_height - 40)%Q.
Proof. apply Qle_bool_iff. reflexivity. Qed.

Lemma next_line (y : Q) :
  (y <= A4_height - 40)%Q -> (y - 12 <= A4_height - 40)%Q.
Proof.
  intros H. apply Qle_trans with y; [|exact H].
  rewrite <- (Qplus_0_r y) at 2. unfold Qminus. apply Qplus_le_r.
  apply Qle_bool_iff. reflexivity.
Qed.

Lemma draw_cells_frame (y : Q) (row : list string) :
  (40 <= y)%Q -> (y <= A4_height - 40)%Q ->
  Forall in_frame (drawn_at (draw_cells y row)).
Proof.
  intros H1 H2. unfold draw_cells, drawn_at. rewrite flat_map_concat_map, map_map.
  apply Forall_concat. apply Forall_map. apply Forall_forall.
  intros [x c] I. cbn [fst snd]. constructor; [|constructor].
  apply in_combine_l in I. repeat split; assumption.
Qed.

Lemma draw_cells_pages (y : Q) (row : list string) :
  pages (draw_cells y row) = 0%nat.
Proof.
  unfold draw_cells, pages. induction (combine col_x row) as [|c l IH];
    [reflexivity|exact IH].
Qed.

Lemma page_breaks_first_200 (n : nat) :
  (n <= 200)%nat ->
  page_breaks (A4_height - 40 - 20 - 20 - 12) n
  = (if n <=? 60 then 0 else 1 + (n - 61) / 64)%nat /\
  (page_breaks (A4_height - 40 - 20 - 20 - 12) n <= 3)%nat.
Proof.
  intros H.
  assert (C : forallb
                (fun n =>
                   Nat.eqb (page_breaks (A4_height - 40 - 20 - 20 - 12) n)
                           (if n <=? 60 then 0 else 1 + (n - 61) / 64)%nat
                   && (page_breaks (A4_height - 40 - 20 - 20 - 12) n <=? 3)%nat)
                (seq 0 201) = true) by (vm_compute; reflexivity).
  rewrite forallb_forall in C. specialize (C n).
  rewrite in_seq in C. specialize (C ltac:(lia)).
  apply andb_true_iff in C. destruct C as [C1 C2].
  split; [now apply Nat.eqb_eq|now apply Nat.leb_le].
Qed.

Section ExportPdfLayout.
Variable strftime : date -> string.
Variable str_int : Z -> string.

Lemma draw_rows_frame (qs : list Transaction.t) (y : Q) :
  (y <= A4_height - 40)%Q ->
  Forall in_frame (drawn_at (draw_rows strftime y qs)).
Proof.
  revert y. induction qs as [|t qs IH]; intros y Hy; [constructor|].
  cbn [draw_rows]. rewrite !drawn_at_app.
  destruct (Qle_bool 40 y) eqn:E; cbn [negb].
  - apply Qle_bool_iff in E. apply Forall_app. split; [constructor|].
    apply Forall_app. split; [now apply draw_cells_frame|].
    apply IH. now apply next_line.
  - apply Forall_app. split; [constructor|].
    apply Forall_app. split.
    + apply draw_cells_frame; [exact head_margin|apply Qle_refl].
    + apply IH. apply next_line, Qle_refl.
Qed.

Lemma draw_rows_pages (qs : list Transaction.t) (y : Q) :
  pages (draw_rows strftime y qs) = page_breaks y (List.length qs).
Proof.
  revert y. induction qs as [|t qs IH]; intros y; [reflexivity|].
  cbn [draw_rows List.length page_breaks].
  rewrite !pages_app, draw_cells_pages, IH.
  destruct (negb (Qle_bool 40 y)); reflexivity.
Qed.

(** The canvas of an export that was delivered. *)
Lemma export_pdf_canvas (db : DB) (request : Request)
    (o : Outcome (list CanvasOp)) (ops : list CanvasOp)
    (content_type : string) :
  export_pdf strftime str_int db request = inr o ->
  response o = HttpResponse ops content_type ->
  exists biz,
    session_biz_id request = Some biz /\
    ops = ([setFont "Helvetica-Bold" 14;
            drawString 40 (A4_height - 40) "Transactions Report (first 200)";
            setFont "Helvetica" 10;
            drawString 40 (A4_height - 40 - 20)
                       ("Business ID: " ++ str_int biz)%string;
            setFont "Helvetica-Bold" 9]
           ++ map (fun c => drawString (fst c) (A4_height - 40 - 20 - 20) (snd c))
                  (combine col_x headers)
           ++ [setFont "Helvetica" 9]
           ++ draw_rows strftime (A4_height - 40 - 20 - 20 - 12)
                        (pdf_queryset db biz)
           ++ [showPage; save])%list.
Proof.
  unfold export_pdf. intros H R.
  destruct (require_membership_cases (export_pdf_view strftime str_int)
              db request)
    as [E | (r & E & [-> | [c ->]])]; rewrite E in H;
    [|injection H as <-; discriminate R|injection H as <-; discriminate R].
  unfold export_pdf_view, session_item in H.
  destruct (session_biz_id request) as [biz|]; [|discriminate].
  cbn [bind ret] in H. injection H as <-. cbn [response] in R.
  injection R as <- _. exists biz. split; reflexivity.
Qed.

(** X27: every text of a delivered PDF export is drawn in one of the
    six columns, at an ordinate between the margins of 40 points at the
    foot and at the head of the A4 page: no row is drawn below the
    page. *)
Theorem export_pdf_inside_margins (db : DB) (request : Request)
    (o : Outcome (list CanvasOp)) (ops : list CanvasOp)
    (content_type : string) :
  export_pdf strftime str_int db request = inr o ->
  response o = HttpResponse ops content_type ->
  Forall in_frame (drawn_at ops).
Proof.
  intros H R.
  destruct (export_pdf_canvas db request o ops content_type H R)
    as (biz & _ & ->).
  rewrite !drawn_at_app. apply Forall_app. split.
  { cbn [drawn_at flat_map app].
    repeat (constructor;
            [split; [cbn; auto 10|split; apply Qle_bool_iff; reflexivity]|]).
    constructor. }
  apply Forall_app. split.
  { cbn [drawn_at flat_map map combine col_x headers app fst snd].
    repeat (constructor;
            [split; [cbn; auto 10|split; apply Qle_bool_iff; reflexivity]|]).
    constructor. }
  apply Forall_app. split; [constructor|].
  apply Forall_app. split; [|constructor].
  apply draw_rows_frame. apply Qle_bool_iff. reflexivity.
Qed.

(** X28: a delivered PDF export has one page when it draws at most 60
    rows, and one more page for every 64 rows or part of them beyond:
    with r the lesser of 200 and the number of transactions of the
    active business, 1 page for r <= 60 and 2 + (r - 61) / 64 pages
    otherwise, so never more than 4. *)
Theorem export_pdf_pages (db : DB) (request : Request)
    (o : Outcome (list CanvasOp)) (ops : list CanvasOp)
    (content_type : string) :
  export_pdf strftime str_int db request = inr o ->
  response o = HttpResponse ops content_type ->
  exists biz,
    session_biz_id request = Some biz /\
    let r := Nat.min 200
               (List.length (filter (fun t => Transaction.business_id t =? biz)
                                    (transactions db))) in
    pages ops = (if r <=? 60 then 1 else 2 + (r - 61) / 64)%nat /\
    (pages ops <= 4)%nat.
Proof.
  intros H R.
  destruct (export_pdf_canvas db request o ops content_type H R)
    as (biz & Hs & ->).
  exists biz. split; [exact Hs|]. intros r.
  rewrite !pages_app, draw_rows_pages.
  assert (L : List.length (pdf_queryset db biz) = r)
    by (unfold pdf_queryset; now rewrite length_firstn, order_by_length).
  rewrite L.
  destruct (page_breaks_first_200 r ltac:(subst r; lia)) as [P1 P2].
  change (pages [showPage; save]) with 1%nat.
  change (pages [setFont "Helvetica" 9]) with 0%nat.
  change (pages (map (fun c => drawString (fst c) (A4_height - 40 - 20 - 20) (snd c))
                     (combine col_x headers))) with 0%nat.
  change (pages [setFont "Helvetica-Bold" 14;
                 drawString 40 (A4_height - 40) "Transactions Report (first 200)";
                 setFont "Helvetica" 10;
                 drawString 40 (A4_height - 40 - 20)
                            ("Business ID: " ++ str_int biz)%string;
                 setFont "Helvetica-Bold" 9]) with 0%nat.
  split; [|lia]. rewrite P1. destruct (r <=? 60)%nat; lia.
Qed.
End ExportPdfLayout.

Lemma export_pdf_inside_margins_witness :
  exists o ops,
    export_pdf Sample.strftime Sample.str_int (Sample.db Cases.may)
               (Sample.get Sample.carol 1) = inr o /\
    response o = HttpResponse ops "application/pdf" /\
    Forall in_frame (drawn_at ops).
Proof.
  eexists. eexists. split; [reflexivity|]. split; [reflexivity|].
  exact (export_pdf_inside_margins Sample.strftime Sample.str_int
           (Sample.db Cases.may) (Sample.get Sample.carol 1) _ _ _
           eq_refl eq_refl).
Defined.

Lemma export_pdf_pages_witness :
  exists o ops,
    export_pdf Sample.strftime Sample.str_int (Sample.db Cases.may)
               (Sample.get Sample.carol 1) = inr o /\
    response o = HttpResponse ops "application/pdf" /\
    pages ops = 1%nat.
Proof.
  eexists. eexists. split; [reflexivity|]. split; [reflexivity|].
  destruct (export_pdf_pages Sample.strftime Sample.str_int
              (Sample.db Cases.may) (Sample.get Sample.carol 1) _ _ _
              eq_refl eq_refl) as (biz & Hs & P & _).
  injection Hs as <-. exact P.
Defined.
